(** * JSON-RPC 2.0 codec of dfuse-io/rpc (package [json2]): a shallow embedding

    The development follows the Go sources of [v2/json2]:
    - [utils.go]: [structFieldsToFieldsSlice] and [StructFields.UnmarshalJSON],
      the positional parameter binder;
    - [client.go]: [clientRequest], [clientResponse], [EncodeClientRequest];
    - [json_test.go]: the service [Service1], its error mapper and the
      response recorder.

    Go values live in a heap of cells; a pointer holds a place in it, a
    cell or a field of the struct in a cell, so that the binder's writes
    through field pointers are visible to every holder of the target
    structure.  A call returns or panics.

    The libraries the sources call are modelled next to them: [strconv],
    [unicode/utf8], the JSON texts [encoding/json] writes and reads, and
    [encoding/json] on Go values.  The binder of [utils.go] takes [gjson]
    and [json.Unmarshal] through the interface [Libs], and its theorems
    hold for every implementation of it.

    The server side of the codec is not among the sources; the module
    [Server] is written from the spec. *)

From Stdlib Require Import ZArith List String Ascii Bool Lia.
From stdpp Require Import base list.
Import ListNotations.

Set Warnings "-register-all".
Local Open Scope string_scope.
Local Open Scope Z_scope.

(* ====================================================================== *)
(** * Go types, kinds and values                                           *)
(* ====================================================================== *)

Module Go.

(** [reflect.Kind], in the order of the [reflect] package. *)
Inductive Kind : Set :=
| Invalid | Bool | Int | Int8 | Int16 | Int32 | Int64
| Uint | Uint8 | Uint16 | Uint32 | Uint64 | Uintptr
| Float32 | Float64 | Complex64 | Complex128
| Array | Chan | Func | Interface | Map | Pointer | Slice
| String | Struct | UnsafePointer.

(** [Kind.String()]: the names of [reflect]'s [kindNames] table. *)
Definition Kind_String (k : Kind) : string :=
  match k with
  | Invalid => "invalid" | Bool => "bool" | Int => "int" | Int8 => "int8"
  | Int16 => "int16" | Int32 => "int32" | Int64 => "int64"
  | Uint => "uint" | Uint8 => "uint8" | Uint16 => "uint16"
  | Uint32 => "uint32" | Uint64 => "uint64" | Uintptr => "uintptr"
  | Float32 => "float32" | Float64 => "float64"
  | Complex64 => "complex64" | Complex128 => "complex128"
  | Array => "array" | Chan => "chan" | Func => "func"
  | Interface => "interface" | Map => "map" | Pointer => "ptr"
  | Slice => "slice" | String => "string" | Struct => "struct"
  | UnsafePointer => "unsafe.Pointer"
  end.

(** The types of the cells the codec binds into: the argument structures
    of the services and their fields.  A struct type carries its name as
    [%T] prints it and its fields in declaration order.  Fields of
    pointer, slice, map and float types are outside this universe. *)
Inductive type : Set :=
| TBool
| TInt
| TUint64
| TString
| TStruct (name : string) (fields : list (string * type)).

Definition kindOf (t : type) : Kind :=
  match t with
  | TBool => Bool
  | TInt => Int
  | TUint64 => Uint64
  | TString => String
  | TStruct _ _ => Struct
  end.

(** [Type.String()], what [fmt]'s verb [%T] prints. *)
Definition type_String (t : type) : string :=
  match t with
  | TBool => "bool"
  | TInt => "int"
  | TUint64 => "uint64"
  | TString => "string"
  | TStruct name _ => name
  end.

(** Addresses of heap cells. *)
Definition addr := nat.

(** What a pointer points to: a cell, or the field reached from the struct
    in a cell by a path of field indices. *)
Definition place : Set := (addr * list nat)%type.

(** A value held in an [interface{}] or in a heap cell.  [VNil] is the nil
    interface.  [VPtr elem p] has type [*elem]; it is nil when [p] is
    [None] and otherwise holds the place it points to.  A struct lies in
    one cell, its fields in declaration order. *)
Inductive value : Set :=
| VNil
| VBool (b : bool)
| VInt (z : Z)
| VUint64 (z : Z)
| VString (s : string)
| VStruct (name : string) (fields : list (string * type)) (vals : list value)
| VPtr (elem : type) (p : option place).

(** The dynamic type of an interface value: none for the nil interface, a
    cell type, or a pointer to one. *)
Inductive dyntype : Set :=
| NoType
| Plain (t : type)
| PtrTo (t : type).

Definition typeOf (v : value) : dyntype :=
  match v with
  | VNil => NoType
  | VBool _ => Plain TBool
  | VInt _ => Plain TInt
  | VUint64 _ => Plain TUint64
  | VString _ => Plain TString
  | VStruct n fs _ => Plain (TStruct n fs)
  | VPtr e _ => PtrTo e
  end.

(** [reflect.ValueOf(v).Kind()]. *)
Definition Kind_of_value (v : value) : Kind :=
  match typeOf v with
  | NoType => Invalid
  | Plain t => kindOf t
  | PtrTo _ => Pointer
  end.

(** [fmt]'s verb [%T] on an interface value. *)
Definition T_String (v : value) : string :=
  match typeOf v with
  | NoType => "<nil>"
  | Plain t => type_String t
  | PtrTo t => "*" ++ type_String t
  end.

(** A call either returns or panics. *)
Inductive outcome (A : Type) : Type :=
| Returns (a : A)
| Panics (msg : string).
Arguments Returns {A} a.
Arguments Panics {A} msg.

(** The heap: the cell at address [a] is [h !! a]. *)
Abbreviation heap := (list value) (only parsing).

(** Go's [int] and [int64] on a 64-bit platform: two's complement
    wrap-around into [-2^63, 2^63). *)
Definition wrap64 (z : Z) : Z := (z + 2 ^ 63) mod 2 ^ 64 - 2 ^ 63.

Definition int_mul (a b : Z) : Z := wrap64 (a * b).

Definition in_int (z : Z) : Prop := - 2 ^ 63 <= z < 2 ^ 63.

(** An identifier is exported when its first letter is upper case
    ([token.IsExported]).  The upper-case letters here are the ASCII ones:
    the definition is Go's on the names that begin with an ASCII
    character ([asciiName]); a name that begins with an upper-case letter
    outside ASCII is exported in Go and not here. *)
Definition IsExported (name : string) : bool :=
  match name with
  | EmptyString => false
  | String.String c _ => (65 <=? Z.of_N (N_of_ascii c)) && (Z.of_N (N_of_ascii c) <=? 90)
  end.

(** The name begins with an ASCII character. *)
Definition asciiName (name : string) : bool :=
  match name with
  | EmptyString => false
  | String.String c _ => Z.of_N (N_of_ascii c) <? 128
  end.

End Go.

(* ====================================================================== *)
(** * [strconv]: decimal numerals                                           *)
(* ====================================================================== *)

Module strconv.

Definition code (c : ascii) : Z := Z.of_N (N_of_ascii c).

(** The double quote. *)
Definition dquote : ascii := "034"%char.

Definition digitChar (d : Z) : ascii := ascii_of_N (Z.to_N (48 + d)).

Definition isDigit (c : ascii) : bool := (48 <=? code c) && (code c <=? 57).

(** The decimal digits of [n >= 0] in front of [acc]; [fuel] bounds the
    number of digits. *)
Fixpoint utoa_aux (fuel : nat) (n : Z) (acc : string) : string :=
  match fuel with
  | O => acc
  | S fuel' =>
      let acc' := String.String (digitChar (n mod 10)) acc in
      if n <? 10 then acc' else utoa_aux fuel' (n / 10) acc'
  end.

Definition utoa (n : Z) : string :=
  utoa_aux (S (Z.to_nat (Z.log2 n))) n EmptyString.

(** [strconv.Itoa] and [%d]. *)
Definition Itoa (z : Z) : string :=
  if z <? 0 then String.String "-" (utoa (- z)) else utoa z.

(** The value of a run of decimal digits, most significant first. *)
Fixpoint digitsVal (acc : Z) (s : string) : option Z :=
  match s with
  | EmptyString => Some acc
  | String.String c r =>
      if isDigit c then digitsVal (10 * acc + (code c - 48)) r else None
  end.

(** [strconv.ParseInt(s, 10, 64)] restricted to what a JSON number literal
    can be: an optional minus sign and at least one digit; a value outside
    [int64] is a range error. *)
Definition ParseInt (s : string) : option Z :=
  let signed (neg : bool) (digits : string) :=
    match digits with
    | EmptyString => None
    | _ =>
        match digitsVal 0 digits with
        | Some n =>
            let z := if neg then - n else n in
            if (- 2 ^ 63 <=? z) && (z <? 2 ^ 63) then Some z else None
        | None => None
        end
    end in
  match s with
  | String.String c r => if Ascii.eqb c "-" then signed true r else signed false s
  | EmptyString => None
  end.

(** [strconv.ParseUint(s, 10, 64)]. *)
Definition ParseUint (s : string) : option Z :=
  match s with
  | EmptyString => None
  | _ =>
      match digitsVal 0 s with
      | Some n => if n <? 2 ^ 64 then Some n else None
      | None => None
      end
  end.

(** Every character of the string passes the test. *)
Fixpoint strAll (p : ascii -> bool) (s : string) : bool :=
  match s with
  | EmptyString => true
  | String.String c r => p c && strAll p r
  end.

End strconv.

(* ====================================================================== *)
(** * [unicode/utf8] and [unicode/utf16]                                    *)
(* ====================================================================== *)

Module utf8.

Definition RuneError : Z := 0xFFFD.

Definition byte (z : Z) : ascii := ascii_of_N (Z.to_N z).

(** [s[n:]] and [s[:n]], cut at the end of [s]. *)
Fixpoint drop (n : nat) (s : string) : string :=
  match n, s with
  | O, _ => s
  | S n', String.String _ r => drop n' r
  | S _, EmptyString => EmptyString
  end.

Fixpoint take (n : nat) (s : string) : string :=
  match n, s with
  | O, _ => EmptyString
  | S n', String.String c r => String.String c (take n' r)
  | S _, EmptyString => EmptyString
  end.

(** [utf8.DecodeRuneInString]: the rune at the head of [s] and its width
    in bytes; [(RuneError, 1)] when the head is not a valid encoding and
    [(RuneError, 0)] on the empty string. *)
Definition DecodeRune (s : string) : Z * nat :=
  match s with
  | EmptyString => (RuneError, 0%nat)
  | String.String c0 r =>
      let s0 := strconv.code c0 in
      if s0 <? 0x80 then (s0, 1%nat)
      else if (s0 <? 0xC2) || (0xF4 <? s0) then (RuneError, 1%nat)
      else
        let sz := if s0 <? 0xE0 then 2%nat else if s0 <? 0xF0 then 3%nat else 4%nat in
        let lo := if s0 =? 0xE0 then 0xA0 else if s0 =? 0xF0 then 0x90 else 0x80 in
        let hi := if s0 =? 0xED then 0x9F else if s0 =? 0xF4 then 0x8F else 0xBF in
        match r with
        | EmptyString => (RuneError, 1%nat)
        | String.String c1 r1 =>
            let s1 := strconv.code c1 in
            if (s1 <? lo) || (hi <? s1) then (RuneError, 1%nat)
            else if Nat.eqb sz 2 then
              (Z.lor (Z.shiftl (Z.land s0 0x1F) 6) (Z.land s1 0x3F), 2%nat)
            else
              match r1 with
              | EmptyString => (RuneError, 1%nat)
              | String.String c2 r2 =>
                  let s2 := strconv.code c2 in
                  if (s2 <? 0x80) || (0xBF <? s2) then (RuneError, 1%nat)
                  else if Nat.eqb sz 3 then
                    (Z.lor (Z.shiftl (Z.land s0 0x0F) 12)
                       (Z.lor (Z.shiftl (Z.land s1 0x3F) 6) (Z.land s2 0x3F)), 3%nat)
                  else
                    match r2 with
                    | EmptyString => (RuneError, 1%nat)
                    | String.String c3 _ =>
                        let s3 := strconv.code c3 in
                        if (s3 <? 0x80) || (0xBF <? s3) then (RuneError, 1%nat)
                        else
                          (Z.lor (Z.shiftl (Z.land s0 0x07) 18)
                             (Z.lor (Z.shiftl (Z.land s1 0x3F) 12)
                                (Z.lor (Z.shiftl (Z.land s2 0x3F) 6) (Z.land s3 0x3F))),
                           4%nat)
                    end
              end
        end
  end.

(** The head of [s] is not a valid encoding: [c == RuneError && size == 1]. *)
Definition invalidHead (s : string) : bool :=
  let '(c, size) := DecodeRune s in (c =? RuneError) && Nat.eqb size 1.

(** [utf8.EncodeRune]/[utf8.AppendRune]: a surrogate or a rune out of range
    is encoded as [RuneError]. *)
Definition EncodeRune (r : Z) : string :=
  let enc3 (r : Z) :=
    String.String (byte (Z.lor 0xE0 (Z.shiftr r 12)))
      (String.String (byte (Z.lor 0x80 (Z.land (Z.shiftr r 6) 0x3F)))
         (String.String (byte (Z.lor 0x80 (Z.land r 0x3F))) EmptyString)) in
  if (0 <=? r) && (r <? 0x80) then String.String (byte r) EmptyString
  else if (0 <=? r) && (r <? 0x800) then
    String.String (byte (Z.lor 0xC0 (Z.shiftr r 6)))
      (String.String (byte (Z.lor 0x80 (Z.land r 0x3F))) EmptyString)
  else if (r <? 0) || (0x10FFFF <? r) || ((0xD800 <=? r) && (r <=? 0xDFFF)) then
    enc3 RuneError
  else if r <? 0x10000 then enc3 r
  else
    String.String (byte (Z.lor 0xF0 (Z.shiftr r 18)))
      (String.String (byte (Z.lor 0x80 (Z.land (Z.shiftr r 12) 0x3F)))
         (String.String (byte (Z.lor 0x80 (Z.land (Z.shiftr r 6) 0x3F)))
            (String.String (byte (Z.lor 0x80 (Z.land r 0x3F))) EmptyString))).

(** [utf8.ValidString]: every position decodes to a rune. *)
Fixpoint validFrom (fuel : nat) (s : string) : bool :=
  match s, fuel with
  | EmptyString, _ => true
  | _, O => false
  | _, S fuel' =>
      if invalidHead s then false
      else validFrom fuel' (drop (snd (DecodeRune s)) s)
  end.

Definition ValidString (s : string) : bool := validFrom (String.length s) s.

(** The string with every byte that does not start a valid encoding
    replaced by the encoding of [RuneError]: what decoding rune by rune and
    encoding each rune again gives. *)
Fixpoint toValidFrom (fuel : nat) (s : string) : string :=
  match s, fuel with
  | EmptyString, _ => EmptyString
  | _, O => EmptyString
  | String.String _ r, S fuel' =>
      if invalidHead s then EncodeRune RuneError ++ toValidFrom fuel' r
      else
        let size := snd (DecodeRune s) in
        take size s ++ toValidFrom fuel' (drop size s)
  end.

Definition ToValid (s : string) : string := toValidFrom (String.length s) s.

(** The byte is not ASCII. *)
Definition isHigh (c : ascii) : bool := 128 <=? strconv.code c.

End utf8.

Module utf16.

Definition IsSurrogate (r : Z) : bool := (0xD800 <=? r) && (r <? 0xE000).

(** [utf16.DecodeRune]: the rune of a surrogate pair, [RuneError] when the
    pair is not valid. *)
Definition DecodeRune (r1 r2 : Z) : Z :=
  if (0xD800 <=? r1) && (r1 <? 0xDC00) && (0xDC00 <=? r2) && (r2 <? 0xE000) then
    Z.lor (Z.shiftl (r1 - 0xD800) 10) (r2 - 0xDC00) + 0x10000
  else utf8.RuneError.

End utf16.

(* ====================================================================== *)
(** * JSON texts: the syntax [encoding/json] writes and reads               *)
(* ====================================================================== *)

Module JSON.

(** A JSON document.  A number keeps its literal, as [json.Number] does; a
    string is held unquoted; an object keeps its members in order. *)
Inductive json : Set :=
| JNull
| JBool (b : bool)
| JNum (lit : string)
| JStr (s : string)
| JArr (elems : list json)
| JObj (members : list (string * json)).

(** ** Writing *)

Definition hexDigit (d : Z) : ascii :=
  if d <? 10 then utf8.byte (48 + d) else utf8.byte (87 + d).

(** The escape [\u00XY] of a byte. *)
Definition u00 (b : Z) : string :=
  String.String "\" (String.String "u" (String.String "0" (String.String "0"
    (String.String (hexDigit (Z.shiftr b 4))
       (String.String (hexDigit (Z.land b 0xF)) EmptyString))))).

(** [htmlSafeSet]: the ASCII bytes written as they are. *)
Definition htmlSafe (b : Z) : bool :=
  (32 <=? b) && (b <? 128)
  && negb ((b =? 34) || (b =? 92) || (b =? 60) || (b =? 62) || (b =? 38)).

(** How [appendString] writes an ASCII byte, as Go does from 1.22 on.
    (Before 1.22 the bytes 8 and 12 were written [\u0008] and [\u000c]
    instead of [\b] and [\f]; the JSON string is the same.) *)
Definition escapeByte (c : ascii) : string :=
  let b := strconv.code c in
  if htmlSafe b then String.String c EmptyString
  else if (b =? 34) || (b =? 92) then String.String "\" (String.String c EmptyString)
  else if b =? 8 then String.String "\" (String.String "b" EmptyString)
  else if b =? 12 then String.String "\" (String.String "f" EmptyString)
  else if b =? 10 then String.String "\" (String.String "n" EmptyString)
  else if b =? 13 then String.String "\" (String.String "r" EmptyString)
  else if b =? 9 then String.String "\" (String.String "t" EmptyString)
  else u00 b.

Definition lineSep : string :=
  String.String (utf8.byte 0xE2) (String.String (utf8.byte 0x80)
    (String.String (utf8.byte 0xA8) EmptyString)).
Definition paraSep : string :=
  String.String (utf8.byte 0xE2) (String.String (utf8.byte 0x80)
    (String.String (utf8.byte 0xA9) EmptyString)).

(** The body of [appendString] with HTML escaping on, as [json.Marshal]
    has it: ASCII bytes by [escapeByte], a byte that starts no valid
    encoding as the escape of U+FFFD, U+2028 and U+2029 as their escapes, every
    other rune as its bytes.  (An encoder built on [encoding/json/v2]
    writes the three bytes of U+FFFD in place of the escape; the JSON
    string is the same.) *)
Fixpoint appendString (fuel : nat) (s : string) : string :=
  match s, fuel with
  | EmptyString, _ => EmptyString
  | _, O => EmptyString
  | String.String c r, S fuel' =>
      if strconv.code c <? 0x80 then escapeByte c ++ appendString fuel' r
      else if utf8.invalidHead s then ("\" ++ "ufffd") ++ appendString fuel' r
      else
        let size := snd (utf8.DecodeRune s) in
        if String.eqb (utf8.take size s) lineSep then
          ("\" ++ "u2028") ++ appendString fuel' (utf8.drop size s)
        else if String.eqb (utf8.take size s) paraSep then
          ("\" ++ "u2029") ++ appendString fuel' (utf8.drop size s)
        else utf8.take size s ++ appendString fuel' (utf8.drop size s)
  end.

(** A quoted string in front of [k]. *)
Definition quoteTo (s : string) (k : string) : string :=
  String.String strconv.dquote (appendString (String.length s) s ++ String.String strconv.dquote k).

(** The compact text of a document in front of [k]. *)
Fixpoint printTo (j : json) (k : string) : string :=
  match j with
  | JNull => "null" ++ k
  | JBool true => "true" ++ k
  | JBool false => "false" ++ k
  | JNum lit => lit ++ k
  | JStr s => quoteTo s k
  | JArr elems =>
      String.String "["
        match elems with
        | [] => String.String "]" k
        | x :: xs =>
            printTo x
              (fold_right (fun y acc => String.String "," (printTo y acc))
                 (String.String "]" k) xs)
        end
  | JObj members =>
      String.String "{"
        match members with
        | [] => String.String "}" k
        | (n, x) :: xs =>
            quoteTo n (String.String ":" (printTo x
              (fold_right
                 (fun m acc =>
                    String.String "," (quoteTo (fst m)
                      (String.String ":" (printTo (snd m) acc))))
                 (String.String "}" k) xs)))
        end
  end.

Definition print (j : json) : string := printTo j EmptyString.

(** ** Reading *)

Definition isSpace (c : ascii) : bool :=
  let b := strconv.code c in (b =? 32) || (b =? 9) || (b =? 10) || (b =? 13).

Fixpoint skipWs (s : string) : string :=
  match s with
  | String.String c r => if isSpace c then skipWs r else s
  | EmptyString => s
  end.

Definition hexVal (c : ascii) : option Z :=
  let b := strconv.code c in
  if (48 <=? b) && (b <=? 57) then Some (b - 48)
  else if (97 <=? b) && (b <=? 102) then Some (b - 87)
  else if (65 <=? b) && (b <=? 70) then Some (b - 55)
  else None.

(** [getu4] on the four characters after [\u]. *)
Definition hex4 (h1 h2 h3 h4 : ascii) : option Z :=
  match hexVal h1, hexVal h2, hexVal h3, hexVal h4 with
  | Some a, Some b, Some c, Some d => Some (((a * 16 + b) * 16 + c) * 16 + d)
  | _, _, _, _ => None
  end.

(** The byte a one-letter escape stands for. *)
Definition simpleEscape (e : ascii) : option ascii :=
  let b := strconv.code e in
  if (b =? 34) || (b =? 92) || (b =? 47) then Some e
  else if b =? 98 then Some (utf8.byte 8)
  else if b =? 102 then Some (utf8.byte 12)
  else if b =? 110 then Some (utf8.byte 10)
  else if b =? 114 then Some (utf8.byte 13)
  else if b =? 116 then Some (utf8.byte 9)
  else None.

Definition prepend (p : string) (r : option (string * string)) : option (string * string) :=
  match r with
  | Some (s, rest) => Some (p ++ s, rest)
  | None => None
  end.

(** The body of a string literal, after the opening quote: its bytes with
    the escapes resolved, and the text after the closing quote.  A control
    byte, an unknown escape and a missing closing quote are syntax
    errors. *)
Fixpoint scanString (s : string) : option (string * string) :=
  match s with
  | EmptyString => None
  | String.String c r =>
      if Ascii.eqb c strconv.dquote then Some (EmptyString, r)
      else if Ascii.eqb c "\" then
        match r with
        | EmptyString => None
        | String.String e r1 =>
            match simpleEscape e with
            | Some b => prepend (String.String b EmptyString) (scanString r1)
            | None =>
                if Ascii.eqb e "u" then
                  match r1 with
                  | String.String h1 (String.String h2 (String.String h3 (String.String h4 r2))) =>
                      match hex4 h1 h2 h3 h4 with
                      | None => None
                      | Some rr =>
                          if utf16.IsSurrogate rr then
                            match r2 with
                            | String.String b1 (String.String b2 (String.String g1
                                (String.String g2 (String.String g3 (String.String g4 r3))))) =>
                                match (if Ascii.eqb b1 "\" && Ascii.eqb b2 "u"
                                       then hex4 g1 g2 g3 g4 else None) with
                                | Some rr1 =>
                                    let dec := utf16.DecodeRune rr rr1 in
                                    if dec =? utf8.RuneError then
                                      prepend (utf8.EncodeRune utf8.RuneError) (scanString r2)
                                    else prepend (utf8.EncodeRune dec) (scanString r3)
                                | None =>
                                    prepend (utf8.EncodeRune utf8.RuneError) (scanString r2)
                                end
                            | _ => prepend (utf8.EncodeRune utf8.RuneError) (scanString r2)
                            end
                          else prepend (utf8.EncodeRune rr) (scanString r2)
                      end
                  | _ => None
                  end
                else None
            end
        end
      else if strconv.code c <? 32 then None
      else prepend (String.String c EmptyString) (scanString r)
  end.

(** A string literal read: the decoder replaces every byte of the literal
    that starts no valid encoding by U+FFFD.  The escapes resolve to whole
    runes, so replacing after resolving them gives what the decoder's
    single pass gives. *)
Definition readString (s : string) : option (string * string) :=
  match scanString s with
  | Some (raw, rest) => Some (utf8.ToValid raw, rest)
  | None => None
  end.

Definition isNumChar (c : ascii) : bool :=
  let b := strconv.code c in
  strconv.isDigit c || (b =? 45) || (b =? 43) || (b =? 46) || (b =? 101) || (b =? 69).

(** The longest run of number characters at the head, and the rest. *)
Fixpoint spanNum (s : string) : string * string :=
  match s with
  | String.String c r =>
      if isNumChar c then let '(n, rest) := spanNum r in (String.String c n, rest)
      else (EmptyString, s)
  | EmptyString => (EmptyString, EmptyString)
  end.

Fixpoint skipDigits (s : string) : string :=
  match s with
  | String.String c r => if strconv.isDigit c then skipDigits r else s
  | EmptyString => s
  end.

(** The exponent part of a number literal, or nothing. *)
Definition validExp (s : string) : bool :=
  match s with
  | EmptyString => true
  | String.String e r =>
      if (strconv.code e =? 101) || (strconv.code e =? 69) then
        let r' := match r with
                  | String.String sg r1 =>
                      if (strconv.code sg =? 43) || (strconv.code sg =? 45) then r1 else r
                  | EmptyString => r
                  end in
        match r' with
        | String.String d r2 =>
            strconv.isDigit d && match skipDigits r2 with EmptyString => true | _ => false end
        | EmptyString => false
        end
      else false
  end.

(** The fraction and exponent parts, or nothing. *)
Definition validFrac (s : string) : bool :=
  match s with
  | String.String c r =>
      if strconv.code c =? 46 then
        match r with
        | String.String d r1 => strconv.isDigit d && validExp (skipDigits r1)
        | EmptyString => false
        end
      else validExp s
  | EmptyString => true
  end.

(** The grammar of a JSON number: an optional minus sign; a zero, or a
    digit from 1 to 9 followed by digits; optionally a point and digits;
    optionally an exponent. *)
Definition validNumber (s : string) : bool :=
  let s1 := match s with
            | String.String c r => if strconv.code c =? 45 then r else s
            | EmptyString => s
            end in
  match s1 with
  | String.String c r =>
      if strconv.code c =? 48 then validFrac r
      else if strconv.isDigit c then validFrac (skipDigits r)
      else false
  | EmptyString => false
  end.

(** [strings.HasPrefix]. *)
Fixpoint HasPrefix (s word : string) {struct word} : bool :=
  match word, s with
  | EmptyString, _ => true
  | String.String a word', String.String b s' => Ascii.eqb a b && HasPrefix s' word'
  | String.String _ _, EmptyString => false
  end.

Definition expect (word : string) (v : json) (s : string) : option (json * string) :=
  if HasPrefix s word then Some (v, utf8.drop (String.length word) s) else None.

(** The elements of an array after the first [[]: values separated by
    commas up to the closing bracket.  [pv] reads one value; [n] bounds the
    number of elements. *)
Fixpoint parseElems (pv : string -> option (json * string)) (n : nat) (s : string)
  : option (list json * string) :=
  match n with
  | O => None
  | S n' =>
      match pv s with
      | Some (v, rest) =>
          match skipWs rest with
          | String.String c rest' =>
              if Ascii.eqb c "," then
                match parseElems pv n' rest' with
                | Some (vs, r) => Some (v :: vs, r)
                | None => None
                end
              else if Ascii.eqb c "]" then Some ([v], rest')
              else None
          | EmptyString => None
          end
      | None => None
      end
  end.

(** The members of an object after the first [{]. *)
Fixpoint parseMembers (pv : string -> option (json * string)) (n : nat) (s : string)
  : option (list (string * json) * string) :=
  match n with
  | O => None
  | S n' =>
      match skipWs s with
      | String.String q r =>
          if Ascii.eqb q strconv.dquote then
            match readString r with
            | Some (key, rest) =>
                match skipWs rest with
                | String.String c rest1 =>
                    if Ascii.eqb c ":" then
                      match pv rest1 with
                      | Some (v, rest2) =>
                          match skipWs rest2 with
                          | String.String d rest3 =>
                              if Ascii.eqb d "," then
                                match parseMembers pv n' rest3 with
                                | Some (ms, r') => Some ((key, v) :: ms, r')
                                | None => None
                                end
                              else if Ascii.eqb d "}" then Some ([(key, v)], rest3)
                              else None
                          | EmptyString => None
                          end
                      | None => None
                      end
                    else None
                | EmptyString => None
                end
            | None => None
            end
          else None
      | EmptyString => None
      end
  end.

(** One value at the head of [s], after optional white space; [fuel]
    bounds the nesting. *)
Fixpoint parseValue (fuel : nat) (s : string) : option (json * string) :=
  match fuel with
  | O => None
  | S fuel' =>
      match skipWs s with
      | EmptyString => None
      | String.String c r =>
          if Ascii.eqb c "{" then
            match skipWs r with
            | String.String d r' =>
                if Ascii.eqb d "}" then Some (JObj [], r')
                else
                  match parseMembers (parseValue fuel') (String.length r) r with
                  | Some (ms, rest) => Some (JObj ms, rest)
                  | None => None
                  end
            | EmptyString => None
            end
          else if Ascii.eqb c "[" then
            match skipWs r with
            | String.String d r' =>
                if Ascii.eqb d "]" then Some (JArr [], r')
                else
                  match parseElems (parseValue fuel') (String.length r) r with
                  | Some (vs, rest) => Some (JArr vs, rest)
                  | None => None
                  end
            | EmptyString => None
            end
          else if Ascii.eqb c strconv.dquote then
            match readString r with
            | Some (str, rest) => Some (JStr str, rest)
            | None => None
            end
          else if Ascii.eqb c "t" then expect "rue" (JBool true) r
          else if Ascii.eqb c "f" then expect "alse" (JBool false) r
          else if Ascii.eqb c "n" then expect "ull" JNull r
          else if Ascii.eqb c "-" || strconv.isDigit c then
            let '(lit, rest) := spanNum (String.String c r) in
            if validNumber lit then Some (JNum lit, rest) else None
          else None
      end
  end.

(** A whole text: one value, white space around it, nothing else. *)
Definition parse (s : string) : option json :=
  match parseValue (S (String.length s)) s with
  | Some (j, rest) =>
      match skipWs rest with
      | EmptyString => Some j
      | _ => None
      end
  | None => None
  end.

(** [json.Valid]. *)
Definition Valid (s : string) : bool :=
  match parse s with Some _ => true | None => false end.

(** The last member of the name, as [encoding/json] binds a repeated key. *)
Definition member (key : string) (ms : list (string * json)) : option json :=
  option_map snd (List.find (fun m => String.eqb (fst m) key) (rev ms)).

(** ** Well-formed documents

    What [parse] reads back unchanged: number literals of the JSON grammar
    and strings that are valid UTF-8. *)

Fixpoint size (j : json) : nat :=
  match j with
  | JArr l => S (list_sum (map size l))
  | JObj ms => S (list_sum (map (fun m => size (snd m)) ms))
  | _ => 1%nat
  end.

Fixpoint wf (j : json) : bool :=
  match j with
  | JNum lit => validNumber lit && strconv.strAll isNumChar lit
  | JStr s => utf8.ValidString s
  | JArr l => forallb wf l
  | JObj ms => forallb (fun m => utf8.ValidString (fst m) && wf (snd m)) ms
  | _ => true
  end.

(** The tails [printTo] writes after the first element and member. *)
Definition printElems (xs : list json) (k : string) : string :=
  fold_right (fun y acc => String.String "," (printTo y acc)) (String.String "]" k) xs.

Definition printMembers (xs : list (string * json)) (k : string) : string :=
  fold_right
    (fun m acc => String.String "," (quoteTo (fst m) (String.String ":" (printTo (snd m) acc))))
    (String.String "}" k) xs.

(** The text does not go on with a number character. *)
Definition noNumHead (k : string) : bool :=
  match k with
  | String.String c _ => negb (JSON.isNumChar c)
  | EmptyString => true
  end.

(** The characters a value starts with. *)
Definition valueHead (c : ascii) : bool :=
  Ascii.eqb c "{" || Ascii.eqb c "[" || Ascii.eqb c strconv.dquote || Ascii.eqb c "t"
  || Ascii.eqb c "f" || Ascii.eqb c "n" || Ascii.eqb c "-" || strconv.isDigit c.

(** The text of a document is at least as long as the document is big. *)
Definition lengthOk (j : json) : Prop :=
  wf j = true -> forall k, (size j + String.length k <= String.length (printTo j k))%nat.

(** The reader [pv] gives the document back from its text, whatever
    follows that is not a number character. *)
Definition parsesBack (pv : string -> option (json * string)) (j : json) : Prop :=
  forall k, noNumHead k = true -> pv (printTo j k) = Some (j, k).

Definition readsBack (j : json) : Prop :=
  forall fuel, (size j <= fuel)%nat -> wf j = true -> parsesBack (parseValue fuel) j.

End JSON.

(* ====================================================================== *)
(** * Errors                                                                *)
(* ====================================================================== *)

(** Modelled from the spec: the type [ErrorCode] of the missing file of
    errors, the codes of section 3 being 32-bit integers. *)
Definition ErrorCode := Z.

(** Modelled from the spec: the constants [E_PARSE] .. [E_SERVER] of the
    missing file of errors, with the values of the table of section 3. *)
Definition E_PARSE : ErrorCode := -32700.
Definition E_INVALID_REQ : ErrorCode := -32600.
Definition E_NO_METHOD : ErrorCode := -32601.
Definition E_BAD_PARAMS : ErrorCode := -32602.
Definition E_INTERNAL : ErrorCode := -32603.
Definition E_SERVER : ErrorCode := -32000.

(** Modelled from the spec: the missing type [Error], the error object
    [{code, message, data}] of section 3 that [json_test.go] builds and
    decodes; [Data] is raw JSON text or absent. *)
Record Error : Set := mkError {
  Code : ErrorCode;
  Message : string;
  Data : option string
}.

(** Go's [error] values.  [errors.New] allocates: two results are equal only
    when they are the same allocation, which [ident] stands for.
    [fmtError] is a [fmt.Errorf] without [%w], [wrapError] one with [%w],
    [jsonError] an error of [encoding/json], [rpcError] an [*Error]. *)
Inductive error : Set :=
| errorString (ident : nat) (s : string)
| fmtError (s : string)
| wrapError (s : string) (cause : error)
| jsonError (s : string)
| rpcError (e : Error).

(** The method [Error()]. *)
Definition error_Error (e : error) : string :=
  match e with
  | errorString _ s => s
  | fmtError s => s
  | wrapError s _ => s
  | jsonError s => s
  | rpcError e => Message e
  end.

(** [errors.Unwrap]. *)
Definition Unwrap (e : error) : option error :=
  match e with
  | wrapError _ c => Some c
  | _ => None
  end.

(** [err == err'] on two [error] interface values.  Every error is a
    pointer: the results of [errors.New] are equal when they are the same
    allocation; the other errors of the model are fresh allocations, equal
    to no other. *)
Definition error_eqb (e1 e2 : error) : bool :=
  match e1, e2 with
  | errorString i1 _, errorString i2 _ => Nat.eqb i1 i2
  | _, _ => false
  end.

(* ====================================================================== *)
(** * [encoding/json] on Go values                                          *)
(* ====================================================================== *)

Module encjson.

Import JSON.

(** The document [json.Marshal] writes for a value held in a cell: a
    struct is the object of its exported fields, in declaration order,
    under the fields' names. *)
Fixpoint marshalValue (v : Go.value) : json :=
  match v with
  | Go.VNil => JNull
  | Go.VBool b => JBool b
  | Go.VInt z => JNum (strconv.Itoa z)
  | Go.VUint64 z => JNum (strconv.utoa z)
  | Go.VString s => JStr s
  | Go.VStruct _ fields vals =>
      JObj ((fix members (fs : list (string * Go.type)) (vs : list Go.value) {struct vs} :=
               match fs, vs with
               | (n, _) :: fs', x :: vs' =>
                   if Go.IsExported n then (n, marshalValue x) :: members fs' vs'
                   else members fs' vs'
               | _, _ => []
               end) fields vals)
  | Go.VPtr _ _ => JNull
  end.

(** The value at the end of a path of field indices, from [v] on. *)
Fixpoint getPath (v : Go.value) (path : list nat) : option Go.value :=
  match path with
  | [] => Some v
  | i :: rest =>
      match v with
      | Go.VStruct _ _ vals =>
          match vals !! i with
          | Some x => getPath x rest
          | None => None
          end
      | _ => None
      end
  end.

(** [v] with [new] at the end of the path; a path that leads nowhere
    changes nothing. *)
Fixpoint setPath (v : Go.value) (path : list nat) (new : Go.value) : Go.value :=
  match path with
  | [] => new
  | i :: rest =>
      match v with
      | Go.VStruct n fs vals =>
          match vals !! i with
          | Some x => Go.VStruct n fs (<[i := setPath x rest new]> vals)
          | None => v
          end
      | _ => v
      end
  end.

(** Reading and writing through a pointer. *)
Definition load (h : Go.heap) (p : Go.place) : option Go.value :=
  match h !! fst p with
  | Some v => getPath v (snd p)
  | None => None
  end.

Definition store (h : Go.heap) (p : Go.place) (new : Go.value) : Go.heap :=
  match h !! fst p with
  | Some v => <[fst p := setPath v (snd p) new]> h
  | None => h
  end.

(** The document of an interface value: a pointer is followed, a nil
    pointer and the nil interface are [null].  [None] is an address outside
    the heap, which does not occur in Go. *)
Definition toJSON (h : Go.heap) (v : Go.value) : option json :=
  match v with
  | Go.VPtr _ (Some p) => option_map marshalValue (load h p)
  | _ => Some (marshalValue v)
  end.

(** [json.Marshal(v)].  No value of the universe makes it fail. *)
Definition Marshal (h : Go.heap) (v : Go.value) : Go.outcome (string * option error) :=
  match toJSON h v with
  | Some j => Go.Returns (print j, None)
  | None => Go.Panics "invalid memory address or nil pointer dereference"
  end.

(** The text of an [UnmarshalTypeError] for a value that is not a field
    of a struct.  (For a field of a struct [encoding/json] writes [Go
    struct field S.F of type T] in place of [Go value of type T]; the
    values decoded are the same.) *)
Definition typeError (what : string) (t : Go.type) : error :=
  jsonError ("json: cannot unmarshal " ++ what ++ " into Go value of type "
             ++ Go.type_String t).

Definition jsonKind (j : json) : string :=
  match j with
  | JNull => "null"
  | JBool _ => "bool"
  | JNum _ => "number"
  | JStr _ => "string"
  | JArr _ => "array"
  | JObj _ => "object"
  end.

Definition lower (c : ascii) : ascii :=
  let b := strconv.code c in
  if (65 <=? b) && (b <=? 90) then utf8.byte (b + 32) else c.

(** [strings.EqualFold], on ASCII letters. *)
Fixpoint EqualFold (s t : string) : bool :=
  match s, t with
  | EmptyString, EmptyString => true
  | String.String a s', String.String b t' => Ascii.eqb (lower a) (lower b) && EqualFold s' t'
  | _, _ => false
  end.

(** The field an object key binds to: the exported field of that name, or
    else the first exported field that has the name up to case. *)
Definition matchField (key : string) (fs : list (string * Go.type)) : option string :=
  let exported := List.filter (fun f => Go.IsExported (fst f)) fs in
  match List.find (fun f => String.eqb (fst f) key) exported with
  | Some f => Some (fst f)
  | None => option_map fst (List.find (fun f => EqualFold (fst f) key) exported)
  end.

Definition firstError (e1 e2 : option error) : option error :=
  match e1 with
  | Some _ => e1
  | None => e2
  end.

(** Decoding a document into a cell of type [t] that holds [old]: the new
    content of the cell and the error.  [null] leaves the cell as it is; a
    document of the wrong kind leaves it as it is and is a type error; an
    object is bound to a struct key by key, in the order of the text, the
    keys that match no field being skipped, and the first error is kept
    while the remaining keys are still bound. *)
Fixpoint decodeValue (t : Go.type) (j : json) (old : Go.value) {struct t}
  : Go.value * option error :=
  match j, t with
  | JNull, _ => (old, None)
  | JBool b, Go.TBool => (Go.VBool b, None)
  | JNum lit, Go.TInt =>
      match strconv.ParseInt lit with
      | Some z => (Go.VInt z, None)
      | None => (old, Some (typeError ("number " ++ lit) t))
      end
  | JNum lit, Go.TUint64 =>
      match strconv.ParseUint lit with
      | Some z => (Go.VUint64 z, None)
      | None => (old, Some (typeError ("number " ++ lit) t))
      end
  | JStr s, Go.TString => (Go.VString s, None)
  | JObj ms, Go.TStruct n fields =>
      let setField (name : string) (jv : json) :=
        fix go (fs : list (string * Go.type)) (vs : list Go.value)
          : list Go.value * option error :=
          match fs, vs with
          | (fname, ft) :: fs', x :: vs' =>
              if String.eqb fname name then
                let '(x', e) := decodeValue ft jv x in (x' :: vs', e)
              else
                let '(vs'', e) := go fs' vs' in (x :: vs'', e)
          | _, _ => (vs, None)
          end in
      let vals0 := match old with
                   | Go.VStruct _ _ vs => vs
                   | _ => []
                   end in
      let '(vals, err) :=
        fold_left
          (fun (acc : list Go.value * option error) (m : string * json) =>
             match matchField (fst m) fields with
             | Some name =>
                 let '(vals', e) := setField name (snd m) fields (fst acc) in
                 (vals', firstError (snd acc) e)
             | None => acc
             end)
          ms (vals0, None) in
      (Go.VStruct n fields vals, err)
  | _, _ => (old, Some (typeError (jsonKind j) t))
  end.

Definition SyntaxError : error := jsonError "json: syntax error".

Definition InvalidUnmarshalError (v : Go.value) : error :=
  jsonError
    match v with
    | Go.VNil => "json: Unmarshal(nil)"
    | Go.VPtr _ None => "json: Unmarshal(nil " ++ Go.T_String v ++ ")"
    | _ => "json: Unmarshal(non-pointer " ++ Go.T_String v ++ ")"
    end.

(** Decoding a document into what [v] points to. *)
Definition UnmarshalDoc (j : json) (v : Go.value) (h : Go.heap)
  : Go.heap * option error :=
  match v with
  | Go.VPtr t (Some p) =>
      match load h p with
      | Some old =>
          let '(new, err) := decodeValue t j old in (store h p new, err)
      | None => (h, Some (InvalidUnmarshalError (Go.VPtr t None)))
      end
  | _ => (h, Some (InvalidUnmarshalError v))
  end.

(** [json.Unmarshal(data, v)] on heap [h]: the heap after the call and
    the error.  The text is checked first; then [v] must be a pointer that
    is not nil; then the document is decoded into what [v] points to. *)
Definition Unmarshal (data : string) (v : Go.value) (h : Go.heap)
  : Go.heap * option error :=
  match parse data with
  | None => (h, Some SyntaxError)
  | Some j => UnmarshalDoc j v h
  end.

(** The zero value of a type. *)
Fixpoint zero (t : Go.type) : Go.value :=
  match t with
  | Go.TBool => Go.VBool false
  | Go.TInt => Go.VInt 0
  | Go.TUint64 => Go.VUint64 0
  | Go.TString => Go.VString EmptyString
  | Go.TStruct n fs => Go.VStruct n fs (map (fun f => zero (snd f)) fs)
  end.

End encjson.

(* ====================================================================== *)
(** * The libraries [utils.go] calls                                        *)
(* ====================================================================== *)

Module gjson.

(** [gjson.Type] and its [String()]. *)
Inductive Type_ : Set := Null | False_ | Number | String_ | True_ | JSON.

Definition Type_String (t : Type_) : string :=
  match t with
  | Null => "Null"
  | False_ => "False"
  | Number => "Number"
  | String_ => "String"
  | True_ => "True"
  | JSON => "JSON"
  end.

(** The fields of [gjson.Result] that the binder reads ([Typ] is the field
    [Type]). *)
Record Result : Set := mkResult {
  Typ : Type_;
  Raw : string
}.

End gjson.

(** What the binder takes from [github.com/tidwall/gjson] and from
    [encoding/json].  [json_Unmarshal data v h] is [json.Unmarshal(data, v)]
    run on heap [h]: the heap after the call and the error returned. *)
Record Libs : Type := mkLibs {
  ParseBytes : string -> gjson.Result;
  IsArray : gjson.Result -> bool;
  Array : gjson.Result -> list gjson.Result;
  json_Unmarshal : string -> Go.value -> Go.heap -> Go.heap * option error
}.

(** A reference implementation of the library interface, to run the
    binder on texts.  The reference is exact on the valid JSON texts, up
    to the white space within [Raw].  [gjson] reads leniently and the
    reference does not follow it on the other texts: it gives no element
    for an array that is not valid JSON, where [gjson] gives the elements
    it could read, and the type [Null] for a text that is no JSON value,
    where [gjson] may say [Number]. *)
Module gjsonRef.

Import JSON.

Definition typeOf (j : json) : gjson.Type_ :=
  match j with
  | JNull => gjson.Null
  | JBool true => gjson.True_
  | JBool false => gjson.False_
  | JNum _ => gjson.Number
  | JStr _ => gjson.String_
  | JArr _ => gjson.JSON
  | JObj _ => gjson.JSON
  end.

Definition resultOf (j : json) : gjson.Result := gjson.mkResult (typeOf j) (print j).

Definition ParseBytes (data : string) : gjson.Result :=
  match skipWs data with
  | EmptyString => gjson.mkResult gjson.Null EmptyString
  | String.String c r =>
      if Ascii.eqb c "{" || Ascii.eqb c "[" then
        gjson.mkResult gjson.JSON (String.String c r)
      else
        match parseValue (S (String.length data)) data with
        | Some (j, _) => resultOf j
        | None => gjson.mkResult gjson.Null EmptyString
        end
  end.

Definition IsArray (t : gjson.Result) : bool :=
  match gjson.Typ t, gjson.Raw t with
  | gjson.JSON, String.String c _ => Ascii.eqb c "["
  | _, _ => false
  end.

Definition Array (t : gjson.Result) : list gjson.Result :=
  match gjson.Typ t with
  | gjson.Null => []
  | _ =>
      if IsArray t then
        match parseValue (S (String.length (gjson.Raw t))) (gjson.Raw t) with
        | Some (JArr elems, _) => map resultOf elems
        | _ => []
        end
      else [t]
  end.

End gjsonRef.

Definition refLibs : Libs :=
  mkLibs gjsonRef.ParseBytes gjsonRef.IsArray gjsonRef.Array encjson.Unmarshal.

(* ====================================================================== *)
(** * utils.go                                                              *)
(* ====================================================================== *)

(** The place of field [i] of the struct at [base]. *)
Definition fieldPlace (base : Go.place) (i : nat) : Go.place :=
  (fst base, (snd base ++ [i])%list).

(** The loop of [structFieldsToFieldsSlice]: [v[i] =
    val.Field(i).Addr().Interface()] for the fields from index [i] on, the
    struct lying at [base].  [Interface] panics on a value obtained from an
    unexported field. *)
Fixpoint fieldPointers (base : Go.place) (i : nat) (fields : list (string * Go.type))
  : Go.outcome (list Go.value) :=
  match fields with
  | [] => Go.Returns []
  | (name, t) :: rest =>
      if Go.IsExported name then
        match fieldPointers base (S i) rest with
        | Go.Returns v => Go.Returns (Go.VPtr t (Some (fieldPlace base i)) :: v)
        | Go.Panics msg => Go.Panics msg
        end
      else
        Go.Panics "reflect.Value.Interface: cannot return value obtained from unexported field or method"
  end.

(** [structFieldsToFieldsSlice(u)].  The slice is [None] when nil.
    [val.NumField()] panics when [val] is not a struct, which is so for a
    nil pointer (then [Elem] is the zero [reflect.Value]) and for a pointer
    to anything else. *)
Definition structFieldsToFieldsSlice (u : Go.value)
  : Go.outcome (option (list Go.value) * option error) :=
  let valInterface_Kind := Go.Kind_of_value u in
  match u with
  | Go.VPtr elem p =>
      match p with
      | None =>
          Go.Panics "reflect: call of reflect.Value.NumField on zero Value"
      | Some base =>
          match elem with
          | Go.TStruct _ fields =>
              match fieldPointers base 0 fields with
              | Go.Returns v => Go.Returns (Some v, None)
              | Go.Panics msg => Go.Panics msg
              end
          | _ =>
              Go.Panics ("reflect: call of reflect.Value.NumField on "
                         ++ Go.Kind_String (Go.kindOf elem) ++ " Value")
          end
      end
  | _ =>
      Go.Returns (None,
        Some (fmtError ("input argument must be a pointer, got "
                        ++ Go.Kind_String valInterface_Kind)))
  end.

(** Every field of the struct type is exported. *)
Definition allExported (fields : list (string * Go.type)) : bool :=
  forallb (fun nt => Go.IsExported (fst nt)) fields.

(** Every field of the struct type has a name that begins with an ASCII
    character. *)
Definition asciiNames (fields : list (string * Go.type)) : bool :=
  forallb (fun nt => Go.asciiName (fst nt)) fields.

(** [type StructFields []interface{}]. *)
Abbreviation StructFields := (list Go.value) (only parsing).

Section UnmarshalJSON.

Variable L : Libs.

Definition errNotArray (result : gjson.Result) : error :=
  fmtError ("expected array but got " ++ gjson.Type_String (gjson.Typ result)).

Definition errArity (k m : nat) : error :=
  fmtError ("input array has " ++ strconv.Itoa (Z.of_nat k)
            ++ " elements but we are trying to unserialize in only "
            ++ strconv.Itoa (Z.of_nat m) ++ " struct fields").

Definition errField (i : nat) (reference : Go.value) (err : error) : error :=
  wrapError ("unable to marshal JSON into field " ++ strconv.Itoa (Z.of_nat i)
             ++ " of type " ++ Go.T_String reference ++ ": " ++ error_Error err)
            err.

(** The [for i, elementResult := range elementResults] loop, from index
    [i] on.  [( *f)[i]] panics when [i] is out of range. *)
Fixpoint unmarshalElements (f : StructFields) (i : nat)
    (elementResults : list gjson.Result) (h : Go.heap)
  : Go.outcome (Go.heap * option error) :=
  match elementResults with
  | [] => Go.Returns (h, None)
  | elementResult :: rest =>
      match f !! i with
      | None => Go.Panics "runtime error: index out of range"
      | Some reference =>
          match json_Unmarshal L (gjson.Raw elementResult) reference h with
          | (h', Some err) => Go.Returns (h', Some (errField i reference err))
          | (h', None) => unmarshalElements f (S i) rest h'
          end
      end
  end.

(** [func (f *StructFields) UnmarshalJSON(data []byte) error], with the
    slice [*f] for the receiver. *)
Definition UnmarshalJSON (f : StructFields) (data : string) (h : Go.heap)
  : Go.outcome (Go.heap * option error) :=
  let result := ParseBytes L data in
  if negb (IsArray L result) then
    Go.Returns (h, Some (errNotArray result))
  else
    let elementResults := Array L result in
    if negb (Nat.eqb (length elementResults) (length f)) then
      Go.Returns (h, Some (errArity (length elementResults) (length f)))
    else
      unmarshalElements f 0 elementResults h.

(** The method on its receiver [f *StructFields]: nil, or a pointer to the
    slice.  On a nil receiver the first two statements run as they do
    otherwise and [len( *f)] panics. *)
Definition StructFields_UnmarshalJSON (f : option StructFields) (data : string)
    (h : Go.heap) : Go.outcome (Go.heap * option error) :=
  match f with
  | Some slots => UnmarshalJSON slots data h
  | None =>
      let result := ParseBytes L data in
      if negb (IsArray L result) then
        Go.Returns (h, Some (errNotArray result))
      else
        Go.Panics "runtime error: invalid memory address or nil pointer dereference"
  end.

End UnmarshalJSON.

(** The positional binding of the elements [elems] to the slots [f], as a
    run: from index [i] on, element [i] is decoded into slot [i], then
    element [i+1] into slot [i+1], and so on in index order; the run ends
    without error after the last element, or at the first element whose
    decoding fails, with the error for that index and slot. *)
Inductive bindsFrom (L : Libs) (f : StructFields) (elems : list gjson.Result)
  : nat -> Go.heap -> Go.heap * option error -> Prop :=
| binds_end i h :
    i = length elems ->
    bindsFrom L f elems i h (h, None)
| binds_step i h e r h' res :
    elems !! i = Some e -> f !! i = Some r ->
    json_Unmarshal L (gjson.Raw e) r h = (h', None) ->
    bindsFrom L f elems (S i) h' res ->
    bindsFrom L f elems i h res
| binds_fail i h e r h' err :
    elems !! i = Some e -> f !! i = Some r ->
    json_Unmarshal L (gjson.Raw e) r h = (h', Some err) ->
    bindsFrom L f elems i h (h', Some (errField i r err)).

(* ====================================================================== *)
(** * client.go                                                             *)
(* ====================================================================== *)

(** [clientRequest]: a JSON-RPC request sent by a client.  [Id] is a
    [uint64]. *)
Record clientRequest : Set := mkClientRequest {
  Version : string;
  Method : string;
  Params : Go.value;
  Id : Z
}.

(** [clientResponse]; the fields are [Version], [Result] and [Error], the
    last two [*json.RawMessage]: the text of the member, or nil. *)
Record clientResponse : Set := mkClientResponse {
  Response_Version : string;
  Response_Result : option string;
  Response_Error : option string
}.

(** The document of a [*clientRequest], member by member under the names
    of the field tags.  No field has [omitempty]: the four members are
    always there. *)
Definition clientRequest_JSON (h : Go.heap) (c : clientRequest) : option JSON.json :=
  match encjson.toJSON h (Params c) with
  | Some params =>
      Some (JSON.JObj [("jsonrpc", JSON.JStr (Version c));
                       ("method", JSON.JStr (Method c));
                       ("params", params);
                       ("id", JSON.JNum (strconv.utoa (Id c)))])
  | None => None
  end.

(** [json.Marshal(c)]. *)
Definition Marshal_clientRequest (h : Go.heap) (c : clientRequest)
  : Go.outcome (string * option error) :=
  match clientRequest_JSON h c with
  | Some j => Go.Returns (JSON.print j, None)
  | None => Go.Panics "invalid memory address or nil pointer dereference"
  end.

(** [EncodeClientRequest(method, args)].  [rnd] is the number
    [rand.Int63()] draws, [0 <= rnd < 2^63]; [uint64(rnd)] is its
    conversion. *)
Definition EncodeClientRequest (h : Go.heap) (rnd : Z) (method : string) (args : Go.value)
  : Go.outcome (string * option error) :=
  let c := {| Version := "2.0";
              Method := method;
              Params := args;
              Id := rnd mod 2 ^ 64 |} in
  Marshal_clientRequest h c.

(* ====================================================================== *)
(** * json_test.go: the service                                             *)
(* ====================================================================== *)

Definition ErrResponseError : error := errorString 0 "response error".
Definition ErrMappedResponseError : error := errorString 1 "mapped response error".

Record Service1Request : Set := mkService1Request { A : Z; B : Z }.

Record Service1Response : Set := mkService1Response { Result : Z }.

Definition Service1DefaultResponse : Z := 9999.

(** [Service1.Multiply]: the response after the call and the error
    returned.  The [*http.Request] is not read. *)
Definition Multiply (req : Service1Request) (res : Service1Response)
  : Service1Response * option error :=
  if (A req =? 0) && (B req =? 0) then
    (mkService1Response Service1DefaultResponse, None)
  else
    (mkService1Response (Go.int_mul (A req) (B req)), None).

Definition ResponseError (req : Service1Request) (res : Service1Response)
  : Service1Response * option error :=
  (res, Some ErrResponseError).

Definition MappedResponseError (req : Service1Request) (res : Service1Response)
  : Service1Response * option error :=
  (res, Some ErrMappedResponseError).

(** [context.Context]; the codec only hands it on. *)
Inductive context : Set := Background.

(** The [errorMapper] of [TestServiceWithErrorMapper]. *)
Definition mappedErrorCode : ErrorCode := 100.

Definition errorMapper (ctx : context) (err : error) : error :=
  if error_eqb err ErrMappedResponseError then
    rpcError {| Code := mappedErrorCode; Message := error_Error err; Data := None |}
  else
    rpcError {| Code := E_SERVER; Message := error_Error err; Data := None |}.

(** The argument and reply types of [Service1] as cell types. *)
Definition Service1Request_type : Go.type :=
  Go.TStruct "json2.Service1Request" [("A", Go.TInt); ("B", Go.TInt)].

Definition Service1Response_type : Go.type :=
  Go.TStruct "json2.Service1Response" [("Result", Go.TInt)].

Definition Service1Request_of (v : Go.value) : Service1Request :=
  match v with
  | Go.VStruct _ _ [Go.VInt a; Go.VInt b] => mkService1Request a b
  | _ => mkService1Request 0 0
  end.

Definition Service1Response_value (res : Service1Response) : Go.value :=
  Go.VStruct "json2.Service1Response" [("Result", Go.TInt)] [Go.VInt (Result res)].

(* ====================================================================== *)
(** * The server side of the codec                                          *)
(* ====================================================================== *)

(** The file with the server codec ([NewCodec], [NewCustomCodec],
    [WithErrorMapper], [isBatch], the request decoding and the response
    writing) is not among the sources: this module is written from the
    spec, sections 3, 4 and 7. *)
Module Server.

Import JSON.

(** Modelled from the spec: the server codec's request envelope is missing;
    "id: uint64 | string | absent". *)
Inductive IdValue : Set :=
| IdNum (n : Z)
| IdStr (s : string).

(** Modelled from the spec: the request record of the missing decoder:
    "method name, raw params (undecoded), id (present/absent + value), and
    a validity flag plus reason if invalid". *)
Record RequestRecord : Set := mkRequest {
  req_method : string;
  req_params : option json;
  req_id : option IdValue;
  req_invalid : option string
}.

(** Modelled from the spec: the response envelope of the missing encoder:
    "result: raw-JSON | absent, error: ErrorObject | absent, id: echo of
    request id". *)
Record ResponseRecord : Set := mkResponse {
  resp_result : option json;
  resp_error : option Error;
  resp_id : option IdValue
}.

(** Modelled from the spec: "id (present/absent + value)". *)
Definition present (id : option IdValue) : bool :=
  match id with
  | Some _ => true
  | None => false
  end.

(** Modelled from the spec: the missing [isBatch], section 4.1: whether
    the top-level value is an array, leading white space tolerated, without
    parsing. *)
Definition isBatch (raw : string) : bool :=
  match skipWs raw with
  | String.String c _ => Ascii.eqb c "["
  | EmptyString => false
  end.

(** Modelled from the spec: the member [id] of the missing request
    envelope, "id: uint64 | string | absent": absent, one of the two kinds
    of value, or a member that is neither. *)
Inductive IdField : Set :=
| IdAbsent
| IdPresent (v : IdValue)
| IdMalformed.

Definition idField (ms : list (string * json)) : IdField :=
  match member "id" ms with
  | None => IdAbsent
  | Some (JNum lit) =>
      match strconv.ParseUint lit with
      | Some n => IdPresent (IdNum n)
      | None => IdMalformed
      end
  | Some (JStr s) => IdPresent (IdStr s)
  | Some _ => IdMalformed
  end.

(** Modelled from the spec: the id of a request record, "id
    (present/absent + value)". *)
Definition idOf (ms : list (string * json)) : option IdValue :=
  match idField ms with
  | IdPresent v => Some v
  | _ => None
  end.

(** Modelled from the spec: a notification, "a JSON-RPC request with no
    [id], expecting no response" (glossary): a well-formed request whose
    id is absent. *)
Definition notification (r : RequestRecord) : bool :=
  match req_invalid r, req_id r with
  | None, None => true
  | _, _ => false
  end.

(** Modelled from the spec: the fixed protocol-level errors of the missing
    codec, with the codes and meanings of the table of section 3. *)
Definition errParse : Error :=
  {| Code := E_PARSE; Message := "payload is not valid JSON"; Data := None |}.
Definition errInvalidReq : Error :=
  {| Code := E_INVALID_REQ;
     Message := "envelope missing required fields or malformed"; Data := None |}.
Definition errNoMethod : Error :=
  {| Code := E_NO_METHOD; Message := "method not found in registry"; Data := None |}.
Definition errBadParams (why : string) : Error :=
  {| Code := E_BAD_PARAMS; Message := why; Data := None |}.
Definition errInternal : Error :=
  {| Code := E_INTERNAL; Message := "internal codec/server fault"; Data := None |}.

(** Modelled from the spec: the per-message part of the missing decoder,
    section 4.2: "structurally invalid objects (missing [method], wrong
    [version]) are accepted at the parse stage but flagged"; an envelope
    whose [id] is neither a uint64 nor a string is malformed (section 3)
    and is flagged too. *)
Definition toRecord (j : json) : RequestRecord :=
  match j with
  | JObj ms =>
      let method := match member "method" ms with
                    | Some (JStr s) => Some s
                    | _ => None
                    end in
      let versionOk := match member "jsonrpc" ms with
                       | Some (JStr v) => String.eqb v "2.0"
                       | _ => false
                       end in
      {| req_method := match method with Some s => s | None => EmptyString end;
         req_params := member "params" ms;
         req_id := idOf ms;
         req_invalid :=
           if negb versionOk then Some "wrong version"
           else match method with
                | None => Some "missing method"
                | Some _ =>
                    match idField ms with
                    | IdMalformed => Some "malformed id"
                    | _ => None
                    end
                end |}
  | _ =>
      {| req_method := EmptyString; req_params := None; req_id := None;
         req_invalid := Some "not an object" |}
  end.

(** Modelled from the spec: the missing [DecodeRequest], section 4.2: a
    text that is not JSON fails with [E_PARSE]; when the detector reports
    an array the text is a batch, read as the records of its elements in
    the order of the text, the empty batch being an invalid request;
    otherwise it is read as one record, and a top-level value that is not
    an object is an invalid request. *)
Definition DecodeRequest (raw : string) : (list RequestRecord * bool) + Error :=
  match parse raw with
  | None => inr errParse
  | Some j =>
      if isBatch raw then
        match j with
        | JArr [] => inr errInvalidReq
        | JArr items => inl (map toRecord items, true)
        | _ => inr errInvalidReq
        end
      else
        match j with
        | JObj ms => inl ([toRecord (JObj ms)], false)
        | _ => inr errInvalidReq
        end
  end.

(** Modelled from the spec: the positional shape of the missing parameter
    binder, section 4.3: the array is bound to the fields of the target by
    the binder of [utils.go], and a failure is [E_BAD_PARAMS] with the
    binder's text. *)
Definition bindByPosition (L : Libs) (elems : list json) (target : Go.value)
    (h : Go.heap) : Go.heap * option Error :=
  match structFieldsToFieldsSlice target with
  | Go.Returns (Some f, None) =>
      match UnmarshalJSON L f (print (JArr elems)) h with
      | Go.Returns (h', None) => (h', None)
      | Go.Returns (h', Some e) => (h', Some (errBadParams (error_Error e)))
      | Go.Panics msg => (h, Some errInternal)
      end
  | Go.Returns (_, Some e) => (h, Some (errBadParams (error_Error e)))
  | _ => (h, Some errInternal)
  end.

(** Modelled from the spec: the missing parameter binder, section 4.3, on
    the target [target], a pointer to the argument structure: absent params
    leave the target at its zero value; an object is bound by name; a
    failure is [E_BAD_PARAMS].  The positional shape is the parameter
    [bindArray]: the spec describes it by the binder of [utils.go], which
    [utils.go] says is not in use, and the tests of [json_test.go] bind a
    one-element array to the zero argument. *)
Definition BindParams
    (bindArray : list json -> Go.value -> Go.heap -> Go.heap * option Error)
    (rawParams : option json) (target : Go.value) (h : Go.heap)
  : Go.heap * option Error :=
  match rawParams with
  | None => (h, None)
  | Some (JArr elems) => bindArray elems target h
  | Some j =>
      match encjson.UnmarshalDoc j target h with
      | (h', None) => (h', None)
      | (h', Some e) => (h', Some (errBadParams (error_Error e)))
      end
  end.

(** Modelled from the spec: the external method registry of section 6: the
    argument type of a method and the handler, from the bound argument to
    the reply and the error. *)
Record Method : Set := mkMethod {
  argType : Go.type;
  invoke : Go.value -> Go.value * option error
}.

Definition Registry := string -> option Method.

(** Modelled from the spec: the error-mapping hook of sections 6 and 7,
    "(context, error) -> Error-or-nil-passthrough": the error it returns,
    [None] for nil; the call may fail. *)
Definition ErrorMapper := context -> error -> Go.outcome (option error).

(** Modelled from the spec: the wrapping of section 4.4: an error that is
    not an [*Error] gets the code [E_SERVER] and its text for message. *)
Definition wrapServer (e : error) : Error :=
  match e with
  | rpcError x => x
  | _ => {| Code := E_SERVER; Message := error_Error e; Data := None |}
  end.

(** Modelled from the spec: the error part of the missing encoder, section
    4.4 and 7: the handler's error goes through the mapper when there is
    one; an [*Error] that comes back is used as it is, any other error is
    wrapped with [E_SERVER] and its text; a mapper that fails is an
    internal fault. *)
Definition mapError (mapper : option ErrorMapper) (ctx : context) (err : error) : Error :=
  match mapper with
  | None => wrapServer err
  | Some m =>
      match m ctx err with
      | Go.Panics _ => errInternal
      | Go.Returns None => wrapServer err
      | Go.Returns (Some e) => wrapServer e
      end
  end.

(** Modelled from the spec: [EncodeSuccess] and [EncodeError] of section
    4.4: a response has a result or an error, not both, and the id of its
    request. *)
Definition EncodeSuccess (id : option IdValue) (result : json) : ResponseRecord :=
  {| resp_result := Some result; resp_error := None; resp_id := id |}.

Definition EncodeFailure (id : option IdValue) (e : Error) : ResponseRecord :=
  {| resp_result := None; resp_error := Some e; resp_id := id |}.

Definition EncodeError (mapper : option ErrorMapper) (ctx : context)
    (id : option IdValue) (err : error) : ResponseRecord :=
  EncodeFailure id (mapError mapper ctx err).

(** Modelled from the spec: the target the missing server binds into: a
    fresh argument of type [t], in the cell at address 0. *)
Definition freshTarget (t : Go.type) : Go.heap := [encjson.zero t].

Definition freshPlace : Go.place := (0%nat, []).

Section Codec.

Variable bindArray : list json -> Go.value -> Go.heap -> Go.heap * option Error.
Variable registry : Registry.
Variable mapper : option ErrorMapper.
Variable ctx : context.

(** Modelled from the spec: one request through validation, method
    resolution, parameter binding, the handler and the encoder; the
    protocol-level failures keep their fixed codes and do not reach the
    mapper. *)
Definition handle (r : RequestRecord) : ResponseRecord :=
  match req_invalid r with
  | Some _ => EncodeFailure (req_id r) errInvalidReq
  | None =>
      match registry (req_method r) with
      | None => EncodeFailure (req_id r) errNoMethod
      | Some m =>
          let target := Go.VPtr (argType m) (Some freshPlace) in
          match BindParams bindArray (req_params r) target (freshTarget (argType m)) with
          | (_, Some e) => EncodeFailure (req_id r) e
          | (h, None) =>
              match encjson.load h freshPlace with
              | None => EncodeFailure (req_id r) errInternal
              | Some args =>
                  match invoke m args with
                  | (reply, None) =>
                      EncodeSuccess (req_id r) (encjson.marshalValue reply)
                  | (_, Some err) => EncodeError mapper ctx (req_id r) err
                  end
              end
          end
      end
  end.

(** Modelled from the spec: the response to one record.  A notification
    gets none: "requests with absent id produce no corresponding response
    element" (section 3).  A malformed record always gets its error
    response, with or without id: "a malformed item inside a batch
    produces one error response element" (section 7). *)
Definition respond (r : RequestRecord) : option ResponseRecord :=
  if notification r then None else Some (handle r).

(** Modelled from the spec: what the missing encoder writes back, section
    4.4: nothing, one response object, or an array of response objects. *)
Inductive Output : Set :=
| NoReply
| Single (r : ResponseRecord)
| Batch (rs : list ResponseRecord).

(** Modelled from the spec: the whole codec on one HTTP body, sections 2
    and 4.4: a batch is answered by an array of the responses in request
    order, the notifications left out; a single request by one object; a
    failure of the decoder by one error response. *)
Definition Serve (raw : string) : Output :=
  match DecodeRequest raw with
  | inr e => Single (EncodeFailure None e)
  | inl (records, true) => Batch (omap respond records)
  | inl (records, false) =>
      match records with
      | [r] => match respond r with
               | Some x => Single x
               | None => NoReply
               end
      | _ => Single (EncodeFailure None errInternal)
      end
  end.

End Codec.

(** Modelled from the spec: the responses of an output, in the order they
    are written. *)
Definition responses (o : Output) : list ResponseRecord :=
  match o with
  | NoReply => []
  | Single r => [r]
  | Batch rs => rs
  end.

End Server.

(** [Service1] in the registry. *)
Definition Service1_registry : Server.Registry :=
  fun method =>
    let handler (f : Service1Request -> Service1Response -> Service1Response * option error) :=
      Some (Server.mkMethod Service1Request_type
              (fun args =>
                 let '(res, err) := f (Service1Request_of args) (mkService1Response 0) in
                 (Service1Response_value res, err))) in
    if String.eqb method "Service1.Multiply" then handler Multiply
    else if String.eqb method "Service1.ResponseError" then handler ResponseError
    else if String.eqb method "Service1.MappedResponseError" then handler MappedResponseError
    else None.

(** The [errorMapper] of the test as the hook the codec is given
    ([WithErrorMapper(errorMapper)]): it returns, and its result is never
    nil. *)
Definition errorMapper_hook : Server.ErrorMapper :=
  fun ctx err => Go.Returns (Some (errorMapper ctx err)).

(** A request object as the tests write it, with or without id. *)
Definition request (method : string) (id : option Z) : JSON.json :=
  JSON.JObj ([("jsonrpc", JSON.JStr "2.0"); ("method", JSON.JStr method)]
             ++ match id with
                | Some n => [("id", JSON.JNum (strconv.utoa n))]
                | None => []
                end).


(* ====================================================================== *)
(** * Arguments that are named-fields objects                               *)
(* ====================================================================== *)

(** Equality of cell types. *)
Fixpoint type_eqb (a b : Go.type) {struct a} : bool :=
  match a, b with
  | Go.TBool, Go.TBool => true
  | Go.TInt, Go.TInt => true
  | Go.TUint64, Go.TUint64 => true
  | Go.TString, Go.TString => true
  | Go.TStruct n fs, Go.TStruct n' fs' =>
      String.eqb n n'
      && (fix fields (fs fs' : list (string * Go.type)) {struct fs} : bool :=
            match fs, fs' with
            | [], [] => true
            | (x, t) :: r, (x', t') :: r' => String.eqb x x' && type_eqb t t' && fields r r'
            | _, _ => false
            end) fs fs'
  | _, _ => false
  end.

(** No name occurs twice. *)
Fixpoint distinct (names : list string) : bool :=
  match names with
  | [] => true
  | n :: r => negb (existsb (String.eqb n) r) && distinct r
  end.

(** [v] is a value of type [t] that a named-fields object stands for
    without loss: every struct field is exported ([Go.IsExported]: its
    name begins with an ASCII upper-case letter), under a name that is
    valid UTF-8 and occurs once; a string is valid UTF-8; an [int] and a
    [uint64] are in range. *)
Fixpoint representable (t : Go.type) (v : Go.value) {struct t} : bool :=
  match t, v with
  | Go.TBool, Go.VBool _ => true
  | Go.TInt, Go.VInt z => (- 2 ^ 63 <=? z) && (z <? 2 ^ 63)
  | Go.TUint64, Go.VUint64 z => (0 <=? z) && (z <? 2 ^ 64)
  | Go.TString, Go.VString s => utf8.ValidString s
  | Go.TStruct n fs, Go.VStruct n' fs' vals =>
      type_eqb (Go.TStruct n fs) (Go.TStruct n' fs')
      && distinct (map fst fs)
      && (fix fields (fs : list (string * Go.type)) (vals : list Go.value) {struct fs} : bool :=
            match fs, vals with
            | [], [] => true
            | (name, ft) :: fs', x :: vals' =>
                Go.IsExported name && utf8.ValidString name
                && representable ft x && fields fs' vals'
            | _, _ => false
            end) fs vals
  | _, _ => false
  end.

(** The members [marshalValue] writes for the fields of a struct. *)
Fixpoint marshalFields (fs : list (string * Go.type)) (vs : list Go.value) {struct vs}
  : list (string * JSON.json) :=
  match fs, vs with
  | (n, _) :: fs', x :: vs' =>
      if Go.IsExported n then (n, encjson.marshalValue x) :: marshalFields fs' vs'
      else marshalFields fs' vs'
  | _, _ => []
  end.

(** How [decodeValue] binds the document [jv] to the field [name] of a
    struct. *)
Definition setField (name : string) (jv : JSON.json)
  : list (string * Go.type) -> list Go.value -> list Go.value * option error :=
  fix go (fs : list (string * Go.type)) (vs : list Go.value) {struct fs}
    : list Go.value * option error :=
    match fs, vs with
    | (fname, ft) :: fs', x :: vs' =>
        if String.eqb fname name then
          let '(x', e) := encjson.decodeValue ft jv x in (x' :: vs', e)
        else
          let '(vs'', e) := go fs' vs' in (x :: vs'', e)
    | _, _ => (vs, None)
    end.

(** How [decodeValue] binds one member of an object to a struct. *)
Definition bindMember (fields : list (string * Go.type))
    (acc : list Go.value * option error) (m : string * JSON.json)
  : list Go.value * option error :=
  match encjson.matchField (fst m) fields with
  | Some name =>
      let '(vals', e) := setField name (snd m) fields (fst acc) in
      (vals', encjson.firstError (snd acc) e)
  | None => acc
  end.

(** The part of [representable] on the fields of a struct. *)
Fixpoint fieldsRepresentable (fs : list (string * Go.type)) (vals : list Go.value)
    {struct fs} : bool :=
  match fs, vals with
  | [], [] => true
  | (name, ft) :: fs', x :: vals' =>
      Go.IsExported name && utf8.ValidString name
      && representable ft x && fieldsRepresentable fs' vals'
  | _, _ => false
  end.

(** Decoding what [marshalValue] writes for [v] into a fresh cell gives
    [v] back. *)
Definition bindsBack (t : Go.type) : Prop :=
  forall v, representable t v = true ->
    encjson.decodeValue t (encjson.marshalValue v) (encjson.zero t) = (v, None).
(* ====================================================================== *)
(** * json_test.go: the response recorder                                   *)
(* ====================================================================== *)

Module http.

(** [http.Header]: the values of each header name. *)
Definition Header : Set := list (string * list string).

(** [http.StatusOK]. *)
Definition StatusOK : Z := 200.

End http.

Module Recorder.

(** [ResponseRecorder].  [Body] is a [*bytes.Buffer]: nil, or the buffer
    with the bytes written to it so far. *)
Record ResponseRecorder : Set := mkResponseRecorder {
  Code : Z;
  HeaderMap : http.Header;
  Body : option string;
  Flushed : bool
}.

(** [NewRecorder()]: an empty header map and an empty buffer. *)
Definition NewRecorder : ResponseRecorder :=
  {| Code := 0; HeaderMap := []; Body := Some EmptyString; Flushed := false |}.

Definition DefaultRemoteAddr : string := "1.2.3.4".

(** [rw.Header()]. *)
Definition Header (rw : ResponseRecorder) : http.Header := HeaderMap rw.

(** [rw.Write(buf)]: the recorder after the call, the count and the error
    returned. *)
Definition Write (rw : ResponseRecorder) (buf : string)
  : ResponseRecorder * (Z * option error) :=
  let rw1 :=
    match Body rw with
    | Some written =>
        {| Code := Code rw; HeaderMap := HeaderMap rw;
           Body := Some (written ++ buf); Flushed := Flushed rw |}
    | None => rw
    end in
  let rw2 :=
    if Code rw1 =? 0 then
      {| Code := http.StatusOK; HeaderMap := HeaderMap rw1;
         Body := Body rw1; Flushed := Flushed rw1 |}
    else rw1 in
  (rw2, (Z.of_nat (String.length buf), None)).

(** [rw.WriteHeader(code)]. *)
Definition WriteHeader (rw : ResponseRecorder) (code : Z) : ResponseRecorder :=
  {| Code := code; HeaderMap := HeaderMap rw; Body := Body rw; Flushed := Flushed rw |}.

(** [rw.Flush()]. *)
Definition Flush (rw : ResponseRecorder) : ResponseRecorder :=
  {| Code := Code rw; HeaderMap := HeaderMap rw; Body := Body rw; Flushed := true |}.

(** The calls a handler makes on its [http.ResponseWriter]. *)
Inductive call : Set :=
| CallWrite (buf : string)
| CallWriteHeader (code : Z)
| CallFlush.

Definition step (rw : ResponseRecorder) (c : call) : ResponseRecorder :=
  match c with
  | CallWrite buf => fst (Write rw buf)
  | CallWriteHeader code => WriteHeader rw code
  | CallFlush => Flush rw
  end.

(** The recorder after a sequence of calls. *)
Definition run (rw : ResponseRecorder) (calls : list call) : ResponseRecorder :=
  fold_left step calls rw.

(** The bytes the calls write, in order. *)
Fixpoint written (calls : list call) : string :=
  match calls with
  | [] => EmptyString
  | CallWrite buf :: rest => buf ++ written rest
  | _ :: rest => written rest
  end.

Definition isWrite (c : call) : bool :=
  match c with CallWrite _ => true | _ => false end.

Definition isWriteHeader (c : call) : bool :=
  match c with CallWriteHeader _ => true | _ => false end.

Definition isFlush (c : call) : bool :=
  match c with CallFlush => true | _ => false end.

End Recorder.

(* ====================================================================== *)
(** * Theorems                                                              *)
(* ====================================================================== *)

(** ** The JSON text layer: what is written is read back *)

Module TextFacts.
Import JSON.

(** ** Strings *)

Lemma strAll_app p s t : strconv.strAll p (s ++ t) = strconv.strAll p s && strconv.strAll p t.
Proof. induction s as [|c s IH]; simpl; [reflexivity|]. rewrite IH, andb_assoc. reflexivity. Qed.

Lemma append_assoc (s t u : string) : (s ++ t) ++ u = s ++ (t ++ u).
Proof. induction s as [|c s IH]; simpl; [reflexivity|]. rewrite IH. reflexivity. Qed.

Lemma append_nil_r (s : string) : s ++ EmptyString = s.
Proof. induction s as [|c s IH]; simpl; [reflexivity|]. rewrite IH. reflexivity. Qed.

Lemma length_append (s t : string) :
  String.length (s ++ t) = (String.length s + String.length t)%nat.
Proof. induction s as [|c s IH]; simpl; [reflexivity|]. rewrite IH. reflexivity. Qed.

(** ** strconv *)

Lemma code_digitChar d : 0 <= d < 10 -> strconv.code (strconv.digitChar d) = 48 + d.
Proof.
  intros Hd. unfold strconv.code, strconv.digitChar.
  rewrite N_ascii_embedding; lia.
Qed.

Lemma isDigit_digitChar d : 0 <= d < 10 -> strconv.isDigit (strconv.digitChar d) = true.
Proof.
  intros Hd. unfold strconv.isDigit. rewrite code_digitChar by assumption.
  apply andb_true_intro. split; apply Z.leb_le; lia.
Qed.

(** The digits [utoa_aux] writes: all digits, at least one, no leading
    zero unless the number is zero, and of value [n]. *)
Lemma utoa_aux_spec : forall fuel n acc,
  (0 < fuel)%nat -> 0 <= n < 2 ^ Z.of_nat fuel ->
  exists c ds,
    strconv.utoa_aux fuel n acc = String.String c ds ++ acc /\
    strconv.strAll strconv.isDigit (String.String c ds) = true /\
    (strconv.code c = 48 -> n = 0 /\ ds = EmptyString) /\
    forall a t, strconv.digitsVal a (String.String c ds ++ t) =
                strconv.digitsVal (a * 10 ^ Z.of_nat (String.length (String.String c ds)) + n) t.
Proof.
  induction fuel as [|fuel IH]; intros n acc Hf Hn.
  - lia.
  - cbn [strconv.utoa_aux]. destruct (n <? 10) eqn:Hlt.
    + apply Z.ltb_lt in Hlt. rewrite Z.mod_small by lia.
      exists (strconv.digitChar n), EmptyString.
      split; [reflexivity|]. split; [|split].
      * simpl. rewrite isDigit_digitChar by lia. reflexivity.
      * intros H. rewrite code_digitChar in H by lia. split; [lia|reflexivity].
      * intros a t. cbn [String.append strconv.digitsVal String.length].
        rewrite isDigit_digitChar, code_digitChar by lia.
        f_equal. change (Z.of_nat 1) with 1. lia.
    + apply Z.ltb_ge in Hlt.
      assert (Hq : 0 <= n / 10 < 2 ^ Z.of_nat fuel).
      { split; [apply Z.div_pos; lia|].
        apply Z.div_lt_upper_bound; [lia|].
        rewrite Nat2Z.inj_succ, Z.pow_succ_r in Hn by lia. lia. }
      assert (Hf' : (0 < fuel)%nat).
      { destruct fuel; [|lia]. simpl in Hq.
        assert (n / 10 > 0) by (apply Z.lt_gt, Z.div_str_pos; lia). lia. }
      destruct (IH (n / 10) (String.String (strconv.digitChar (n mod 10)) acc) Hf' Hq)
        as (c & ds & Heq & Hall & Hz & Hval).
      assert (Hm : 0 <= n mod 10 < 10) by (apply Z.mod_pos_bound; lia).
      exists c, (ds ++ String.String (strconv.digitChar (n mod 10)) EmptyString).
      split; [|split; [|split]].
      * rewrite Heq. cbn [String.append]. rewrite append_assoc. reflexivity.
      * change (String.String c (ds ++ ?x)) with (String.String c ds ++ x).
        rewrite strAll_app, Hall. simpl. rewrite isDigit_digitChar by assumption. reflexivity.
      * intros Hc. destruct (Hz Hc) as [Hq0 _].
        assert (n / 10 > 0) by (apply Z.lt_gt, Z.div_str_pos; lia). lia.
      * intros a t.
        assert (Hlen : Z.of_nat (String.length (String.String c
                  (ds ++ String.String (strconv.digitChar (n mod 10)) EmptyString)))
                = Z.of_nat (String.length (String.String c ds)) + 1).
        { cbn [String.length]. rewrite length_append. cbn [String.length]. lia. }
        rewrite Hlen.
        change (String.String c (ds ++ ?x)) with (String.String c ds ++ x).
        rewrite append_assoc, Hval. cbn [String.append strconv.digitsVal].
        rewrite isDigit_digitChar, code_digitChar by assumption.
        f_equal.
        rewrite Z.pow_add_r by lia.
        pose proof (Z.div_mod n 10 ltac:(lia)). nia.
Qed.

Lemma utoa_spec n : 0 <= n ->
  exists c ds,
    strconv.utoa n = String.String c ds /\
    strconv.strAll strconv.isDigit (String.String c ds) = true /\
    (strconv.code c = 48 -> n = 0 /\ ds = EmptyString) /\
    strconv.digitsVal 0 (String.String c ds) = Some n.
Proof.
  intros Hn. unfold strconv.utoa.
  destruct (utoa_aux_spec (S (Z.to_nat (Z.log2 n))) n EmptyString) as (c & ds & Heq & Hall & Hz & Hval).
  { lia. }
  { split; [assumption|]. rewrite Nat2Z.inj_succ, Z2Nat.id by apply Z.log2_nonneg.
    destruct (Z.eq_dec n 0) as [->|Hne]; [simpl; lia|].
    apply Z.log2_spec. lia. }
  exists c, ds. rewrite Heq, append_nil_r.
  split; [reflexivity|]. split; [assumption|]. split; [assumption|].
  specialize (Hval 0 EmptyString). rewrite append_nil_r in Hval. rewrite Hval.
  simpl. reflexivity.
Qed.

Ltac ascii_cases c := destruct c as [[] [] [] [] [] [] [] []].

Lemma code_inj c d : strconv.code c = strconv.code d -> c = d.
Proof.
  unfold strconv.code. intros H. apply N2Z.inj in H.
  rewrite <- (ascii_N_embedding c), <- (ascii_N_embedding d), H. reflexivity.
Qed.

Lemma eqb_code c d : Ascii.eqb c d = (strconv.code c =? strconv.code d).
Proof.
  destruct (Ascii.eqb_spec c d) as [->|Hne].
  - symmetry. apply Z.eqb_refl.
  - symmetry. apply Z.eqb_neq. intros H. apply Hne, code_inj, H.
Qed.

Lemma code_range c : 0 <= strconv.code c < 256.
Proof.
  unfold strconv.code. pose proof (N_ascii_bounded c). lia.
Qed.

Lemma isDigit_code c : strconv.isDigit c = true -> 48 <= strconv.code c <= 57.
Proof. unfold strconv.isDigit. intros H. apply andb_prop in H as [H1 H2]. lia. Qed.

Lemma Itoa_ParseInt z : Go.in_int z -> strconv.ParseInt (strconv.Itoa z) = Some z.
Proof.
  unfold Go.in_int, strconv.Itoa. intros Hz.
  destruct (z <? 0) eqn:Hneg.
  - apply Z.ltb_lt in Hneg.
    destruct (utoa_spec (- z) ltac:(lia)) as (c & ds & Heq & Hall & _ & Hval).
    rewrite Heq. unfold strconv.ParseInt. cbn [Ascii.eqb Bool.eqb]. cbn iota.
    rewrite Hval, Z.opp_involutive.
    replace ((- 2 ^ 63 <=? z) && (z <? 2 ^ 63)) with true; [reflexivity|].
    symmetry. apply andb_true_intro. split; [apply Z.leb_le|apply Z.ltb_lt]; lia.
  - apply Z.ltb_ge in Hneg.
    destruct (utoa_spec z Hneg) as (c & ds & Heq & Hall & _ & Hval).
    rewrite Heq. unfold strconv.ParseInt.
    simpl in Hall. apply andb_prop in Hall as [Hc _]. apply isDigit_code in Hc.
    rewrite eqb_code. replace (strconv.code c =? strconv.code "-") with false
      by (symmetry; apply Z.eqb_neq; change (strconv.code "-") with 45; lia).
    rewrite Hval.
    replace ((- 2 ^ 63 <=? z) && (z <? 2 ^ 63)) with true; [reflexivity|].
    symmetry. apply andb_true_intro. split; [apply Z.leb_le|apply Z.ltb_lt]; lia.
Qed.

Lemma utoa_ParseUint n : 0 <= n < 2 ^ 64 -> strconv.ParseUint (strconv.utoa n) = Some n.
Proof.
  intros Hn. destruct (utoa_spec n ltac:(lia)) as (c & ds & Heq & _ & _ & Hval).
  rewrite Heq. unfold strconv.ParseUint. rewrite Hval.
  replace (n <? 2 ^ 64) with true by (symmetry; apply Z.ltb_lt; lia). reflexivity.
Qed.

(** ** Number literals *)

Lemma isDigit_isNumChar c : strconv.isDigit c = true -> JSON.isNumChar c = true.
Proof. unfold JSON.isNumChar. intros ->. reflexivity. Qed.

Lemma strAll_impl (p q : ascii -> bool) s :
  (forall c, p c = true -> q c = true) -> strconv.strAll p s = true -> strconv.strAll q s = true.
Proof.
  intros Hpq. induction s as [|c s IH]; simpl; [reflexivity|].
  intros H. apply andb_prop in H as [Hc Hs]. rewrite (Hpq c Hc), (IH Hs). reflexivity.
Qed.

Lemma skipDigits_all s : strconv.strAll strconv.isDigit s = true -> JSON.skipDigits s = EmptyString.
Proof.
  induction s as [|c s IH]; simpl; [reflexivity|].
  intros H. apply andb_prop in H as [Hc Hs]. rewrite Hc. apply IH, Hs.
Qed.

Lemma utoa_number n : 0 <= n ->
  JSON.validNumber (strconv.utoa n) = true /\
  strconv.strAll JSON.isNumChar (strconv.utoa n) = true.
Proof.
  intros Hn. destruct (utoa_spec n Hn) as (c & ds & Heq & Hall & Hz & _).
  rewrite Heq. split.
  - simpl in Hall. apply andb_prop in Hall as [Hc Hds].
    pose proof (isDigit_code c Hc) as Hr.
    unfold JSON.validNumber.
    replace (strconv.code c =? 45) with false by (symmetry; apply Z.eqb_neq; lia).
    destruct (strconv.code c =? 48) eqn:H0.
    + apply Z.eqb_eq in H0. destruct (Hz H0) as [_ ->]. reflexivity.
    + rewrite Hc, (skipDigits_all ds Hds). reflexivity.
  - eapply strAll_impl; [apply isDigit_isNumChar|exact Hall].
Qed.

Lemma Itoa_number z :
  JSON.validNumber (strconv.Itoa z) = true /\
  strconv.strAll JSON.isNumChar (strconv.Itoa z) = true.
Proof.
  unfold strconv.Itoa. destruct (z <? 0) eqn:Hneg.
  - apply Z.ltb_lt in Hneg.
    destruct (utoa_number (- z) ltac:(lia)) as [Hv Hall].
    destruct (utoa_spec (- z) ltac:(lia)) as (c & ds & Heq & Hd & _ & _).
    split.
    + unfold JSON.validNumber. change (strconv.code "-" =? 45) with true. cbn iota.
      rewrite Heq in *. simpl in Hd. apply andb_prop in Hd as [Hc _].
      pose proof (isDigit_code c Hc).
      unfold JSON.validNumber in Hv.
      replace (strconv.code c =? 45) with false in Hv by (symmetry; apply Z.eqb_neq; lia).
      exact Hv.
    + simpl. exact Hall.
  - apply Z.ltb_ge in Hneg. apply utoa_number, Hneg.
Qed.

Lemma spanNum_app lit k :
  strconv.strAll JSON.isNumChar lit = true -> noNumHead k = true ->
  JSON.spanNum (lit ++ k) = (lit, k).
Proof.
  intros Hl Hk. induction lit as [|c lit IH]; simpl.
  - destruct k as [|c k]; [reflexivity|]. simpl in *.
    destruct (JSON.isNumChar c); [discriminate Hk|reflexivity].
  - simpl in Hl. apply andb_prop in Hl as [Hc Hl]. rewrite Hc, (IH Hl). reflexivity.
Qed.

(** ** UTF-8 *)

Lemma take_drop n : forall s, utf8.take n s ++ utf8.drop n s = s.
Proof.
  induction n as [|n IH]; intros [|c s]; simpl; try reflexivity.
  rewrite IH. reflexivity.
Qed.

Lemma length_drop n : forall s,
  String.length (utf8.drop n s) = (String.length s - n)%nat.
Proof.
  induction n as [|n IH]; intros [|c s]; simpl; try reflexivity; try lia.
  apply IH.
Qed.

Ltac split_ifs :=
  repeat match goal with
         | |- context [if ?b then _ else _] => destruct b eqn:?
         end.

(** A valid encoding at the head of a string that does not start with an
    ASCII byte: its bytes are there, and none is ASCII. *)
Lemma DecodeRune_high c r :
  utf8.isHigh c = true -> utf8.invalidHead (String.String c r) = false ->
  let size := snd (utf8.DecodeRune (String.String c r)) in
  (1 <= size)%nat /\
  String.length (utf8.take size (String.String c r)) = size /\
  strconv.strAll utf8.isHigh (utf8.take size (String.String c r)) = true.
Proof.
  unfold utf8.isHigh, utf8.invalidHead. intros Hc.
  unfold utf8.DecodeRune.
  replace (strconv.code c <? 128) with false by (symmetry; apply Z.ltb_ge; lia).
  destruct ((strconv.code c <? 194) || (244 <? strconv.code c)); [discriminate|].
  destruct r as [|c1 r1]; [discriminate|].
  match goal with |- context [if ?b then (utf8.RuneError, 1%nat) else _] =>
    destruct b eqn:H1 end; [discriminate|].
  apply orb_false_elim in H1 as [H1 _].
  assert (Hc1 : utf8.isHigh c1 = true).
  { unfold utf8.isHigh. apply Z.leb_le. apply Z.ltb_ge in H1.
    revert H1. split_ifs; lia. }
  destruct (strconv.code c <? 224).
  { intros _. simpl. unfold utf8.isHigh in *. rewrite Hc, Hc1. repeat split; lia. }
  destruct r1 as [|c2 r2]; [destruct (strconv.code c <? 240); discriminate|].
  destruct ((strconv.code c2 <? 128) || (191 <? strconv.code c2)) eqn:H2.
  { destruct (strconv.code c <? 240); discriminate. }
  apply orb_false_elim in H2 as [H2 _]. apply Z.ltb_ge in H2.
  assert (Hc2 : utf8.isHigh c2 = true) by (unfold utf8.isHigh; apply Z.leb_le; lia).
  destruct (strconv.code c <? 240).
  { intros _. simpl. unfold utf8.isHigh in *. rewrite Hc, Hc1, Hc2. repeat split; lia. }
  simpl.
  destruct r2 as [|c3 r3]; [discriminate|].
  destruct ((strconv.code c3 <? 128) || (191 <? strconv.code c3)) eqn:H3; [discriminate|].
  apply orb_false_elim in H3 as [H3 _]. apply Z.ltb_ge in H3.
  assert (Hc3 : utf8.isHigh c3 = true) by (unfold utf8.isHigh; apply Z.leb_le; lia).
  intros _. simpl. unfold utf8.isHigh in *. rewrite Hc, Hc1, Hc2, Hc3. repeat split; lia.
Qed.

Lemma DecodeRune_ascii c r :
  utf8.isHigh c = false ->
  utf8.DecodeRune (String.String c r) = (strconv.code c, 1%nat) /\
  utf8.invalidHead (String.String c r) = false.
Proof.
  unfold utf8.isHigh, utf8.invalidHead, utf8.DecodeRune. intros Hc.
  apply Z.leb_gt in Hc.
  replace (strconv.code c <? 128) with true by (symmetry; apply Z.ltb_lt; lia).
  split; [reflexivity|].
  replace (strconv.code c =? utf8.RuneError) with false; [reflexivity|].
  symmetry. apply Z.eqb_neq. unfold utf8.RuneError. lia.
Qed.

Lemma DecodeRune_width_pos c r : (1 <= snd (utf8.DecodeRune (String.String c r)))%nat.
Proof.
  destruct (utf8.isHigh c) eqn:Hc.
  - destruct (utf8.invalidHead (String.String c r)) eqn:Hi.
    + unfold utf8.invalidHead in Hi.
      destruct (utf8.DecodeRune (String.String c r)) as [rn size].
      apply andb_prop in Hi as [_ Hs]. apply Nat.eqb_eq in Hs. simpl. lia.
    + apply (DecodeRune_high c r Hc Hi).
  - destruct (DecodeRune_ascii c r Hc) as [-> _]. simpl. lia.
Qed.

Lemma toValid_valid : forall fuel s,
  utf8.validFrom fuel s = true -> utf8.toValidFrom fuel s = s.
Proof.
  induction fuel as [|fuel IH]; intros [|c r] H; simpl in *; try reflexivity.
  - discriminate H.
  - change (if utf8.invalidHead (String.String c r) then false
            else utf8.validFrom fuel
                   (utf8.drop (snd (utf8.DecodeRune (String.String c r))) (String.String c r)))
      with (utf8.validFrom (S fuel) (String.String c r)) in H.
    cbn [utf8.validFrom] in H.
    destruct (utf8.invalidHead (String.String c r)); [discriminate H|].
    rewrite (IH _ H). apply take_drop.
Qed.

Lemma ToValid_valid s : utf8.ValidString s = true -> utf8.ToValid s = s.
Proof. apply toValid_valid. Qed.

(** ** String literals *)

Lemma prepend_app p q r :
  JSON.prepend p (JSON.prepend q r) = JSON.prepend (p ++ q) r.
Proof. destruct r as [[s k]|]; simpl; [|reflexivity]. rewrite append_assoc. reflexivity. Qed.

Lemma scan_escapeByte c t :
  utf8.isHigh c = false ->
  JSON.scanString (JSON.escapeByte c ++ t)
  = JSON.prepend (String.String c EmptyString) (JSON.scanString t).
Proof.
  intros Hc. ascii_cases c; try discriminate Hc; reflexivity.
Qed.

Lemma scan_high c t :
  utf8.isHigh c = true ->
  JSON.scanString (String.String c t)
  = JSON.prepend (String.String c EmptyString) (JSON.scanString t).
Proof.
  intros Hc. ascii_cases c; try discriminate Hc; reflexivity.
Qed.

Lemma scan_highs p : forall t,
  strconv.strAll utf8.isHigh p = true ->
  JSON.scanString (p ++ t) = JSON.prepend p (JSON.scanString t).
Proof.
  induction p as [|c p IH]; intros t H; cbn [String.append strconv.strAll] in *.
  - destruct (JSON.scanString t) as [[s k]|]; reflexivity.
  - apply andb_prop in H as [Hc Hp].
    rewrite (scan_high c (p ++ t) Hc), (IH t Hp), prepend_app. reflexivity.
Qed.

Lemma scan_replacement t :
  JSON.scanString (("\" ++ "ufffd") ++ t)
  = JSON.prepend (utf8.EncodeRune utf8.RuneError) (JSON.scanString t).
Proof. reflexivity. Qed.

Lemma scan_lineSep t :
  JSON.scanString (("\" ++ "u2028") ++ t) = JSON.prepend JSON.lineSep (JSON.scanString t).
Proof. reflexivity. Qed.

Lemma scan_paraSep t :
  JSON.scanString (("\" ++ "u2029") ++ t) = JSON.prepend JSON.paraSep (JSON.scanString t).
Proof. reflexivity. Qed.

(** Reading back what [appendString] writes gives the string coerced to
    valid UTF-8. *)
Lemma scan_appendString : forall fuel s k,
  (String.length s <= fuel)%nat ->
  JSON.scanString (JSON.appendString fuel s ++ String.String strconv.dquote k)
  = Some (utf8.toValidFrom fuel s, k).
Proof.
  induction fuel as [|fuel IH]; intros [|c r] k Hlen; try reflexivity.
  cbn [JSON.appendString utf8.toValidFrom].
  destruct (utf8.isHigh c) eqn:Hc.
  - replace (strconv.code c <? 128) with false
      by (symmetry; apply Z.ltb_ge; unfold utf8.isHigh in Hc; lia).
    destruct (utf8.invalidHead (String.String c r)) eqn:Hi.
    + rewrite append_assoc, scan_replacement, IH by (simpl in Hlen; lia). reflexivity.
    + destruct (DecodeRune_high c r Hc Hi) as (Hpos & Htl & Hhigh).
      set (size := snd (utf8.DecodeRune (String.String c r))) in *.
      assert (Hd : (String.length (utf8.drop size (String.String c r)) <= fuel)%nat).
      { rewrite length_drop. simpl in *. lia. }
      destruct (String.eqb_spec (utf8.take size (String.String c r)) JSON.lineSep) as [E|_].
      { rewrite append_assoc, scan_lineSep, IH, E by exact Hd. reflexivity. }
      destruct (String.eqb_spec (utf8.take size (String.String c r)) JSON.paraSep) as [E|_].
      { rewrite append_assoc, scan_paraSep, IH, E by exact Hd. reflexivity. }
      rewrite append_assoc, (scan_highs _ _ Hhigh), IH by exact Hd. reflexivity.
  - replace (strconv.code c <? 128) with true
      by (symmetry; apply Z.ltb_lt; unfold utf8.isHigh in Hc; lia).
    destruct (DecodeRune_ascii c r Hc) as [Hdec ->]. rewrite Hdec.
    rewrite append_assoc, (scan_escapeByte c _ Hc), IH by (simpl in Hlen; lia).
    reflexivity.
Qed.

Lemma readString_quote s k :
  utf8.ValidString s = true ->
  JSON.readString (JSON.appendString (String.length s) s ++ String.String strconv.dquote k)
  = Some (s, k).
Proof.
  intros Hv. unfold JSON.readString.
  rewrite scan_appendString by lia.
  fold (utf8.ToValid s). rewrite !(ToValid_valid s Hv). reflexivity.
Qed.

(** ** Documents *)


Lemma json_ind' (P : json -> Prop) :
  P JNull -> (forall b, P (JBool b)) -> (forall lit, P (JNum lit)) -> (forall s, P (JStr s)) ->
  (forall l, Forall P l -> P (JArr l)) ->
  (forall ms, Forall (fun m => P (snd m)) ms -> P (JObj ms)) ->
  forall j, P j.
Proof.
  intros Hn Hb Hnum Hs Ha Ho. fix IH 1. intros [| b | lit | s | l | ms].
  - exact Hn. - apply Hb. - apply Hnum. - apply Hs.
  - apply Ha. induction l as [|x l IHl]; constructor; [apply IH|exact IHl].
  - apply Ho. induction ms as [|[n x] ms IHl]; constructor; [apply IH|exact IHl].
Qed.

Lemma valueHead_not_space c : valueHead c = true ->
  isSpace c = false /\ Ascii.eqb c "]" = false /\ Ascii.eqb c "}" = false.
Proof. ascii_cases c; intros H; try discriminate H; repeat split. Qed.

Lemma validNumber_head c r : validNumber (String.String c r) = true ->
  valueHead c = true /\ Ascii.eqb c "{" = false /\ Ascii.eqb c "[" = false /\
  Ascii.eqb c strconv.dquote = false /\ Ascii.eqb c "t" = false /\
  Ascii.eqb c "f" = false /\ Ascii.eqb c "n" = false /\
  (Ascii.eqb c "-" || strconv.isDigit c) = true.
Proof.
  unfold validNumber. intros H.
  assert (Hd : (strconv.code c =? 45) || strconv.isDigit c = true).
  { destruct (strconv.code c =? 45); [reflexivity|]. simpl.
    destruct (strconv.code c =? 48) eqn:E.
    - unfold strconv.isDigit. apply Z.eqb_eq in E. rewrite E. reflexivity.
    - destruct (strconv.isDigit c); [reflexivity|discriminate H]. }
  clear H. revert Hd. ascii_cases c; intros H; try discriminate H; repeat split.
Qed.

Lemma printTo_head j k : wf j = true ->
  exists c r, printTo j k = String.String c r /\ valueHead c = true.
Proof.
  destruct j as [| [] | lit | s | l | ms]; intros Hwf; try (eexists _, _; split; reflexivity).
  - simpl in Hwf. apply andb_prop in Hwf as [Hv _].
    destruct lit as [|c r]; [discriminate Hv|].
    exists c, (r ++ k). split; [reflexivity|]. apply (validNumber_head c r Hv).
Qed.

Lemma skipWs_printTo j k : wf j = true -> skipWs (printTo j k) = printTo j k.
Proof.
  intros Hwf. destruct (printTo_head j k Hwf) as (c & r & -> & Hc).
  simpl. destruct (valueHead_not_space c Hc) as (-> & _). reflexivity.
Qed.

Lemma length_quoteTo s k : (2 + String.length k <= String.length (quoteTo s k))%nat.
Proof.
  unfold quoteTo. cbn [String.length]. rewrite length_append. cbn [String.length]. lia.
Qed.

Lemma length_printElems xs k :
  Forall lengthOk xs -> forallb wf xs = true ->
  (list_sum (map size xs) + S (String.length k) <= String.length (printElems xs k))%nat.
Proof.
  induction 1 as [|y ys Hy _ IH]; intros Hwf; [simpl; lia|].
  simpl in Hwf. apply andb_prop in Hwf as [Hwy Hwys].
  change (printElems (y :: ys) k) with (String.String "," (printTo y (printElems ys k))).
  specialize (Hy Hwy (printElems ys k)). specialize (IH Hwys). simpl. lia.
Qed.

Lemma length_printMembers xs k :
  Forall (fun m => lengthOk (snd m)) xs ->
  forallb (fun m => utf8.ValidString (fst m) && wf (snd m)) xs = true ->
  (list_sum (map (fun m => size (snd m)) xs) + S (String.length k)
   <= String.length (printMembers xs k))%nat.
Proof.
  induction 1 as [|[n y] ys Hy _ IH]; intros Hwf; [simpl; lia|].
  simpl in Hwf. apply andb_prop in Hwf as [Hwy Hwys]. apply andb_prop in Hwy as [_ Hwy].
  change (printMembers ((n, y) :: ys) k)
    with (String.String "," (quoteTo n (String.String ":" (printTo y (printMembers ys k))))).
  specialize (Hy Hwy (printMembers ys k)). specialize (IH Hwys).
  pose proof (length_quoteTo n (String.String ":" (printTo y (printMembers ys k)))).
  simpl in *. lia.
Qed.

Lemma length_printTo : forall j, lengthOk j.
Proof.
  unfold lengthOk.
  induction j as [| b | lit | s | l IH | ms IH] using json_ind'; intros Hwf k.
  - simpl. lia.
  - destruct b; simpl; lia.
  - simpl in *. apply andb_prop in Hwf as [Hv _]. rewrite length_append.
    destruct lit; [discriminate Hv|]. simpl. lia.
  - cbn [printTo size]. pose proof (length_quoteTo s k). lia.
  - destruct l as [|x xs]; [simpl; lia|].
    change (printTo (JArr (x :: xs)) k) with (String.String "[" (printTo x (printElems xs k))).
    simpl in Hwf. apply andb_prop in Hwf as [Hx Hxs].
    inversion IH as [|? ? IHx IHxs]; subst.
    pose proof (length_printElems xs k IHxs Hxs).
    specialize (IHx Hx (printElems xs k)). simpl. lia.
  - destruct ms as [|[n x] xs]; [simpl; lia|].
    change (printTo (JObj ((n, x) :: xs)) k)
      with (String.String "{" (quoteTo n (String.String ":" (printTo x (printMembers xs k))))).
    simpl in Hwf. apply andb_prop in Hwf as [Hx Hxs]. apply andb_prop in Hx as [_ Hx].
    inversion IH as [|? ? IHx IHxs]; subst. simpl in IHx.
    pose proof (length_printMembers xs k IHxs Hxs).
    specialize (IHx Hx (printMembers xs k)).
    pose proof (length_quoteTo n (String.String ":" (printTo x (printMembers xs k)))).
    simpl in *. lia.
Qed.

Lemma noNumHead_printElems xs k : noNumHead (printElems xs k) = true.
Proof. destruct xs; reflexivity. Qed.

Lemma noNumHead_printMembers xs k : noNumHead (printMembers xs k) = true.
Proof. destruct xs as [|[n y] ys]; reflexivity. Qed.

Lemma parseElems_print pv k : forall xs x n,
  (length xs < n)%nat ->
  Forall (parsesBack pv) (x :: xs) ->
  parseElems pv n (printTo x (printElems xs k)) = Some (x :: xs, k).
Proof.
  induction xs as [|y ys IH]; intros x n Hn Hall; (destruct n as [|n]; [lia|]);
    inversion Hall as [|? ? Hx Hrest]; subst; cbn [parseElems].
  - rewrite (Hx _ (noNumHead_printElems [] k)). reflexivity.
  - rewrite (Hx _ (noNumHead_printElems (y :: ys) k)).
    change (printElems (y :: ys) k) with (String.String "," (printTo y (printElems ys k))).
    cbn [skipWs]. change (isSpace ",") with false. cbn iota.
    change (Ascii.eqb "," ",") with true. cbn iota.
    rewrite (IH y n) by (simpl in Hn; lia || assumption). reflexivity.
Qed.

Lemma parseMembers_print pv k : forall xs m x n,
  (length xs < n)%nat ->
  utf8.ValidString m = true ->
  forallb (fun p => utf8.ValidString (fst p)) xs = true ->
  Forall (fun p => parsesBack pv (snd p)) ((m, x) :: xs) ->
  parseMembers pv n (quoteTo m (String.String ":" (printTo x (printMembers xs k))))
  = Some ((m, x) :: xs, k).
Proof.
  induction xs as [|[m' y] ys IH]; intros m x n Hn Hm Hkeys Hall; (destruct n as [|n]; [lia|]);
    inversion Hall as [|? ? Hx Hrest]; subst; simpl in Hx;
    unfold quoteTo; cbn [parseMembers skipWs];
    change (isSpace strconv.dquote) with false; cbn iota;
    rewrite Ascii.eqb_refl, (readString_quote m _ Hm);
    cbn [skipWs]; change (isSpace ":") with false; cbn iota;
    change (Ascii.eqb ":" ":") with true; cbn iota.
  - rewrite (Hx _ (noNumHead_printMembers [] k)). reflexivity.
  - rewrite (Hx _ (noNumHead_printMembers ((m', y) :: ys) k)).
    change (printMembers ((m', y) :: ys) k)
      with (String.String "," (quoteTo m' (String.String ":" (printTo y (printMembers ys k))))).
    cbn [skipWs]. change (isSpace ",") with false. cbn iota.
    change (Ascii.eqb "," ",") with true. cbn iota.
    simpl in Hkeys. apply andb_prop in Hkeys as [Hm' Hkeys].
    rewrite (IH m' y n); [reflexivity|simpl in Hn; lia|assumption..].
Qed.

Lemma forallb_Forall {A} (p : A -> bool) l : forallb p l = true -> Forall (fun x => p x = true) l.
Proof.
  induction l as [|x l IH]; simpl; intros H; constructor.
  - apply andb_prop in H. tauto.
  - apply IH. apply andb_prop in H. tauto.
Qed.

Lemma Forall_parsesBack l fuel :
  Forall readsBack l -> (list_sum (map size l) <= fuel)%nat -> forallb wf l = true ->
  Forall (parsesBack (parseValue fuel)) l.
Proof.
  induction 1 as [|y ys Hy _ IH]; intros Hsz Hwf; constructor;
    simpl in Hsz, Hwf; apply andb_prop in Hwf as [Hwy Hwys].
  - apply Hy; [lia|assumption].
  - apply IH; [lia|assumption].
Qed.

Lemma Forall_parsesBack_members (l : list (string * json)) fuel :
  Forall (fun m => readsBack (snd m)) l ->
  (list_sum (map (fun m => size (snd m)) l) <= fuel)%nat ->
  forallb (fun m => utf8.ValidString (fst m) && wf (snd m)) l = true ->
  Forall (fun m => parsesBack (parseValue fuel) (snd m)) l /\
  forallb (fun m => utf8.ValidString (fst m)) l = true.
Proof.
  induction 1 as [|[n y] ys Hy _ IH]; intros Hsz Hwf; [split; [constructor|reflexivity]|].
  simpl in Hsz, Hwf, Hy. apply andb_prop in Hwf as [Hwy Hwys]. apply andb_prop in Hwy as [Hn Hwy].
  destruct IH as [IH1 IH2]; [lia|assumption|]. split.
  - constructor; [apply Hy; [lia|assumption]|exact IH1].
  - simpl. rewrite Hn, IH2. reflexivity.
Qed.

Lemma length_le_sizes l : (length l <= list_sum (map size l))%nat.
Proof. induction l as [|y ys IH]; simpl; [lia|]. destruct y; simpl; lia. Qed.

Lemma length_le_sizes_members (l : list (string * json)) :
  (length l <= list_sum (map (fun m => size (snd m)) l))%nat.
Proof. induction l as [|[n y] ys IH]; simpl; [lia|]. destruct y; simpl; lia. Qed.

(** Reading back what [printTo] writes. *)
Lemma parseValue_printTo : forall j, readsBack j.
Proof.
  unfold readsBack.
  induction j as [| b | lit | s | l IH | ms IH] using json_ind';
    intros fuel Hfuel Hwf k Hk; (destruct fuel as [|fuel]; [simpl in Hfuel; lia|]).
  - reflexivity.
  - destruct b; reflexivity.
  - simpl in Hwf. apply andb_prop in Hwf as [Hv Hall].
    destruct lit as [|c r]; [discriminate Hv|].
    destruct (validNumber_head c r Hv) as (Hh & H1 & H2 & H3 & H4 & H5 & H6 & H7).
    destruct (valueHead_not_space c Hh) as (Hsp & _).
    cbn [printTo String.append parseValue skipWs].
    rewrite Hsp, H1, H2, H3, H4, H5, H6, H7.
    change (String.String c (r ++ k)) with (String.String c r ++ k).
    rewrite (spanNum_app _ _ Hall Hk), Hv. reflexivity.
  - simpl in Hwf. cbn [printTo]. unfold quoteTo. cbn [parseValue skipWs].
    change (isSpace strconv.dquote) with false. cbn iota.
    change (Ascii.eqb strconv.dquote "{") with false.
    change (Ascii.eqb strconv.dquote "[") with false.
    rewrite Ascii.eqb_refl. cbn iota.
    rewrite (readString_quote s k Hwf). reflexivity.
  - destruct l as [|x xs]; [reflexivity|].
    change (printTo (JArr (x :: xs)) k) with (String.String "[" (printTo x (printElems xs k))).
    cbn [parseValue skipWs]. change (isSpace "[") with false. cbn iota.
    change (Ascii.eqb "[" "{") with false. change (Ascii.eqb "[" "[") with true. cbn iota.
    change (wf (JArr (x :: xs))) with (forallb wf (x :: xs)) in Hwf.
    change (size (JArr (x :: xs))) with (S (list_sum (map size (x :: xs)))) in Hfuel.
    pose proof Hwf as Hwf'. simpl in Hwf'. apply andb_prop in Hwf' as [Hx Hxs].
    rewrite (skipWs_printTo x _ Hx).
    destruct (printTo_head x (printElems xs k) Hx) as (c & r & Heq & Hc).
    destruct (valueHead_not_space c Hc) as (_ & Hb & _).
    rewrite Heq, Hb, <- Heq.
    rewrite (parseElems_print (parseValue fuel) k xs x); [reflexivity| |].
    + pose proof (length_printTo x Hx (printElems xs k)).
      pose proof (length_printElems xs k
                    ltac:(apply Forall_forall; intros; apply length_printTo) Hxs).
      pose proof (length_le_sizes xs). lia.
    + apply Forall_parsesBack; [assumption|lia|assumption].
  - destruct ms as [|[n x] xs]; [reflexivity|].
    change (printTo (JObj ((n, x) :: xs)) k)
      with (String.String "{" (quoteTo n (String.String ":" (printTo x (printMembers xs k))))).
    cbn [parseValue skipWs]. change (isSpace "{") with false. cbn iota.
    change (Ascii.eqb "{" "{") with true. cbn iota.
    unfold quoteTo at 1. cbn [skipWs]. change (isSpace strconv.dquote) with false. cbn iota.
    change (Ascii.eqb strconv.dquote "}") with false. cbn iota.
    fold (quoteTo n (String.String ":" (printTo x (printMembers xs k)))).
    change (wf (JObj ((n, x) :: xs)))
      with (forallb (fun m => utf8.ValidString (fst m) && wf (snd m)) ((n, x) :: xs)) in Hwf.
    change (size (JObj ((n, x) :: xs)))
      with (S (list_sum (map (fun m => size (snd m)) ((n, x) :: xs)))) in Hfuel.
    destruct (Forall_parsesBack_members _ fuel IH ltac:(lia) Hwf) as [Hall Hkeys].
    simpl in Hwf, Hkeys. apply andb_prop in Hwf as [Hx Hxs]. apply andb_prop in Hx as [Hn Hx].
    apply andb_prop in Hkeys as [_ Hkeys].
    rewrite (parseMembers_print (parseValue fuel) k xs n x); [reflexivity| | | |].
    + pose proof (length_quoteTo n (String.String ":" (printTo x (printMembers xs k)))).
      pose proof (length_printTo x Hx (printMembers xs k)).
      pose proof (length_printMembers xs k
                    ltac:(apply Forall_forall; intros; apply length_printTo) Hxs).
      pose proof (length_le_sizes_members xs).
      simpl in *. lia.
    + exact Hn.
    + exact Hkeys.
    + exact Hall.
Qed.

Theorem parse_print j : wf j = true -> parse (print j) = Some j.
Proof.
  intros Hwf. unfold parse, print.
  rewrite (parseValue_printTo j (S (String.length (printTo j EmptyString)))); try reflexivity.
  - pose proof (length_printTo j Hwf EmptyString). lia.
  - exact Hwf.
Qed.

End TextFacts.

(** ** json_test.go: [Service1.Multiply] *)

Lemma wrap64_id z : Go.in_int z -> Go.wrap64 z = z.
Proof.
  unfold Go.in_int, Go.wrap64. intros Hz.
  rewrite Z.mod_small by lia. lia.
Qed.

(** C8: [Multiply] returns no error; it sets [Result] to the sentinel 9999
    when [A = 0] and [B = 0] (the all-zero argument that absent params
    leave) and to Go's product [A*B] otherwise, which is the mathematical
    product whenever that fits an [int]; so [{4,2}] gives 8 and [{0,0}]
    gives 9999. *)
Theorem Multiply_spec :
  (forall req res, snd (Multiply req res) = None) /\
  (forall req res, A req = 0 -> B req = 0 ->
     Result (fst (Multiply req res)) = Service1DefaultResponse) /\
  (forall req res, ~ (A req = 0 /\ B req = 0) ->
     Result (fst (Multiply req res)) = Go.int_mul (A req) (B req)) /\
  (forall req res, ~ (A req = 0 /\ B req = 0) -> Go.in_int (A req * B req) ->
     Result (fst (Multiply req res)) = A req * B req) /\
  (forall res, Multiply (mkService1Request 4 2) res = (mkService1Response 8, None)) /\
  (forall res, Multiply (mkService1Request 0 0) res = (mkService1Response 9999, None)).
Proof.
  assert (Hnz : forall req res, ~ (A req = 0 /\ B req = 0) ->
            Multiply req res = (mkService1Response (Go.int_mul (A req) (B req)), None)).
  { intros req res Hn. unfold Multiply.
    destruct (A req =? 0) eqn:Ha; destruct (B req =? 0) eqn:Hb; simpl; try reflexivity.
    apply Z.eqb_eq in Ha, Hb. tauto. }
  repeat split.
  - intros req res. unfold Multiply. destruct (_ && _); reflexivity.
  - intros req res Ha Hb. unfold Multiply. rewrite Ha, Hb. reflexivity.
  - intros req res Hn. rewrite Hnz by assumption. reflexivity.
  - intros req res Hn Hr. rewrite Hnz by assumption. simpl.
    unfold Go.int_mul. apply wrap64_id. assumption.
Qed.

Lemma Multiply_spec_witness :
  Result (fst (Multiply (mkService1Request 3 5) (mkService1Response 0))) = 15.
Proof.
  destruct Multiply_spec as (_ & _ & _ & H & _).
  rewrite (H (mkService1Request 3 5) (mkService1Response 0)).
  - reflexivity.
  - simpl. intros [E _]. discriminate E.
  - unfold Go.in_int. simpl. lia.
Defined.

(** ** utils.go: [structFieldsToFieldsSlice] *)

Lemma fieldPointers_exported base fields : forall i,
  allExported fields = true ->
  exists v, fieldPointers base i fields = Go.Returns v /\
    length v = length fields /\
    forall j name t, fields !! j = Some (name, t) ->
      v !! j = Some (Go.VPtr t (Some (fieldPlace base (i + j)))).
Proof.
  induction fields as [|[name t] rest IH]; intros i Hex.
  - exists []. repeat split. intros j n t' Hj. destruct j; discriminate Hj.
  - simpl in Hex. apply andb_prop in Hex as [Hn Hr].
    destruct (IH (S i) Hr) as (v & Hv & Hlen & Hnth).
    exists (Go.VPtr t (Some (fieldPlace base i)) :: v). simpl in *.
    rewrite Hn, Hv. repeat split.
    + simpl. congruence.
    + intros j n t' Hj. destruct j as [|j]; simpl in *.
      * injection Hj as _ <-. rewrite Nat.add_0_r. reflexivity.
      * rewrite (Hnth j n t' Hj). do 4 f_equal. lia.
Qed.

(** C9, as the code has it: for a non-nil pointer to a struct whose [n]
    fields are all exported, [structFieldsToFieldsSlice] returns, without
    error, a slice of length [n] whose [i]-th element is a pointer to the
    [i]-th field in declaration order; for a value that is not a pointer it
    returns a nil slice and an error naming the actual kind. *)
Theorem structFieldsToFieldsSlice_spec :
  (forall name fields base, allExported fields = true ->
     exists v,
       structFieldsToFieldsSlice (Go.VPtr (Go.TStruct name fields) (Some base))
         = Go.Returns (Some v, None) /\
       length v = length fields /\
       forall i fname t, fields !! i = Some (fname, t) ->
         v !! i = Some (Go.VPtr t (Some (fieldPlace base i)))) /\
  (forall u, Go.Kind_of_value u <> Go.Pointer ->
     structFieldsToFieldsSlice u =
       Go.Returns (None, Some (fmtError ("input argument must be a pointer, got "
                                 ++ Go.Kind_String (Go.Kind_of_value u))))).
Proof.
  split.
  - intros name fields base Hex.
    destruct (fieldPointers_exported base fields 0 Hex) as (v & Hv & Hlen & Hnth).
    exists v. simpl. rewrite Hv. repeat split; [assumption|].
    intros i fname t Hi. exact (Hnth i fname t Hi).
  - intros u Hk. destruct u; try reflexivity. exfalso. apply Hk. reflexivity.
Qed.

Lemma structFieldsToFieldsSlice_spec_witness :
  structFieldsToFieldsSlice (Go.VPtr Service1Request_type (Some (0%nat, [])))
  = Go.Returns (Some [Go.VPtr Go.TInt (Some (0%nat, [0%nat]));
                      Go.VPtr Go.TInt (Some (0%nat, [1%nat]))], None)
  /\ structFieldsToFieldsSlice (Go.VInt 7)
     = Go.Returns (None, Some (fmtError "input argument must be a pointer, got int")).
Proof.
  destruct structFieldsToFieldsSlice_spec as [Hp Hn]. split.
  - destruct (Hp "json2.Service1Request" [("A", Go.TInt); ("B", Go.TInt)] (0%nat, []) eq_refl)
      as (v & Hv & _ & _).
    pose proof Hv as Hv'. vm_compute in Hv'. injection Hv' as <-. exact Hv.
  - rewrite (Hn (Go.VInt 7)); [reflexivity|]. simpl. discriminate.
Defined.

(** Counterexample to C9 as stated: a pointer to a struct with one unexported field is
    a pointer to a struct with 1 field, and the call panics instead of
    returning a slice of length 1. *)
Lemma structFieldsToFieldsSlice_unexported_panics :
  Go.Kind_of_value (Go.VPtr (Go.TStruct "json2.point" [("x", Go.TInt)]) (Some (0%nat, [])))
  = Go.Pointer /\
  ~ exists v err,
      structFieldsToFieldsSlice
        (Go.VPtr (Go.TStruct "json2.point" [("x", Go.TInt)]) (Some (0%nat, [])))
      = Go.Returns (v, err).
Proof.
  split; [reflexivity|]. intros (v & err & H). vm_compute in H. discriminate H.
Qed.

(** ** utils.go: [StructFields.UnmarshalJSON] *)

Lemma unmarshalElements_no_arity L f : forall elems i h h' e,
  unmarshalElements L f i elems h = Go.Returns (h', Some e) ->
  exists j r cause, f !! j = Some r /\ e = errField j r cause.
Proof.
  induction elems as [|x rest IH]; intros i h h' e H; simpl in H.
  - discriminate H.
  - destruct (f !! i) as [r|] eqn:Hr; [|discriminate H].
    destruct (json_Unmarshal L (gjson.Raw x) r h) as [h1 [err|]] eqn:Hu.
    + injection H as _ <-. eauto.
    + eapply IH. eassumption.
Qed.

(** The loop runs the positional binding; [pre] are the elements already
    bound. *)
Lemma unmarshalElements_binds L f : forall rest pre h,
  (length pre + length rest = length f)%nat ->
  exists res, unmarshalElements L f (length pre) rest h = Go.Returns res /\
              bindsFrom L f (pre ++ rest) (length pre) h res.
Proof.
  induction rest as [|x rest IH]; intros pre h Hlen.
  - exists (h, None). split; [reflexivity|].
    apply binds_end. rewrite length_app. simpl. lia.
  - simpl in Hlen. cbn [unmarshalElements].
    destruct (lookup_lt_is_Some_2 f (length pre) ltac:(lia)) as [r Hr].
    rewrite Hr.
    assert (Hx : ((pre ++ x :: rest)%list : list gjson.Result) !! length pre = Some x).
    { rewrite lookup_app_r by lia. rewrite Nat.sub_diag. reflexivity. }
    destruct (json_Unmarshal L (gjson.Raw x) r h) as [h1 [err|]] eqn:Hu.
    + eexists. split; [reflexivity|]. eapply binds_fail; eassumption.
    + destruct (IH (pre ++ [x])%list h1) as (res & Hres & Hb).
      { rewrite length_app. simpl. lia. }
      rewrite length_app in Hres, Hb. simpl in Hres, Hb.
      replace (length pre + 1)%nat with (S (length pre)) in Hres, Hb by lia.
      rewrite <- app_assoc in Hb. simpl in Hb.
      exists res. split; [assumption|].
      eapply binds_step; eassumption.
Qed.

(** C1: on a params array of [k] elements and a target of [m] slots with
    [k <> m] the binding returns the error that names both counts, with
    every cell of the heap as it was (nothing truncated, nothing
    zero-filled); with [k = m] the length check passes: no such error is
    returned. *)
Theorem UnmarshalJSON_arity (L : Libs) (f : StructFields) (data : string)
    (h : Go.heap) (k m : nat) :
  IsArray L (ParseBytes L data) = true ->
  length (Array L (ParseBytes L data)) = k ->
  length f = m ->
  (k <> m ->
     UnmarshalJSON L f data h = Go.Returns (h, Some (errArity k m)) /\
     error_Error (errArity k m) =
       "input array has " ++ strconv.Itoa (Z.of_nat k)
       ++ " elements but we are trying to unserialize in only "
       ++ strconv.Itoa (Z.of_nat m) ++ " struct fields") /\
  (k = m -> forall h' k' m',
     UnmarshalJSON L f data h <> Go.Returns (h', Some (errArity k' m'))).
Proof.
  intros Harr Hk Hm. unfold UnmarshalJSON. rewrite Harr. simpl. rewrite Hk, Hm.
  split.
  - intros Hne. apply Nat.eqb_neq in Hne. rewrite Hne. simpl. split; reflexivity.
  - intros ->. rewrite Nat.eqb_refl. simpl. intros h' k' m' H.
    apply unmarshalElements_no_arity in H as (j & r & cause & _ & H).
    discriminate H.
Qed.

(** C2: on a params array with as many elements as the target has slots,
    the binding is the run that decodes element [i] into slot [i] in index
    order; it ends without error when every decoding succeeds and otherwise
    at the first failing index [i], with an error whose text names [i] and
    the type of the slot, and which wraps the decoder's error. *)
Theorem UnmarshalJSON_positional (L : Libs) (f : StructFields) (data : string)
    (h : Go.heap) :
  IsArray L (ParseBytes L data) = true ->
  length (Array L (ParseBytes L data)) = length f ->
  exists res,
    UnmarshalJSON L f data h = Go.Returns res /\
    bindsFrom L f (Array L (ParseBytes L data)) 0 h res /\
    (forall e, snd res = Some e ->
       exists i r cause,
         f !! i = Some r /\ e = errField i r cause /\ Unwrap e = Some cause /\
         error_Error e =
           "unable to marshal JSON into field " ++ strconv.Itoa (Z.of_nat i)
           ++ " of type " ++ Go.T_String r ++ ": " ++ error_Error cause) /\
    (forall t p, Go.T_String (Go.VPtr t p) = "*" ++ Go.type_String t).
Proof.
  intros Harr Hlen. unfold UnmarshalJSON. rewrite Harr, Hlen, Nat.eqb_refl. simpl.
  destruct (unmarshalElements_binds L f (Array L (ParseBytes L data)) [] h Hlen)
    as (res & Hres & Hb).
  simpl in Hres, Hb. exists res. repeat split; try assumption.
  intros e He. destruct res as [h' oe]. simpl in He. subst oe.
  apply unmarshalElements_no_arity in Hres as (j & r & cause & Hj & ->).
  exists j, r, cause. repeat split. assumption.
Qed.

(** C10: when the input is not a JSON array, or is an array whose length
    differs from the number of slots, the binding returns its error with
    every heap cell as it was, and does so whatever the element decoder is:
    no element decoding takes place. *)
Theorem UnmarshalJSON_atomic (L : Libs) (f : StructFields) (data : string)
    (h : Go.heap) :
  IsArray L (ParseBytes L data) = false \/
  length (Array L (ParseBytes L data)) <> length f ->
  exists err,
    UnmarshalJSON L f data h = Go.Returns (h, Some err) /\
    (err = errNotArray (ParseBytes L data) \/
     err = errArity (length (Array L (ParseBytes L data))) (length f)) /\
    forall decoder,
      UnmarshalJSON (mkLibs (ParseBytes L) (IsArray L) (Array L) decoder) f data h
      = Go.Returns (h, Some err).
Proof.
  intros H. unfold UnmarshalJSON. simpl.
  destruct (IsArray L (ParseBytes L data)) eqn:Harr; simpl.
  - destruct H as [H|H]; [discriminate H|].
    apply Nat.eqb_neq in H. rewrite H. simpl. eexists. split; [reflexivity|].
    split; [right; reflexivity|reflexivity].
  - eexists. split; [reflexivity|]. split; [left; reflexivity|reflexivity].
Qed.

Lemma UnmarshalJSON_arity_witness :
  UnmarshalJSON refLibs
    [Go.VPtr Go.TInt (Some (0%nat, [0%nat])); Go.VPtr Go.TInt (Some (0%nat, [1%nat]))]
    "[1,2,3]" [encjson.zero Service1Request_type]
  = Go.Returns ([encjson.zero Service1Request_type], Some (errArity 3 2))
  /\ error_Error (errArity 3 2)
     = "input array has 3 elements but we are trying to unserialize in only 2 struct fields".
Proof.
  destruct (UnmarshalJSON_arity refLibs
              [Go.VPtr Go.TInt (Some (0%nat, [0%nat])); Go.VPtr Go.TInt (Some (0%nat, [1%nat]))]
              "[1,2,3]" [encjson.zero Service1Request_type] 3 2) as [H _].
  - reflexivity.
  - reflexivity.
  - reflexivity.
  - destruct H as [H1 H2]; [lia|]. split; [exact H1|reflexivity].
Defined.

Lemma UnmarshalJSON_positional_witness :
  UnmarshalJSON refLibs
    [Go.VPtr Go.TInt (Some (0%nat, [0%nat])); Go.VPtr Go.TInt (Some (0%nat, [1%nat]))]
    "[4, 2]" [encjson.zero Service1Request_type]
  = Go.Returns
      ([Go.VStruct "json2.Service1Request" [("A", Go.TInt); ("B", Go.TInt)]
          [Go.VInt 4; Go.VInt 2]], None)
  /\ exists e,
       UnmarshalJSON refLibs
         [Go.VPtr Go.TInt (Some (0%nat, [0%nat])); Go.VPtr Go.TInt (Some (0%nat, [1%nat]))]
         "[4,true]" [encjson.zero Service1Request_type]
       = Go.Returns
           ([Go.VStruct "json2.Service1Request" [("A", Go.TInt); ("B", Go.TInt)]
               [Go.VInt 4; Go.VInt 0]], Some e) /\
       error_Error e
       = "unable to marshal JSON into field 1 of type *int: json: cannot unmarshal bool into Go value of type int".
Proof.
  split.
  - destruct (UnmarshalJSON_positional refLibs
                [Go.VPtr Go.TInt (Some (0%nat, [0%nat])); Go.VPtr Go.TInt (Some (0%nat, [1%nat]))]
                "[4, 2]" [encjson.zero Service1Request_type] eq_refl eq_refl)
      as (res & Hres & _).
    rewrite Hres. vm_compute in Hres. injection Hres as <-. reflexivity.
  - destruct (UnmarshalJSON_positional refLibs
                [Go.VPtr Go.TInt (Some (0%nat, [0%nat])); Go.VPtr Go.TInt (Some (0%nat, [1%nat]))]
                "[4,true]" [encjson.zero Service1Request_type] eq_refl eq_refl)
      as (res & Hres & _).
    eexists. rewrite Hres. vm_compute in Hres. injection Hres as <-.
    split; reflexivity.
Defined.

Lemma UnmarshalJSON_atomic_witness :
  UnmarshalJSON refLibs
    [Go.VPtr Go.TInt (Some (0%nat, [0%nat])); Go.VPtr Go.TInt (Some (0%nat, [1%nat]))]
    "7" [Go.VStruct "json2.Service1Request" [("A", Go.TInt); ("B", Go.TInt)]
           [Go.VInt 5; Go.VInt 6]]
  = Go.Returns
      ([Go.VStruct "json2.Service1Request" [("A", Go.TInt); ("B", Go.TInt)]
          [Go.VInt 5; Go.VInt 6]],
       Some (fmtError "expected array but got Number")).
Proof.
  destruct (UnmarshalJSON_atomic refLibs
              [Go.VPtr Go.TInt (Some (0%nat, [0%nat])); Go.VPtr Go.TInt (Some (0%nat, [1%nat]))]
              "7" [Go.VStruct "json2.Service1Request" [("A", Go.TInt); ("B", Go.TInt)]
                     [Go.VInt 5; Go.VInt 6]]) as (err & Herr & _).
  - left. reflexivity.
  - rewrite Herr. vm_compute in Herr. injection Herr as <-. reflexivity.
Defined.

(** ** The server side: the batch detector *)

(** The detector agrees with the reader: a text read as an array starts
    with a bracket, a text read as an object does not. *)
Lemma parse_isBatch raw j :
  JSON.parse raw = Some j ->
  match j with
  | JSON.JArr _ => Server.isBatch raw = true
  | _ => Server.isBatch raw = false
  end.
Proof.
  unfold JSON.parse, Server.isBatch. cbn [JSON.parseValue].
  destruct (JSON.skipWs raw) as [|c r]; [discriminate|].
  destruct (Ascii.eqb c "{") eqn:Hobj.
  { apply Ascii.eqb_eq in Hobj. subst c. change (Ascii.eqb "{" "[") with false.
    destruct (JSON.skipWs r) as [|d r']; [discriminate|].
    destruct (Ascii.eqb d "}").
    - destruct (JSON.skipWs r'); [|discriminate]. intros [= <-]. reflexivity.
    - destruct (JSON.parseMembers _ _ _) as [[ms rest]|]; [|discriminate].
      destruct (JSON.skipWs rest); [|discriminate]. intros [= <-]. reflexivity. }
  destruct (Ascii.eqb c "[") eqn:Harr.
  { destruct (JSON.skipWs r) as [|d r']; [discriminate|].
    destruct (Ascii.eqb d "]").
    - destruct (JSON.skipWs r'); [|discriminate]. intros [= <-]. reflexivity.
    - destruct (JSON.parseElems _ _ _) as [[vs rest]|]; [|discriminate].
      destruct (JSON.skipWs rest); [|discriminate]. intros [= <-]. reflexivity. }
  destruct (Ascii.eqb c strconv.dquote).
  { destruct (JSON.readString r) as [[str rest]|]; [|discriminate].
    destruct (JSON.skipWs rest); [|discriminate]. intros [= <-]. reflexivity. }
  unfold JSON.expect.
  destruct (Ascii.eqb c "t").
  { destruct (JSON.HasPrefix r "rue"); [|discriminate].
    destruct (JSON.skipWs _); [|discriminate]. intros [= <-]. reflexivity. }
  destruct (Ascii.eqb c "f").
  { destruct (JSON.HasPrefix r "alse"); [|discriminate].
    destruct (JSON.skipWs _); [|discriminate]. intros [= <-]. reflexivity. }
  destruct (Ascii.eqb c "n").
  { destruct (JSON.HasPrefix r "ull"); [|discriminate].
    destruct (JSON.skipWs _); [|discriminate]. intros [= <-]. reflexivity. }
  destruct (Ascii.eqb c "-" || strconv.isDigit c); [|discriminate].
  destruct (JSON.spanNum (String.String c r)) as [lit rest].
  destruct (JSON.validNumber lit); [|discriminate].
  destruct (JSON.skipWs rest); [|discriminate]. intros [= <-]. reflexivity.
Qed.

(** ** The server side: errors *)

Section HandlerErrors.

Variable bindArray : list JSON.json -> Go.value -> list Go.value -> list Go.value * option Error.
Variable registry : Server.Registry.
Variable ctx : context.

(** A request that reaches its handler, the handler failing with [err]:
    the response is the encoding of [err] under the mapper. *)
Lemma handle_handler_error mapper r m h args reply err :
  Server.req_invalid r = None ->
  registry (Server.req_method r) = Some m ->
  Server.BindParams bindArray (Server.req_params r)
    (Go.VPtr (Server.argType m) (Some Server.freshPlace))
    (Server.freshTarget (Server.argType m)) = (h, None) ->
  encjson.load h Server.freshPlace = Some args ->
  Server.invoke m args = (reply, Some err) ->
  Server.handle bindArray registry mapper ctx r
  = Server.EncodeFailure (Server.req_id r) (Server.mapError mapper ctx err).
Proof.
  intros Hv Hm Hb Hl Hi. unfold Server.handle. rewrite Hv, Hm, Hb, Hl, Hi. reflexivity.
Qed.

(** A single request that is not a notification is answered by the
    response of its record. *)
Lemma Serve_single mapper raw ms :
  JSON.parse raw = Some (JSON.JObj ms) ->
  Server.notification (Server.toRecord (JSON.JObj ms)) = false ->
  Server.Serve bindArray registry mapper ctx raw
  = Server.Single (Server.handle bindArray registry mapper ctx (Server.toRecord (JSON.JObj ms))).
Proof.
  intros Hp Hn. unfold Server.Serve, Server.DecodeRequest.
  rewrite Hp, (parse_isBatch raw _ Hp). unfold Server.respond. rewrite Hn. reflexivity.
Qed.

End HandlerErrors.

(** C3: under a codec with an error mapper, a request that reaches its
    handler and whose handler fails with [err] is answered, under the id
    of the request, with the [Error] the mapper returns for [err], as it
    is (code, message and data), when the mapper returns an [*Error]; with
    code [E_SERVER] and the text of [err] when the mapper passes [err]
    through, by returning nil or [err] itself; a malformed envelope is
    answered with [E_INVALID_REQ], -32600, whatever the mapper is and
    whether it has an id or not: the mapper is not applied to it; and the
    codec writes these responses.  With the [errorMapper] of the test and
    [Service1], a request for [MappedResponseError] is answered with code
    100 and the text of [ErrMappedResponseError], a request for
    [ResponseError] with [E_SERVER] and the text of [ErrResponseError]. *)
Theorem Serve_error_mapper :
  (forall bindArray registry mp ctx r m h args reply err e,
     Server.req_invalid r = None ->
     registry (Server.req_method r) = Some m ->
     Server.BindParams bindArray (Server.req_params r)
       (Go.VPtr (Server.argType m) (Some Server.freshPlace))
       (Server.freshTarget (Server.argType m)) = (h, None) ->
     encjson.load h Server.freshPlace = Some args ->
     Server.invoke m args = (reply, Some err) ->
     mp ctx err = Go.Returns (Some (rpcError e)) ->
     Server.handle bindArray registry (Some mp) ctx r
     = Server.EncodeFailure (Server.req_id r) e) /\
  (forall bindArray registry mp ctx r m h args reply err,
     Server.req_invalid r = None ->
     registry (Server.req_method r) = Some m ->
     Server.BindParams bindArray (Server.req_params r)
       (Go.VPtr (Server.argType m) (Some Server.freshPlace))
       (Server.freshTarget (Server.argType m)) = (h, None) ->
     encjson.load h Server.freshPlace = Some args ->
     Server.invoke m args = (reply, Some err) ->
     (forall e, err <> rpcError e) ->
     mp ctx err = Go.Returns None \/ mp ctx err = Go.Returns (Some err) ->
     Server.handle bindArray registry (Some mp) ctx r
     = Server.EncodeFailure (Server.req_id r)
         {| Code := E_SERVER; Message := error_Error err; Data := None |}) /\
  (forall bindArray registry mapper ctx r reason,
     Server.req_invalid r = Some reason ->
     Server.respond bindArray registry mapper ctx r
     = Some (Server.EncodeFailure (Server.req_id r) Server.errInvalidReq) /\
     Code Server.errInvalidReq = E_INVALID_REQ /\ E_INVALID_REQ = -32600) /\
  (forall bindArray registry mapper ctx raw ms,
     JSON.parse raw = Some (JSON.JObj ms) ->
     Server.notification (Server.toRecord (JSON.JObj ms)) = false ->
     Server.Serve bindArray registry mapper ctx raw
     = Server.Single
         (Server.handle bindArray registry mapper ctx (Server.toRecord (JSON.JObj ms)))) /\
  (forall bindArray ctx r h args,
     Server.req_invalid r = None ->
     Server.BindParams bindArray (Server.req_params r)
       (Go.VPtr Service1Request_type (Some Server.freshPlace))
       (Server.freshTarget Service1Request_type) = (h, None) ->
     encjson.load h Server.freshPlace = Some args ->
     (Server.req_method r = "Service1.MappedResponseError" ->
      Server.handle bindArray Service1_registry (Some errorMapper_hook) ctx r
      = Server.EncodeFailure (Server.req_id r)
          {| Code := 100; Message := "mapped response error"; Data := None |}) /\
     (Server.req_method r = "Service1.ResponseError" ->
      Server.handle bindArray Service1_registry (Some errorMapper_hook) ctx r
      = Server.EncodeFailure (Server.req_id r)
          {| Code := E_SERVER; Message := "response error"; Data := None |})).
Proof.
  split; [|split; [|split; [|split]]].
  - intros bindArray registry mp ctx r m h args reply err e Hv Hm Hb Hl Hi Hmp.
    rewrite (handle_handler_error bindArray registry ctx (Some mp) r m h args reply err)
      by assumption.
    unfold Server.mapError. rewrite Hmp. reflexivity.
  - intros bindArray registry mp ctx r m h args reply err Hv Hm Hb Hl Hi Hne Hmp.
    rewrite (handle_handler_error bindArray registry ctx (Some mp) r m h args reply err)
      by assumption.
    unfold Server.mapError.
    destruct Hmp as [-> | ->]; destruct err; try reflexivity; exfalso; eapply Hne; reflexivity.
  - intros bindArray registry mapper ctx r reason Hr.
    unfold Server.respond, Server.notification, Server.handle. rewrite Hr. repeat split.
  - intros bindArray registry mapper ctx raw ms Hp Hn. apply Serve_single; assumption.
  - intros bindArray ctx r h args Hv Hb Hl. split; intros Hm.
    + rewrite (handle_handler_error bindArray Service1_registry ctx (Some errorMapper_hook) r
                 (Server.mkMethod Service1Request_type
                    (fun a => let '(res, err) :=
                                MappedResponseError (Service1Request_of a) (mkService1Response 0) in
                              (Service1Response_value res, err)))
                 h args (Service1Response_value (mkService1Response 0)) ErrMappedResponseError);
        try assumption; try reflexivity.
      rewrite Hm. reflexivity.
    + rewrite (handle_handler_error bindArray Service1_registry ctx (Some errorMapper_hook) r
                 (Server.mkMethod Service1Request_type
                    (fun a => let '(res, err) :=
                                ResponseError (Service1Request_of a) (mkService1Response 0) in
                              (Service1Response_value res, err)))
                 h args (Service1Response_value (mkService1Response 0)) ErrResponseError);
        try assumption; try reflexivity.
      rewrite Hm. reflexivity.
Qed.

Lemma Serve_error_mapper_witness :
  Server.Serve (Server.bindByPosition refLibs) Service1_registry (Some errorMapper_hook)
    Background
    (JSON.print (JSON.JObj [("jsonrpc", JSON.JStr "2.0");
                            ("method", JSON.JStr "Service1.MappedResponseError");
                            ("params", JSON.JObj [("A", JSON.JNum "4"); ("B", JSON.JNum "2")]);
                            ("id", JSON.JNum "77")]))
  = Server.Single
      (Server.EncodeFailure (Some (Server.IdNum 77))
         {| Code := 100; Message := "mapped response error"; Data := None |})
  /\ Server.Serve (Server.bindByPosition refLibs) Service1_registry (Some errorMapper_hook)
       Background
       (JSON.print (JSON.JObj [("jsonrpc", JSON.JStr "3.0"); ("id", JSON.JStr "any")]))
     = Server.Single (Server.EncodeFailure (Some (Server.IdStr "any")) Server.errInvalidReq)
  /\ Server.Serve (Server.bindByPosition refLibs) Service1_registry (Some errorMapper_hook)
       Background (JSON.print (JSON.JObj [("jsonrpc", JSON.JStr "3.0")]))
     = Server.Single (Server.EncodeFailure None Server.errInvalidReq)
  /\ Server.respond (Server.bindByPosition refLibs) Service1_registry (Some errorMapper_hook)
       Background (Server.toRecord (JSON.JObj [("jsonrpc", JSON.JStr "3.0")]))
     = Some (Server.EncodeFailure None Server.errInvalidReq).
Proof.
  destruct Serve_error_mapper as (_ & _ & H3 & H4 & H5). split; [|split; [|split]].
  - rewrite (H4 (Server.bindByPosition refLibs) Service1_registry (Some errorMapper_hook)
               Background _
               [("jsonrpc", JSON.JStr "2.0");
                ("method", JSON.JStr "Service1.MappedResponseError");
                ("params", JSON.JObj [("A", JSON.JNum "4"); ("B", JSON.JNum "2")]);
                ("id", JSON.JNum "77")]); [|vm_compute; reflexivity|reflexivity].
    destruct (H5 (Server.bindByPosition refLibs) Background
                (Server.toRecord
                   (JSON.JObj [("jsonrpc", JSON.JStr "2.0");
                               ("method", JSON.JStr "Service1.MappedResponseError");
                               ("params", JSON.JObj [("A", JSON.JNum "4"); ("B", JSON.JNum "2")]);
                               ("id", JSON.JNum "77")]))
                [Go.VStruct "json2.Service1Request" [("A", Go.TInt); ("B", Go.TInt)]
                   [Go.VInt 4; Go.VInt 2]]
                (Go.VStruct "json2.Service1Request" [("A", Go.TInt); ("B", Go.TInt)]
                   [Go.VInt 4; Go.VInt 2])) as [Hm _];
      [reflexivity|reflexivity|reflexivity|].
    rewrite Hm; reflexivity.
  - rewrite (H4 (Server.bindByPosition refLibs) Service1_registry (Some errorMapper_hook)
               Background _ [("jsonrpc", JSON.JStr "3.0"); ("id", JSON.JStr "any")]);
      [reflexivity|vm_compute; reflexivity|reflexivity].
  - rewrite (H4 (Server.bindByPosition refLibs) Service1_registry (Some errorMapper_hook)
               Background _ [("jsonrpc", JSON.JStr "3.0")]);
      [reflexivity|vm_compute; reflexivity|reflexivity].
  - destruct (H3 (Server.bindByPosition refLibs) Service1_registry (Some errorMapper_hook)
                Background (Server.toRecord (JSON.JObj [("jsonrpc", JSON.JStr "3.0")]))
                "wrong version" eq_refl) as [H _].
    exact H.
Defined.

(** C4: for every text that is not valid JSON the codec answers with
    exactly one response, which carries the error code [E_PARSE], -32700,
    and no result; the text [not even a json] is such a text. *)
Theorem Serve_not_json bindArray registry mapper ctx (raw : string) :
  JSON.Valid raw = false ->
  exists r e,
    Server.responses (Server.Serve bindArray registry mapper ctx raw) = [r] /\
    Server.resp_error r = Some e /\ Code e = E_PARSE /\ E_PARSE = -32700 /\
    Server.resp_result r = None.
Proof.
  unfold JSON.Valid. intros Hv. unfold Server.Serve, Server.DecodeRequest.
  destruct (JSON.parse raw); [discriminate Hv|].
  eexists _, _. repeat split.
Qed.

Lemma Serve_not_json_witness :
  JSON.Valid "not even a json" = false /\
  exists r e,
    Server.responses
      (Server.Serve (Server.bindByPosition refLibs) Service1_registry None Background
         "not even a json") = [r] /\
    Server.resp_error r = Some e /\ Code e = E_PARSE /\ E_PARSE = -32700 /\
    Server.resp_result r = None.
Proof.
  split; [reflexivity|].
  apply (Serve_not_json (Server.bindByPosition refLibs) Service1_registry None Background
           "not even a json").
  reflexivity.
Defined.

(** ** The server side: batches *)

Section Batches.

Variable bindArray : list JSON.json -> Go.value -> list Go.value -> list Go.value * option Error.
Variable registry : Server.Registry.
Variable mapper : option Server.ErrorMapper.
Variable ctx : context.

Let handle := Server.handle bindArray registry mapper ctx.
Let respond := Server.respond bindArray registry mapper ctx.

Lemma handle_id r : Server.resp_id (handle r) = Server.req_id r.
Proof.
  unfold handle, Server.handle.
  destruct (Server.req_invalid r); [reflexivity|].
  destruct (registry (Server.req_method r)) as [m|]; [|reflexivity].
  destruct (Server.BindParams _ _ _ _) as [h [e|]]; [reflexivity|].
  destruct (encjson.load _ _); [|reflexivity].
  destruct (Server.invoke m _) as [reply [err|]]; reflexivity.
Qed.





End Batches.



(** The array of no request is not a batch: the decoder refuses it as an
    invalid request, which is answered by one error response (section
    4.2). *)
Lemma Serve_empty_batch :
  Server.Serve (Server.bindByPosition refLibs) Service1_registry None Background
    (JSON.print (JSON.JArr []))
  = Server.Single (Server.EncodeFailure None Server.errInvalidReq).
Proof. reflexivity. Qed.

(** ** The request envelope: the id *)

Lemma idField_number ms n :
  0 <= n < 2 ^ 64 ->
  JSON.member "id" ms = Some (JSON.JNum (strconv.utoa n)) ->
  Server.idField ms = Server.IdPresent (Server.IdNum n).
Proof.
  intros Hn Hm. unfold Server.idField. rewrite Hm, TextFacts.utoa_ParseUint by exact Hn.
  reflexivity.
Qed.

Lemma idField_absent ms :
  Server.idField ms = Server.IdAbsent <-> JSON.member "id" ms = None.
Proof.
  unfold Server.idField. destruct (JSON.member "id" ms) as [j|]; [|split; reflexivity].
  split; [|discriminate]. destruct j; try discriminate.
  destruct (strconv.ParseUint lit); discriminate.
Qed.

Lemma notification_absent ms :
  Server.notification (Server.toRecord (JSON.JObj ms)) = true ->
  JSON.member "id" ms = None.
Proof.
  unfold Server.notification, Server.toRecord, Server.idOf.
  cbn [Server.req_invalid Server.req_id].
  destruct (negb _); [discriminate|].
  destruct (match JSON.member "method" ms with Some (JSON.JStr s) => Some s | _ => None end);
    [|discriminate].
  destruct (Server.idField ms) eqn:Hid; try discriminate.
  intros _. apply idField_absent. exact Hid.
Qed.

(** C7: the request envelope tells an absent id from a present id whose
    value is zero.  The record of an envelope without the member [id] has
    no id, and the record of an envelope with the member [id] has the id
    it carries, whatever the number, zero included: whether the id is
    absent does not depend on its value.  A well-formed request without id
    is a notification and gets no response; the same request with the id 0
    gets a response, under the id 0; and only an envelope without the
    member [id] is a notification. *)
Theorem request_id_absent_or_zero bindArray registry mapper ctx :
  (forall ms, JSON.member "id" ms = None ->
     Server.req_id (Server.toRecord (JSON.JObj ms)) = None) /\
  (forall ms n, 0 <= n < 2 ^ 64 ->
     JSON.member "id" ms = Some (JSON.JNum (strconv.utoa n)) ->
     Server.req_id (Server.toRecord (JSON.JObj ms)) = Some (Server.IdNum n) /\
     Server.present (Server.req_id (Server.toRecord (JSON.JObj ms))) = true) /\
  (forall ms, Server.notification (Server.toRecord (JSON.JObj ms)) = true ->
     JSON.member "id" ms = None) /\
  (forall raw ms,
     JSON.parse raw = Some (JSON.JObj ms) ->
     Server.req_invalid (Server.toRecord (JSON.JObj ms)) = None ->
     (JSON.member "id" ms = None ->
      Server.Serve bindArray registry mapper ctx raw = Server.NoReply) /\
     (JSON.member "id" ms = Some (JSON.JNum "0") ->
      exists x,
        Server.Serve bindArray registry mapper ctx raw = Server.Single x /\
        Server.resp_id x = Some (Server.IdNum 0))).
Proof.
  split; [|split; [|split]].
  - intros ms Hm. unfold Server.toRecord, Server.idOf. cbn [Server.req_id].
    destruct (idField_absent ms) as [_ H]. rewrite (H Hm). reflexivity.
  - intros ms n Hn Hm. unfold Server.toRecord, Server.idOf. cbn [Server.req_id].
    rewrite (idField_number ms n Hn Hm). split; reflexivity.
  - exact notification_absent.
  - intros raw ms Hp Hv. split; intros Hm.
    + unfold Server.Serve, Server.DecodeRequest.
      rewrite Hp, (parse_isBatch raw _ Hp). unfold Server.respond, Server.notification.
      rewrite Hv. unfold Server.toRecord, Server.idOf. cbn [Server.req_id].
      destruct (idField_absent ms) as [_ H]. rewrite (H Hm). reflexivity.
    + assert (Hid : Server.req_id (Server.toRecord (JSON.JObj ms)) = Some (Server.IdNum 0)).
      { unfold Server.toRecord, Server.idOf. cbn [Server.req_id].
        rewrite (idField_number ms 0 ltac:(lia) Hm). reflexivity. }
      eexists. split.
      * apply Serve_single; [exact Hp|].
        unfold Server.notification. rewrite Hid.
        destruct (Server.req_invalid _); reflexivity.
      * rewrite handle_id. exact Hid.
Qed.

Lemma request_id_absent_or_zero_witness :
  Server.Serve (Server.bindByPosition refLibs) Service1_registry None Background
    (JSON.print (request "Service1.Multiply" None))
  = Server.NoReply
  /\ exists x,
       Server.Serve (Server.bindByPosition refLibs) Service1_registry None Background
         (JSON.print (request "Service1.Multiply" (Some 0)))
       = Server.Single x /\
       Server.resp_id x = Some (Server.IdNum 0).
Proof.
  destruct (request_id_absent_or_zero (Server.bindByPosition refLibs) Service1_registry None
              Background) as (_ & _ & _ & H).
  split.
  - destruct (H (JSON.print (request "Service1.Multiply" None))
                [("jsonrpc", JSON.JStr "2.0"); ("method", JSON.JStr "Service1.Multiply")])
      as [H0 _]; [vm_compute; reflexivity|reflexivity|].
    apply H0. reflexivity.
  - destruct (H (JSON.print (request "Service1.Multiply" (Some 0)))
                [("jsonrpc", JSON.JStr "2.0"); ("method", JSON.JStr "Service1.Multiply");
                 ("id", JSON.JNum "0")])
      as [_ H1]; [vm_compute; reflexivity|reflexivity|].
    apply H1. reflexivity.
Defined.

(** ** client.go: the request envelope of the client *)

(** The client's request envelope always carries an id: whatever the
    [clientRequest], its document has the member [id], the number [Id],
    and [json.Marshal] writes that document; a zero [Id] is written as
    [0]. *)
Lemma clientRequest_id (h : list Go.value) (c : clientRequest) (j : JSON.json) :
  clientRequest_JSON h c = Some j ->
  exists ms,
    j = JSON.JObj ms /\
    Marshal_clientRequest h c = Go.Returns (JSON.print (JSON.JObj ms), None) /\
    JSON.member "id" ms = Some (JSON.JNum (strconv.utoa (Id c))) /\
    (Id c = 0 -> JSON.member "id" ms = Some (JSON.JNum "0")).
Proof.
  unfold Marshal_clientRequest, clientRequest_JSON.
  destruct (encjson.toJSON h (Params c)) as [p|]; [|discriminate].
  intros [= <-]. eexists. split; [reflexivity|]. split; [reflexivity|].
  split; [reflexivity|]. intros ->. reflexivity.
Qed.

(** No [clientRequest] has a document without the member [id]: the client
    cannot write a notification; the request with [Id] zero is written
    with [id] 0. *)
Lemma clientRequest_no_absent_id :
  (~ exists h c ms,
       clientRequest_JSON h c = Some (JSON.JObj ms) /\ JSON.member "id" ms = None) /\
  Marshal_clientRequest [] (mkClientRequest "2.0" "m" Go.VNil 0)
  = Go.Returns (JSON.print (JSON.JObj [("jsonrpc", JSON.JStr "2.0"); ("method", JSON.JStr "m");
                                       ("params", JSON.JNull); ("id", JSON.JNum "0")]), None).
Proof.
  split; [|reflexivity].
  intros (h & c & ms & Hj & Hid). unfold clientRequest_JSON in Hj.
  destruct (encjson.toJSON h (Params c)); [|discriminate Hj].
  injection Hj as <-. discriminate Hid.
Qed.

(** ** client.go: [EncodeClientRequest] and the server side *)

Lemma marshalValue_struct n fs vals :
  encjson.marshalValue (Go.VStruct n fs vals) = JSON.JObj (marshalFields fs vals).
Proof. reflexivity. Qed.

Lemma decodeValue_struct n fields ms old :
  encjson.decodeValue (Go.TStruct n fields) (JSON.JObj ms) old
  = let vals0 := match old with
                 | Go.VStruct _ _ vs => vs
                 | _ => []
                 end in
    let '(vals, err) := fold_left (bindMember fields) ms (vals0, None) in
    (Go.VStruct n fields vals, err).
Proof. reflexivity. Qed.

Lemma type_ind' (P : Go.type -> Prop) :
  P Go.TBool -> P Go.TInt -> P Go.TUint64 -> P Go.TString ->
  (forall n fs, Forall (fun f => P (snd f)) fs -> P (Go.TStruct n fs)) ->
  forall t, P t.
Proof.
  intros Hb Hi Hu Hs Hst. fix IH 1. intros [| | | | n fs]; try assumption.
  apply Hst. induction fs as [|[x t] fs IHfs]; constructor; [apply IH|exact IHfs].
Qed.

Lemma type_eqb_eq : forall a b, type_eqb a b = true -> a = b.
Proof.
  induction a as [| | | | n fs IH] using type_ind'; intros [| | | | n' fs'] H;
    try discriminate H; try reflexivity.
  cbn [type_eqb] in H. apply andb_prop in H as [Hn Hfs]. apply String.eqb_eq in Hn. subst n'.
  f_equal. revert fs' Hfs. induction IH as [|[x t] fs Ht _ IHfs]; intros [|[x' t'] fs'] Hfs;
    try discriminate Hfs; try reflexivity.
  apply andb_prop in Hfs as [Hh Hr]. apply andb_prop in Hh as [Hx Htt].
  apply String.eqb_eq in Hx. simpl in Ht. rewrite (Ht t' Htt), Hx, (IHfs fs' Hr). reflexivity.
Qed.

Lemma existsb_eqb_false n l :
  existsb (String.eqb n) l = false -> forall m, In m l -> String.eqb m n = false.
Proof.
  induction l as [|x l IH]; simpl; intros H m Hm; [contradiction|].
  apply orb_false_elim in H as [Hx Hl]. destruct Hm as [<-|Hm].
  - rewrite String.eqb_sym. exact Hx.
  - apply IH; assumption.
Qed.

(** In a list of distinct names, the names before an occurrence differ
    from it. *)
Lemma distinct_before : forall (pre : list string) n post,
  distinct (pre ++ n :: post)%list = true -> forall m, In m pre -> String.eqb m n = false.
Proof.
  induction pre as [|x pre IH]; intros n post H m Hm; [contradiction|].
  simpl in H. apply andb_prop in H as [Hx Hr]. destruct Hm as [<-|Hm].
  - apply negb_true_iff in Hx.
    destruct (String.eqb_spec x n) as [->|]; [|reflexivity].
    rewrite existsb_app in Hx. simpl in Hx. rewrite String.eqb_refl, orb_true_r in Hx.
    discriminate Hx.
  - eapply IH; eassumption.
Qed.

Lemma matchField_exact fs n ft :
  In (n, ft) fs -> Go.IsExported n = true -> encjson.matchField n fs = Some n.
Proof.
  intros Hin Hex. unfold encjson.matchField.
  destruct (List.find _ _) as [f|] eqn:Hf.
  - apply find_some in Hf as [_ Hf]. apply String.eqb_eq in Hf. rewrite Hf. reflexivity.
  - exfalso.
    assert (Hin' : In (n, ft) (List.filter (fun f => Go.IsExported (fst f)) fs)).
    { apply filter_In. split; [exact Hin|exact Hex]. }
    pose proof (find_none _ _ Hf (n, ft) Hin') as H0. simpl in H0.
    rewrite String.eqb_refl in H0. discriminate H0.
Qed.

Lemma setField_at n jv ft : forall (pre : list (string * Go.type)) post (vpre : list Go.value) o vpost,
  length pre = length vpre ->
  (forall m, In m (map fst pre) -> String.eqb m n = false) ->
  setField n jv (pre ++ (n, ft) :: post)%list (vpre ++ o :: vpost)%list
  = let '(x, e) := encjson.decodeValue ft jv o in ((vpre ++ x :: vpost)%list, e).
Proof.
  induction pre as [|[m mt] pre IH]; intros post [|y vpre] o vpost Hlen Hne;
    try discriminate Hlen.
  - simpl. rewrite String.eqb_refl. reflexivity.
  - cbn [app]. cbn [setField]. rewrite (Hne m) by (left; reflexivity).
    rewrite IH; [|simpl in Hlen; lia|intros m' Hm'; apply Hne; right; exact Hm'].
    destruct (encjson.decodeValue ft jv o) as [x e]. reflexivity.
Qed.

Lemma representable_struct n fs n' fs' vals :
  representable (Go.TStruct n fs) (Go.VStruct n' fs' vals)
  = type_eqb (Go.TStruct n fs) (Go.TStruct n' fs') && distinct (map fst fs)
    && fieldsRepresentable fs vals.
Proof. reflexivity. Qed.

Lemma bind_fields (fs : list (string * Go.type)) :
  distinct (map fst fs) = true ->
  forall post vpost pre vpre,
    fs = (pre ++ post)%list -> length pre = length vpre ->
    fieldsRepresentable post vpost = true ->
    Forall (fun f => bindsBack (snd f)) post ->
    fold_left (bindMember fs) (marshalFields post vpost)
      ((vpre ++ map (fun f => encjson.zero (snd f)) post)%list, None)
    = ((vpre ++ vpost)%list, None).
Proof.
  intros Hd. induction post as [|[m mt] post IH]; intros [|x vpost] pre vpre Hfs Hlen Hrep Hall;
    try discriminate Hrep.
  - reflexivity.
  - cbn [fieldsRepresentable] in Hrep.
    apply andb_prop in Hrep as [Hrep Hrest]. apply andb_prop in Hrep as [Hrep Hx].
    apply andb_prop in Hrep as [Hex Hname].
    inversion Hall as [|? ? Hmt Hall']; subst. simpl in Hmt.
    cbn [marshalFields]. rewrite Hex. cbn [fold_left map].
    unfold bindMember at 2. cbn [fst snd].
    rewrite (matchField_exact _ m mt) by (try exact Hex; apply in_or_app; right; left; reflexivity).
    rewrite setField_at.
    + rewrite (Hmt x Hx). cbn [encjson.firstError].
      specialize (IH vpost (pre ++ [(m, mt)])%list (vpre ++ [x])%list).
      rewrite <- !app_assoc in IH. cbn [app] in IH. apply IH; try assumption.
      * reflexivity.
      * rewrite !length_app. simpl. lia.
    + exact Hlen.
    + apply (distinct_before (map fst pre) m (map fst post)).
      rewrite map_app in Hd. exact Hd.
Qed.

(** Binding by name what [json.Marshal] writes for a named-fields object
    gives the object back. *)
Lemma decode_marshal : forall t, bindsBack t.
Proof.
  unfold bindsBack.
  induction t as [| | | | n fs IH] using type_ind'; intros v Hv; destruct v; try discriminate Hv.
  - reflexivity.
  - simpl in Hv. cbn [encjson.marshalValue encjson.decodeValue].
    rewrite TextFacts.Itoa_ParseInt; [reflexivity|].
    apply andb_prop in Hv as [H1 H2]. unfold Go.in_int. lia.
  - simpl in Hv. cbn [encjson.marshalValue encjson.decodeValue].
    rewrite TextFacts.utoa_ParseUint; [reflexivity|].
    apply andb_prop in Hv as [H1 H2]. lia.
  - reflexivity.
  - rewrite representable_struct in Hv.
    apply andb_prop in Hv as [Hv Hfields]. apply andb_prop in Hv as [Heq Hd].
    apply type_eqb_eq in Heq. injection Heq as <- <-.
    rewrite marshalValue_struct, decodeValue_struct. cbn [encjson.zero].
    pose proof (bind_fields fs Hd fs vals [] [] eq_refl eq_refl Hfields IH) as H.
    cbn [app] in H. cbv zeta. rewrite H. reflexivity.
Qed.

Lemma wf_marshalFields : forall fs vals,
  Forall (fun f => forall v, representable (snd f) v = true ->
                     JSON.wf (encjson.marshalValue v) = true) fs ->
  fieldsRepresentable fs vals = true ->
  forallb (fun m => utf8.ValidString (fst m) && JSON.wf (snd m)) (marshalFields fs vals) = true.
Proof.
  induction fs as [|[m mt] fs IH]; intros [|x vals] Hall H; try discriminate H; [reflexivity|].
  cbn [fieldsRepresentable] in H.
  apply andb_prop in H as [H Hrest]. apply andb_prop in H as [H Hx].
  apply andb_prop in H as [Hex Hname].
  inversion Hall as [|? ? Hmt Hall']; subst. simpl in Hmt.
  cbn [marshalFields]. rewrite Hex. cbn [forallb fst snd].
  rewrite Hname, (Hmt x Hx), (IH vals Hall' Hrest). reflexivity.
Qed.

Lemma wf_marshal : forall t v,
  representable t v = true -> JSON.wf (encjson.marshalValue v) = true.
Proof.
  induction t as [| | | | n fs IH] using type_ind'; intros v Hv; destruct v; try discriminate Hv.
  - reflexivity.
  - cbn [encjson.marshalValue JSON.wf].
    destruct (TextFacts.Itoa_number z) as [-> ->]. reflexivity.
  - cbn [encjson.marshalValue JSON.wf]. simpl in Hv. apply andb_prop in Hv as [H1 _].
    destruct (TextFacts.utoa_number z ltac:(lia)) as [-> ->]. reflexivity.
  - exact Hv.
  - rewrite representable_struct in Hv.
    apply andb_prop in Hv as [Hv Hfields]. apply andb_prop in Hv as [Heq _].
    apply type_eqb_eq in Heq. injection Heq as <- <-.
    rewrite marshalValue_struct. cbn [JSON.wf].
    apply wf_marshalFields; assumption.
Qed.






(** ** json_test.go: the scenarios of [TestService] on the codec *)

(** [Service1.Multiply] called with [{4, 2}] through [EncodeClientRequest]
    answers [{"Result": 8}] under the id drawn. *)
Example TestService_Multiply :
  exists text,
    EncodeClientRequest
      [Go.VStruct "json2.Service1Request" [("A", Go.TInt); ("B", Go.TInt)]
         [Go.VInt 4; Go.VInt 2]]
      77 "Service1.Multiply" (Go.VPtr Service1Request_type (Some (0%nat, [])))
    = Go.Returns (text, None) /\
    Server.Serve (Server.bindByPosition refLibs) Service1_registry None Background text
    = Server.Single
        (Server.EncodeSuccess (Some (Server.IdNum 77))
           (JSON.JObj [("Result", JSON.JNum "8")])).
Proof. eexists. split; [reflexivity|]. vm_compute. reflexivity. Qed.

(** The request without params of [Service1NoParamsRequest] binds the zero
    argument and is answered with the sentinel. *)
Example TestService_no_params :
  Server.Serve (Server.bindByPosition refLibs) Service1_registry None Background
    (JSON.print (JSON.JObj [("jsonrpc", JSON.JStr "2.0");
                            ("method", JSON.JStr "Service1.Multiply");
                            ("id", JSON.JNum "1")]))
  = Server.Single
      (Server.EncodeSuccess (Some (Server.IdNum 1))
         (JSON.JObj [("Result", JSON.JNum "9999")])).
Proof. vm_compute. reflexivity. Qed.

(** [Service1.ResponseError] is answered with an error. *)
Example TestService_ResponseError :
  Server.Serve (Server.bindByPosition refLibs) Service1_registry None Background
    (JSON.print (request "Service1.ResponseError" (Some 1)))
  = Server.Single
      (Server.EncodeFailure (Some (Server.IdNum 1))
         {| Code := E_SERVER; Message := "response error"; Data := None |}).
Proof. vm_compute. reflexivity. Qed.

(* ====================================================================== *)
(** * Further properties of the sources                                     *)
(* ====================================================================== *)

(** ** Places: reading and writing through pointers *)

Lemma getPath_app : forall p v q,
  encjson.getPath v (p ++ q)%list
  = match encjson.getPath v p with
    | Some x => encjson.getPath x q
    | None => None
    end.
Proof.
  induction p as [|i p IH]; intros v q; [reflexivity|].
  cbn [app encjson.getPath]. destruct v; try reflexivity.
  destruct (vals !! i); [apply IH|reflexivity].
Qed.

Lemma setPath_app : forall p v q new x,
  encjson.getPath v p = Some x ->
  encjson.setPath v (p ++ q)%list new = encjson.setPath v p (encjson.setPath x q new).
Proof.
  induction p as [|i p IH]; intros v q new x H.
  - injection H as ->. reflexivity.
  - cbn [app encjson.getPath encjson.setPath] in *. destruct v; try discriminate H.
    destruct (vals !! i) as [y|]; [|discriminate H].
    rewrite (IH y q new x H). reflexivity.
Qed.

Lemma setPath_nowhere : forall p v new,
  encjson.getPath v p = None -> encjson.setPath v p new = v.
Proof.
  induction p as [|i p IH]; intros v new H; [discriminate H|].
  cbn [encjson.getPath encjson.setPath] in *. destruct v; try reflexivity.
  destruct (vals !! i) as [y|] eqn:Hy; [|reflexivity].
  rewrite (IH y new H), list_insert_id by exact Hy. reflexivity.
Qed.

Lemma getPath_setPath : forall p v x new,
  encjson.getPath v p = Some x -> encjson.getPath (encjson.setPath v p new) p = Some new.
Proof.
  induction p as [|i p IH]; intros v x new H; [reflexivity|].
  cbn [encjson.getPath encjson.setPath] in *. destruct v; try discriminate H.
  destruct (vals !! i) as [y|] eqn:Hy; [|discriminate H].
  cbn [encjson.getPath]. rewrite list_lookup_insert_eq by (eapply lookup_lt_Some; exact Hy).
  eapply IH. exact H.
Qed.

Lemma fieldPlace_inj base i j : fieldPlace base i = fieldPlace base j -> i = j.
Proof.
  unfold fieldPlace. intros [= H]. apply app_inv_head in H. congruence.
Qed.

(** Reading the place of field [i] of a struct is reading its [i]-th
    field. *)
Lemma load_fieldPlace h base n fs vals i :
  encjson.load h base = Some (Go.VStruct n fs vals) ->
  encjson.load h (fieldPlace base i) = vals !! i.
Proof.
  unfold encjson.load, fieldPlace. cbn [fst snd].
  destruct (h !! base.1) as [cell|]; [|discriminate].
  intros H. rewrite getPath_app, H. cbn [encjson.getPath].
  destruct (vals !! i); reflexivity.
Qed.

(** Writing at the place of field [i] of a struct replaces its [i]-th
    field. *)
Lemma store_fieldPlace h base n fs vals i w :
  encjson.load h base = Some (Go.VStruct n fs vals) ->
  (i < length vals)%nat ->
  encjson.load (encjson.store h (fieldPlace base i) w) base
  = Some (Go.VStruct n fs (<[i := w]> vals)).
Proof.
  unfold encjson.load, encjson.store, fieldPlace. cbn [fst snd].
  destruct (h !! base.1) as [cell|] eqn:Hc; [|discriminate].
  intros H Hi. rewrite list_lookup_insert_eq by (eapply lookup_lt_Some; exact Hc).
  rewrite (setPath_app _ _ _ _ _ H). cbn [encjson.setPath].
  destruct (lookup_lt_is_Some_2 vals i Hi) as [y Hy]. rewrite Hy.
  eapply getPath_setPath. exact H.
Qed.

(** Writing at the place of one field leaves the places of the other
    fields as they read. *)
Lemma store_fieldPlace_ne h base i j w :
  i <> j ->
  encjson.load (encjson.store h (fieldPlace base i) w) (fieldPlace base j)
  = encjson.load h (fieldPlace base j).
Proof.
  intros Hij. unfold encjson.load, encjson.store, fieldPlace. cbn [fst snd].
  destruct (h !! base.1) as [cell|] eqn:Hc; [|rewrite Hc; reflexivity].
  rewrite list_lookup_insert_eq by (eapply lookup_lt_Some; exact Hc).
  destruct (encjson.getPath cell base.2) as [x|] eqn:Hx.
  - rewrite (setPath_app _ _ _ _ _ Hx), !getPath_app, Hx.
    rewrite (getPath_setPath _ _ _ _ Hx).
    cbn [encjson.setPath encjson.getPath]. destruct x; try reflexivity.
    destruct (vals !! i) as [y|] eqn:Hy; [|reflexivity].
    cbn [encjson.getPath]. rewrite list_lookup_insert_ne by exact Hij. reflexivity.
  - rewrite setPath_nowhere; [reflexivity|]. rewrite getPath_app, Hx. reflexivity.
Qed.

(** ** utils.go: when [structFieldsToFieldsSlice] returns *)

Lemma fieldPointers_returns base : forall fields i v,
  fieldPointers base i fields = Go.Returns v ->
  allExported fields = true /\
  length v = length fields /\
  forall j x, v !! j = Some x ->
    exists name t, fields !! j = Some (name, t) /\
                   x = Go.VPtr t (Some (fieldPlace base (i + j))).
Proof.
  induction fields as [|[name t] rest IH]; intros i v H.
  - injection H as <-. repeat split. intros j x Hj. destruct j; discriminate Hj.
  - cbn [fieldPointers] in H. destruct (Go.IsExported name) eqn:Hn; [|discriminate H].
    destruct (fieldPointers base (S i) rest) as [v'|] eqn:Hr; [|discriminate H].
    injection H as <-. destruct (IH _ _ Hr) as (Hex & Hlen & Hnth).
    split; [|split].
    + unfold allExported in *. cbn [forallb fst]. rewrite Hn. exact Hex.
    + simpl. congruence.
    + intros [|j] x Hj.
      * injection Hj as <-. exists name, t. rewrite Nat.add_0_r. split; reflexivity.
      * destruct (Hnth j x Hj) as (name' & t' & Hf & ->).
        exists name', t'. split; [exact Hf|]. do 3 f_equal. lia.
Qed.

Lemma fieldPointers_unexported base : forall fields i,
  allExported fields = false -> exists msg, fieldPointers base i fields = Go.Panics msg.
Proof.
  induction fields as [|[name t] rest IH]; intros i H; [discriminate H|].
  unfold allExported in H. cbn [forallb fst] in H. cbn [fieldPointers].
  destruct (Go.IsExported name); [|eexists; reflexivity].
  destruct (IH (S i) H) as [msg ->]. eexists; reflexivity.
Qed.

(** X1: on the values whose struct, if they point to one, has field
    names that begin with an ASCII character, [structFieldsToFieldsSlice]
    returns exactly for the values that are not pointers, with a nil
    slice and an error, and for the non-nil pointers to a struct whose
    fields are all exported, with a slice and no error; for every other
    pointer (a nil pointer, a pointer to something that is not a struct, a
    struct with an unexported field) the call panics. *)
Theorem structFieldsToFieldsSlice_returns_iff (u : Go.value) :
  (forall n fs base, u = Go.VPtr (Go.TStruct n fs) (Some base) -> asciiNames fs = true) ->
  ((exists r, structFieldsToFieldsSlice u = Go.Returns r) <->
   (Go.Kind_of_value u <> Go.Pointer \/
    exists n fs base, u = Go.VPtr (Go.TStruct n fs) (Some base) /\ allExported fs = true)) /\
  (forall v e, structFieldsToFieldsSlice u = Go.Returns (v, e) ->
     (v = None /\ e <> None /\ Go.Kind_of_value u <> Go.Pointer) \/
     (v <> None /\ e = None /\ Go.Kind_of_value u = Go.Pointer)).
Proof.
  intros _. split; [split|].
  - intros [r H]. destruct u; try (left; discriminate).
    right. cbn [structFieldsToFieldsSlice] in H.
    destruct p as [base|]; [|discriminate H].
    destruct elem; try discriminate H.
    destruct (fieldPointers base 0 fields) as [v|] eqn:Hv; [|discriminate H].
    apply fieldPointers_returns in Hv as [Hex _]. eauto.
  - intros [Hk|(n & fs & base & -> & Hex)].
    + destruct u; try (eexists; reflexivity). exfalso. apply Hk. reflexivity.
    + destruct (fieldPointers_exported base fs 0 Hex) as (v & Hv & _).
      cbn [structFieldsToFieldsSlice]. rewrite Hv. eexists; reflexivity.
  - intros v e H. destruct u;
      try (injection H as <- <-; left; repeat split; discriminate).
    right. cbn [structFieldsToFieldsSlice] in H.
    destruct p as [base|]; [|discriminate H].
    destruct elem; try discriminate H.
    destruct (fieldPointers base 0 fields); [|discriminate H].
    injection H as <- <-. repeat split. discriminate.
Qed.

Lemma structFieldsToFieldsSlice_returns_iff_witness :
  exists r, structFieldsToFieldsSlice (Go.VPtr Service1Request_type (Some (0%nat, [])))
            = Go.Returns r.
Proof.
  destruct (structFieldsToFieldsSlice_returns_iff
              (Go.VPtr Service1Request_type (Some (0%nat, [])))) as [[_ H] _].
  { intros n fs base E. injection E as _ <- _. reflexivity. }
  apply H. right.
  exists "json2.Service1Request", [("A", Go.TInt); ("B", Go.TInt)], (0%nat, []).
  split; reflexivity.
Defined.


(** X2: the slice aliases the struct: what the [i]-th pointer reads is the
    [i]-th field of the struct the argument points to, and writing through
    it replaces that field of the struct and no other. *)
Theorem structFieldsToFieldsSlice_aliases (h : list Go.value) (u : Go.value)
    (n : string) (fs : list (string * Go.type)) (base : Go.place)
    (vals v : list Go.value) (i : nat) (x w : Go.value) :
  u = Go.VPtr (Go.TStruct n fs) (Some base) ->
  encjson.load h base = Some (Go.VStruct n fs vals) ->
  structFieldsToFieldsSlice u = Go.Returns (Some v, None) ->
  v !! i = Some x ->
  (i < length vals)%nat ->
  exists t p,
    x = Go.VPtr t (Some p) /\
    encjson.load h p = vals !! i /\
    encjson.load (encjson.store h p w) base = Some (Go.VStruct n fs (<[i := w]> vals)).
Proof.
  intros -> Hload H Hx Hi. cbn [structFieldsToFieldsSlice] in H.
  destruct (fieldPointers base 0 fs) as [v'|] eqn:Hv; [|discriminate H].
  injection H as ->. apply fieldPointers_returns in Hv as (_ & _ & Hnth).
  destruct (Hnth i x Hx) as (name & t & _ & ->). cbn [Nat.add].
  exists t, (fieldPlace base i). split; [reflexivity|]. split.
  - eapply load_fieldPlace. exact Hload.
  - apply store_fieldPlace; assumption.
Qed.

Lemma structFieldsToFieldsSlice_aliases_witness :
  exists t p,
    Go.VPtr Go.TInt (Some (0%nat, [1%nat])) = Go.VPtr t (Some p) /\
    encjson.load [encjson.zero Service1Request_type] p = Some (Go.VInt 0) /\
    encjson.load (encjson.store [encjson.zero Service1Request_type] p (Go.VInt 9)) (0%nat, [])
    = Some (Go.VStruct "json2.Service1Request" [("A", Go.TInt); ("B", Go.TInt)]
              [Go.VInt 0; Go.VInt 9]).
Proof.
  exact (structFieldsToFieldsSlice_aliases [encjson.zero Service1Request_type]
           (Go.VPtr Service1Request_type (Some (0%nat, [])))
           "json2.Service1Request" [("A", Go.TInt); ("B", Go.TInt)] (0%nat, [])
           [Go.VInt 0; Go.VInt 0]
           [Go.VPtr Go.TInt (Some (0%nat, [0%nat])); Go.VPtr Go.TInt (Some (0%nat, [1%nat]))]
           1%nat (Go.VPtr Go.TInt (Some (0%nat, [1%nat]))) (Go.VInt 9)
           eq_refl eq_refl eq_refl eq_refl ltac:(simpl; lia)).
Defined.


(** X3: writing through one element of the slice leaves what every other
    element reads as it was. *)
Theorem structFieldsToFieldsSlice_separate (u : Go.value) (v : list Go.value)
    (i j : nat) (ti tj : Go.type) (pi pj : Go.place) (h : list Go.value) (w : Go.value) :
  structFieldsToFieldsSlice u = Go.Returns (Some v, None) ->
  v !! i = Some (Go.VPtr ti (Some pi)) ->
  v !! j = Some (Go.VPtr tj (Some pj)) ->
  i <> j ->
  encjson.load (encjson.store h pi w) pj = encjson.load h pj.
Proof.
  intros H Hi Hj Hij. destruct u; try discriminate H.
  cbn [structFieldsToFieldsSlice] in H.
  destruct p as [base|]; [|discriminate H].
  destruct elem; try discriminate H.
  destruct (fieldPointers base 0 fields) as [v'|] eqn:Hv; [|discriminate H].
  injection H as ->. apply fieldPointers_returns in Hv as (_ & _ & Hnth).
  destruct (Hnth i _ Hi) as (ni & ti' & _ & Ei).
  destruct (Hnth j _ Hj) as (nj & tj' & _ & Ej).
  injection Ei as -> ->. injection Ej as -> ->. cbn [Nat.add].
  apply store_fieldPlace_ne. exact Hij.
Qed.

Lemma structFieldsToFieldsSlice_separate_witness :
  encjson.load
    (encjson.store
       [Go.VStruct "json2.Service1Request" [("A", Go.TInt); ("B", Go.TInt)]
          [Go.VInt 4; Go.VInt 2]]
       (0%nat, [0%nat]) (Go.VInt 9))
    (0%nat, [1%nat])
  = Some (Go.VInt 2).
Proof.
  rewrite (structFieldsToFieldsSlice_separate
             (Go.VPtr Service1Request_type (Some (0%nat, [])))
             [Go.VPtr Go.TInt (Some (0%nat, [0%nat])); Go.VPtr Go.TInt (Some (0%nat, [1%nat]))]
             0%nat 1%nat Go.TInt Go.TInt (0%nat, [0%nat]) (0%nat, [1%nat])
             [Go.VStruct "json2.Service1Request" [("A", Go.TInt); ("B", Go.TInt)]
                [Go.VInt 4; Go.VInt 2]]
             (Go.VInt 9) eq_refl eq_refl eq_refl ltac:(discriminate)).
  reflexivity.
Defined.

(** ** utils.go: when [StructFields.UnmarshalJSON] panics *)

(** X4: with library calls that return and leave the slice [*f] as it is,
    [UnmarshalJSON] panics in one case only: on a nil receiver when
    [gjson] sees an array, at [len( *f)].  On a receiver that is not nil
    it returns, whatever the libraries answer: the length check guards
    the loop, so that the indexing [( *f)[i]] is never out of range; and
    it returns no error only on an array that has as many elements as
    there are slots. *)
Theorem StructFields_UnmarshalJSON_panics_iff (L : Libs) (f : option (list Go.value))
    (data : string) (h : list Go.value) :
  ((exists msg, StructFields_UnmarshalJSON L f data h = Go.Panics msg) <->
   (f = None /\ IsArray L (ParseBytes L data) = true)) /\
  (forall slots, f = Some slots ->
     exists h' e,
       StructFields_UnmarshalJSON L f data h = Go.Returns (h', e) /\
       (e = None ->
        IsArray L (ParseBytes L data) = true /\
        length (Array L (ParseBytes L data)) = length slots)).
Proof.
  assert (Hret : forall slots, exists h' e,
            UnmarshalJSON L slots data h = Go.Returns (h', e) /\
            (e = None ->
             IsArray L (ParseBytes L data) = true /\
             length (Array L (ParseBytes L data)) = length slots)).
  { intros slots. unfold UnmarshalJSON.
    destruct (IsArray L (ParseBytes L data)) eqn:Harr; cbn [negb].
    - destruct (Nat.eqb_spec (length (Array L (ParseBytes L data))) (length slots))
        as [Hlen|Hlen]; cbn [negb].
      + destruct (unmarshalElements_binds L slots (Array L (ParseBytes L data)) [] h Hlen)
          as ([h' e] & Hres & _).
        cbn [length] in Hres. exists h', e. split; [exact Hres|].
        intros _. split; [reflexivity|exact Hlen].
      + eexists _, _. split; [reflexivity|]. discriminate.
    - eexists _, _. split; [reflexivity|]. discriminate. }
  split; [split|].
  - intros [msg H]. destruct f as [slots|].
    + cbn [StructFields_UnmarshalJSON] in H.
      destruct (Hret slots) as (h' & e & Hr & _). rewrite Hr in H. discriminate H.
    + split; [reflexivity|]. cbn [StructFields_UnmarshalJSON] in H.
      destruct (IsArray L (ParseBytes L data)); [reflexivity|discriminate H].
  - intros [-> Harr]. cbn [StructFields_UnmarshalJSON]. rewrite Harr. eexists. reflexivity.
  - intros slots ->. cbn [StructFields_UnmarshalJSON]. apply Hret.
Qed.

Lemma StructFields_UnmarshalJSON_panics_iff_witness :
  (exists msg,
     StructFields_UnmarshalJSON refLibs None "[1,2]" [encjson.zero Service1Request_type]
     = Go.Panics msg) /\
  exists h' e,
    StructFields_UnmarshalJSON refLibs
      (Some [Go.VPtr Go.TInt (Some (0%nat, [0%nat])); Go.VPtr Go.TInt (Some (0%nat, [1%nat]))])
      "[1,2]" [encjson.zero Service1Request_type]
    = Go.Returns (h', e).
Proof.
  split.
  - destruct (StructFields_UnmarshalJSON_panics_iff refLibs None "[1,2]"
                [encjson.zero Service1Request_type]) as [[_ H] _].
    apply H. split; reflexivity.
  - destruct (StructFields_UnmarshalJSON_panics_iff refLibs
                (Some [Go.VPtr Go.TInt (Some (0%nat, [0%nat]));
                       Go.VPtr Go.TInt (Some (0%nat, [1%nat]))])
                "[1,2]" [encjson.zero Service1Request_type]) as [_ H].
    destruct (H _ eq_refl) as (h' & e & Hr & _). exists h', e. exact Hr.
Defined.

(** ** utils.go: what [UnmarshalJSON] writes *)






(** ** utils.go: binding by position what [json.Marshal] wrote *)

(** On the text of an array of well-formed documents, the reference
    [gjson] sees an array and gives its elements in order. *)
Lemma gjsonRef_array xs :
  forallb JSON.wf xs = true ->
  gjsonRef.IsArray (gjsonRef.ParseBytes (JSON.print (JSON.JArr xs))) = true /\
  gjsonRef.Array (gjsonRef.ParseBytes (JSON.print (JSON.JArr xs))) = map gjsonRef.resultOf xs.
Proof.
  intros Hwf.
  assert (Hp : gjsonRef.ParseBytes (JSON.print (JSON.JArr xs))
               = gjson.mkResult gjson.JSON (JSON.print (JSON.JArr xs))) by reflexivity.
  rewrite Hp. split; [reflexivity|].
  unfold gjsonRef.Array. cbn [gjson.Typ gjson.Raw].
  assert (Hi : gjsonRef.IsArray (gjson.mkResult gjson.JSON (JSON.print (JSON.JArr xs))) = true)
    by reflexivity.
  rewrite Hi. unfold JSON.print.
  rewrite (TextFacts.parseValue_printTo (JSON.JArr xs)); try reflexivity.
  - pose proof (TextFacts.length_printTo (JSON.JArr xs) Hwf EmptyString). lia.
  - exact Hwf.
Qed.

Lemma fieldsRepresentable_allExported : forall fs vals,
  fieldsRepresentable fs vals = true -> allExported fs = true /\ length vals = length fs.
Proof.
  induction fs as [|[m mt] fs IH]; intros [|x vals] H; try discriminate H; [split; reflexivity|].
  cbn [fieldsRepresentable] in H.
  apply andb_prop in H as [H Hrest]. apply andb_prop in H as [H _].
  apply andb_prop in H as [Hex _]. destruct (IH _ Hrest) as [Hall Hlen].
  unfold allExported in *. cbn [forallb fst length]. rewrite Hex, Hall, Hlen. split; reflexivity.
Qed.

Lemma wf_marshal_fields : forall fs vals,
  fieldsRepresentable fs vals = true -> forallb JSON.wf (map encjson.marshalValue vals) = true.
Proof.
  induction fs as [|[m mt] fs IH]; intros [|x vals] H; try discriminate H; [reflexivity|].
  cbn [fieldsRepresentable] in H.
  apply andb_prop in H as [H Hrest]. apply andb_prop in H as [_ Hx].
  cbn [map forallb]. rewrite (wf_marshal _ _ Hx), (IH _ Hrest). reflexivity.
Qed.

(** The loop on the texts of field values followed by other elements:
    every text is decoded into its field, the fields before it keeping
    what they were given and the fields after it what they held; the loop
    goes on with the other elements. *)
Lemma unmarshalElements_marshal n fs base slots ftail rest :
  (forall j name t, fs !! j = Some (name, t) ->
     slots !! j = Some (Go.VPtr t (Some (fieldPlace base j)))) ->
  forall fmid vmid fpre vpre h,
    fs = (fpre ++ fmid ++ ftail)%list -> length fpre = length vpre ->
    fieldsRepresentable fmid vmid = true ->
    encjson.load h base
    = Some (Go.VStruct n fs
              (vpre ++ map (fun f => encjson.zero (snd f)) fmid
                    ++ map (fun f => encjson.zero (snd f)) ftail)%list) ->
    exists h',
      unmarshalElements refLibs slots (length fpre)
        (map gjsonRef.resultOf (map encjson.marshalValue vmid) ++ rest)%list h
      = unmarshalElements refLibs slots (length fpre + length fmid) rest h' /\
      encjson.load h' base
      = Some (Go.VStruct n fs
                (vpre ++ vmid ++ map (fun f => encjson.zero (snd f)) ftail)%list).
Proof.
  intros Hslots.
  induction fmid as [|[m mt] fmid IH]; intros [|x vmid] fpre vpre h Hfs Hlen Hrep Hload;
    try discriminate Hrep.
  - exists h. cbn [map app length]. rewrite Nat.add_0_r. split; [reflexivity|exact Hload].
  - cbn [fieldsRepresentable] in Hrep.
    apply andb_prop in Hrep as [Hrep Hrest]. apply andb_prop in Hrep as [_ Hx].
    cbn [map app unmarshalElements].
    assert (Hf : fs !! length fpre = Some (m, mt)).
    { rewrite Hfs. apply list_lookup_middle. reflexivity. }
    rewrite (Hslots _ _ _ Hf).
    change (json_Unmarshal refLibs) with encjson.Unmarshal.
    unfold encjson.Unmarshal. cbn [gjson.Raw gjsonRef.resultOf].
    rewrite (TextFacts.parse_print _ (wf_marshal _ _ Hx)).
    unfold encjson.UnmarshalDoc.
    rewrite (load_fieldPlace _ _ _ _ _ _ Hload).
    cbn [map app]. rewrite list_lookup_middle by exact Hlen. cbn [snd].
    rewrite (decode_marshal mt x Hx).
    destruct (IH vmid (fpre ++ [(m, mt)])%list (vpre ++ [x])%list
                (encjson.store h (fieldPlace base (length fpre)) x)) as (h' & Hrun & Hback).
    + rewrite <- app_assoc. exact Hfs.
    + rewrite !length_app. simpl. lia.
    + exact Hrest.
    + rewrite (store_fieldPlace _ _ _ _ _ _ _ Hload).
      * rewrite Hlen. replace (length vpre) with (length vpre + 0)%nat at 1 by lia.
        rewrite insert_app_r. cbn [insert list_insert]. rewrite <- app_assoc. reflexivity.
      * rewrite length_app. simpl. lia.
    + rewrite length_app in Hrun. cbn [length] in Hrun.
      replace (length fpre + 1)%nat with (S (length fpre)) in Hrun by lia.
      cbn [length]. replace (length fpre + S (length fmid))%nat
        with (S (length fpre) + length fmid)%nat by lia.
      rewrite <- app_assoc in Hback. exists h'. split; [exact Hrun|exact Hback].
Qed.

(** X6: the binder of [utils.go] on a fresh argument, for field values
    that [fieldsRepresentable] holds of (the fields are exported under
    names that begin with an ASCII upper-case letter and are valid UTF-8,
    their types are [bool], [int], [uint64], [string] and structs that
    [representable] holds of, and every string is valid UTF-8): the slice
    of [structFieldsToFieldsSlice] for a pointer to a zero struct, given
    to [UnmarshalJSON] with the text [json.Marshal] writes for the array
    of the field values, binds without error, and the struct then holds
    exactly those values, field by field in declaration order. *)
Theorem UnmarshalJSON_marshal_roundtrip (h : list Go.value) (base : Go.place)
    (n : string) (fs : list (string * Go.type)) (vals : list Go.value) :
  fieldsRepresentable fs vals = true ->
  encjson.load h base = Some (encjson.zero (Go.TStruct n fs)) ->
  exists slots h',
    structFieldsToFieldsSlice (Go.VPtr (Go.TStruct n fs) (Some base))
    = Go.Returns (Some slots, None) /\
    UnmarshalJSON refLibs slots
      (JSON.print (JSON.JArr (map encjson.marshalValue vals))) h
    = Go.Returns (h', None) /\
    encjson.load h' base = Some (Go.VStruct n fs vals).
Proof.
  intros Hrep Hload.
  destruct (fieldsRepresentable_allExported _ _ Hrep) as [Hex Hlen].
  destruct (fieldPointers_exported base fs 0 Hex) as (slots & Hslots & Hslen & Hnth).
  destruct (gjsonRef_array _ (wf_marshal_fields _ _ Hrep)) as [Harr Helems].
  destruct (unmarshalElements_marshal n fs base slots [] [] Hnth fs vals [] [] h)
    as (h' & Hrun & Hback).
  { rewrite app_nil_r. reflexivity. }
  { reflexivity. }
  { exact Hrep. }
  { cbn [map app]. rewrite app_nil_r. exact Hload. }
  rewrite !app_nil_r in Hrun, Hback. cbn [app unmarshalElements] in Hrun, Hback.
  exists slots, h'. split; [|split].
  - cbn [structFieldsToFieldsSlice]. rewrite Hslots. reflexivity.
  - unfold UnmarshalJSON.
    change (ParseBytes refLibs) with gjsonRef.ParseBytes.
    change (IsArray refLibs) with gjsonRef.IsArray.
    change (Array refLibs) with gjsonRef.Array.
    rewrite Harr, Helems. cbn [negb].
    rewrite !length_map, Hlen, Hslen, Nat.eqb_refl. cbn [negb]. exact Hrun.
  - exact Hback.
Qed.

Lemma UnmarshalJSON_marshal_roundtrip_witness :
  exists slots h',
    structFieldsToFieldsSlice (Go.VPtr Service1Request_type (Some (0%nat, [])))
    = Go.Returns (Some slots, None) /\
    UnmarshalJSON refLibs slots "[4,2]" [encjson.zero Service1Request_type]
    = Go.Returns (h', None) /\
    encjson.load h' (0%nat, [])
    = Some (Go.VStruct "json2.Service1Request" [("A", Go.TInt); ("B", Go.TInt)]
              [Go.VInt 4; Go.VInt 2]).
Proof.
  exact (UnmarshalJSON_marshal_roundtrip [encjson.zero Service1Request_type] (0%nat, [])
           "json2.Service1Request" [("A", Go.TInt); ("B", Go.TInt)] [Go.VInt 4; Go.VInt 2]
           eq_refl eq_refl).
Defined.

(** X7: the binding is not undone when an element fails: with field values
    written by [json.Marshal] in front of a document that the decoder
    refuses for its field, [UnmarshalJSON] returns the error for the index
    of that field, wrapping the decoder's; the fields before it hold the
    values bound, the field itself what the decoder left there, and the
    fields after it are as they were: their elements are not decoded. *)
Theorem UnmarshalJSON_partial (h : list Go.value) (base : Go.place) (n : string)
    (fpre fpost : list (string * Go.type)) (name : string) (t : Go.type)
    (vpre : list Go.value) (bad : JSON.json) (others : list JSON.json)
    (left_ : Go.value) (cause : error) :
  fieldsRepresentable fpre vpre = true ->
  Go.IsExported name = true ->
  allExported fpost = true ->
  JSON.wf bad = true ->
  forallb JSON.wf others = true ->
  length others = length fpost ->
  encjson.decodeValue t bad (encjson.zero t) = (left_, Some cause) ->
  encjson.load h base = Some (encjson.zero (Go.TStruct n (fpre ++ (name, t) :: fpost))) ->
  exists slots h',
    structFieldsToFieldsSlice
      (Go.VPtr (Go.TStruct n (fpre ++ (name, t) :: fpost)) (Some base))
    = Go.Returns (Some slots, None) /\
    UnmarshalJSON refLibs slots
      (JSON.print (JSON.JArr (map encjson.marshalValue vpre ++ bad :: others))) h
    = Go.Returns
        (h', Some (errField (length fpre)
                     (Go.VPtr t (Some (fieldPlace base (length fpre)))) cause)) /\
    encjson.load h' base
    = Some (Go.VStruct n (fpre ++ (name, t) :: fpost)
              (vpre ++ left_ :: map (fun f => encjson.zero (snd f)) fpost)).
Proof.
  intros Hrep Hname Hpost Hbad Hothers Hlen Hdec Hload.
  set (fs := (fpre ++ (name, t) :: fpost)%list) in *.
  destruct (fieldsRepresentable_allExported _ _ Hrep) as [Hexpre Hlenpre].
  assert (Hex : allExported fs = true).
  { unfold fs, allExported in *. rewrite forallb_app. cbn [forallb fst].
    rewrite Hexpre, Hname, Hpost. reflexivity. }
  destruct (fieldPointers_exported base fs 0 Hex) as (slots & Hslots & Hslen & Hnth).
  assert (Hwf : forallb JSON.wf (map encjson.marshalValue vpre ++ bad :: others) = true).
  { rewrite forallb_app. cbn [forallb].
    rewrite (wf_marshal_fields _ _ Hrep), Hbad, Hothers. reflexivity. }
  destruct (gjsonRef_array _ Hwf) as [Harr Helems].
  destruct (unmarshalElements_marshal n fs base slots ((name, t) :: fpost)
              (map gjsonRef.resultOf (bad :: others)) Hnth fpre vpre [] [] h)
    as (h1 & Hrun & Hback).
  { reflexivity. }
  { reflexivity. }
  { exact Hrep. }
  { cbn [app]. unfold fs in Hload. cbn [encjson.zero] in Hload. rewrite map_app in Hload.
    exact Hload. }
  cbn [app length Nat.add] in Hrun, Hback.
  assert (Hf : fs !! length fpre = Some (name, t)).
  { unfold fs. apply list_lookup_middle. reflexivity. }
  cbn [map unmarshalElements] in Hrun. rewrite (Hnth _ _ _ Hf) in Hrun.
  change (json_Unmarshal refLibs) with encjson.Unmarshal in Hrun.
  unfold encjson.Unmarshal in Hrun. cbn [gjson.Raw gjsonRef.resultOf] in Hrun.
  rewrite (TextFacts.parse_print _ Hbad) in Hrun. unfold encjson.UnmarshalDoc in Hrun.
  rewrite (load_fieldPlace _ _ _ _ _ _ Hback) in Hrun.
  cbn [map] in Hrun. rewrite list_lookup_middle in Hrun by (symmetry; exact Hlenpre).
  cbn [snd] in Hrun. rewrite Hdec in Hrun.
  exists slots, (encjson.store h1 (fieldPlace base (length fpre)) left_). split; [|split].
  - cbn [structFieldsToFieldsSlice]. rewrite Hslots. reflexivity.
  - unfold UnmarshalJSON.
    change (ParseBytes refLibs) with gjsonRef.ParseBytes.
    change (IsArray refLibs) with gjsonRef.IsArray.
    change (Array refLibs) with gjsonRef.Array.
    rewrite Harr, Helems. cbn [negb].
    assert (Hl : length (map gjsonRef.resultOf (map encjson.marshalValue vpre ++ bad :: others))
                 = length slots).
    { rewrite Hslen. unfold fs. rewrite length_map, !length_app. cbn [length].
      rewrite length_map, Hlenpre, Hlen. reflexivity. }
    rewrite Hl, Nat.eqb_refl. cbn [negb].
    rewrite map_app. exact Hrun.
  - rewrite (store_fieldPlace _ _ _ _ _ _ _ Hback).
    + rewrite <- Hlenpre. replace (length vpre) with (length vpre + 0)%nat at 1 by lia.
      rewrite insert_app_r. reflexivity.
    + rewrite length_app. simpl. lia.
Qed.

Lemma UnmarshalJSON_partial_witness :
  exists slots h',
    structFieldsToFieldsSlice (Go.VPtr Service1Request_type (Some (0%nat, [])))
    = Go.Returns (Some slots, None) /\
    UnmarshalJSON refLibs slots "[4,true]" [encjson.zero Service1Request_type]
    = Go.Returns
        (h', Some (errField 1 (Go.VPtr Go.TInt (Some (0%nat, [1%nat])))
                     (encjson.typeError "bool" Go.TInt))) /\
    encjson.load h' (0%nat, [])
    = Some (Go.VStruct "json2.Service1Request" [("A", Go.TInt); ("B", Go.TInt)]
              [Go.VInt 4; Go.VInt 0]).
Proof.
  exact (UnmarshalJSON_partial [encjson.zero Service1Request_type] (0%nat, [])
           "json2.Service1Request" [("A", Go.TInt)] [] "B" Go.TInt [Go.VInt 4]
           (JSON.JBool true) [] (Go.VInt 0) (encjson.typeError "bool" Go.TInt)
           eq_refl eq_refl eq_refl eq_refl eq_refl eq_refl eq_refl eq_refl).
Defined.

(** ** client.go: the text of [EncodeClientRequest] *)

Lemma wf_envelope rnd method params :
  0 <= rnd -> utf8.ValidString method = true -> JSON.wf params = true ->
  JSON.wf (JSON.JObj [("jsonrpc", JSON.JStr "2.0"); ("method", JSON.JStr method);
                      ("params", params); ("id", JSON.JNum (strconv.utoa rnd))]) = true.
Proof.
  intros Hrnd Hm Hp. cbn [JSON.wf forallb fst snd]. rewrite Hm, Hp.
  destruct (TextFacts.utoa_number rnd Hrnd) as [-> ->]. reflexivity.
Qed.

(** X8: [EncodeClientRequest] returns, without error, a valid JSON text: the
    object of the four members [jsonrpc], [method], [params] and [id] in
    that order, with the version 2.0, the method name, the document of the
    arguments and the number drawn; nil arguments are written as [null]. *)
Theorem EncodeClientRequest_envelope (h : list Go.value) (rnd : Z) (method : string)
    (args : Go.value) (params : JSON.json) :
  0 <= rnd < 2 ^ 63 ->
  utf8.ValidString method = true ->
  encjson.toJSON h args = Some params ->
  JSON.wf params = true ->
  exists text,
    EncodeClientRequest h rnd method args = Go.Returns (text, None) /\
    JSON.Valid text = true /\
    JSON.parse text
    = Some (JSON.JObj [("jsonrpc", JSON.JStr "2.0"); ("method", JSON.JStr method);
                       ("params", params); ("id", JSON.JNum (strconv.utoa rnd))]) /\
    ((args = Go.VNil \/ exists t, args = Go.VPtr t None) -> params = JSON.JNull).
Proof.
  intros Hrnd Hm Hargs Hp.
  unfold EncodeClientRequest, Marshal_clientRequest, clientRequest_JSON.
  cbn [Params Version Method Id]. rewrite Hargs, Z.mod_small by lia.
  pose proof (TextFacts.parse_print _ (wf_envelope rnd method params ltac:(lia) Hm Hp)) as Hparse.
  eexists. split; [reflexivity|]. split; [|split].
  - unfold JSON.Valid. rewrite Hparse. reflexivity.
  - exact Hparse.
  - intros [->|[t ->]]; cbn [encjson.toJSON encjson.marshalValue] in Hargs; congruence.
Qed.

Lemma EncodeClientRequest_envelope_witness :
  exists text,
    EncodeClientRequest [] 77 "Service1.Multiply" Go.VNil = Go.Returns (text, None) /\
    JSON.parse text
    = Some (JSON.JObj [("jsonrpc", JSON.JStr "2.0"); ("method", JSON.JStr "Service1.Multiply");
                       ("params", JSON.JNull); ("id", JSON.JNum "77")]).
Proof.
  destruct (EncodeClientRequest_envelope [] 77 "Service1.Multiply" Go.VNil JSON.JNull)
    as (text & Henc & _ & Hparse & _).
  - lia.
  - reflexivity.
  - reflexivity.
  - reflexivity.
  - exists text. split; [exact Henc|exact Hparse].
Defined.

(** X9: the text determines the request: for method names that are
    valid UTF-8 and arguments whose documents are well formed, two calls
    that differ in the method name, in the id drawn or in the document of
    the arguments do not return the same thing: their texts differ. *)
Theorem EncodeClientRequest_injective (h1 h2 : list Go.value) (r1 r2 : Z)
    (m1 m2 : string) (a1 a2 : Go.value) (p1 p2 : JSON.json) :
  0 <= r1 < 2 ^ 63 -> 0 <= r2 < 2 ^ 63 ->
  utf8.ValidString m1 = true -> utf8.ValidString m2 = true ->
  encjson.toJSON h1 a1 = Some p1 -> JSON.wf p1 = true ->
  encjson.toJSON h2 a2 = Some p2 -> JSON.wf p2 = true ->
  m1 <> m2 \/ r1 <> r2 \/ p1 <> p2 ->
  exists t1 t2,
    EncodeClientRequest h1 r1 m1 a1 = Go.Returns (t1, None) /\
    EncodeClientRequest h2 r2 m2 a2 = Go.Returns (t2, None) /\
    t1 <> t2.
Proof.
  intros Hr1 Hr2 Hm1 Hm2 Ha1 Hp1 Ha2 Hp2 Hdiff.
  unfold EncodeClientRequest, Marshal_clientRequest, clientRequest_JSON.
  cbn [Params Version Method Id]. rewrite Ha1, Ha2, !Z.mod_small by lia.
  eexists _, _. split; [reflexivity|]. split; [reflexivity|]. intros E.
  pose proof (TextFacts.parse_print _ (wf_envelope r1 m1 p1 ltac:(lia) Hm1 Hp1)) as P1.
  pose proof (TextFacts.parse_print _ (wf_envelope r2 m2 p2 ltac:(lia) Hm2 Hp2)) as P2.
  rewrite E in P1. rewrite P1 in P2. injection P2 as Em Ep Hid.
  pose proof (TextFacts.utoa_ParseUint r1 ltac:(lia)) as U1.
  pose proof (TextFacts.utoa_ParseUint r2 ltac:(lia)) as U2.
  rewrite Hid in U1. rewrite U1 in U2. injection U2 as Er.
  destruct Hdiff as [H|[H|H]]; apply H; congruence.
Qed.

Lemma EncodeClientRequest_injective_witness :
  exists t1 t2,
    EncodeClientRequest [] 77 "Service1.Multiply" Go.VNil = Go.Returns (t1, None) /\
    EncodeClientRequest [] 78 "Service1.Multiply" Go.VNil = Go.Returns (t2, None) /\
    t1 <> t2.
Proof.
  apply (EncodeClientRequest_injective [] [] 77 78 "Service1.Multiply" "Service1.Multiply"
           Go.VNil Go.VNil JSON.JNull JSON.JNull).
  - lia.
  - lia.
  - reflexivity.
  - reflexivity.
  - reflexivity.
  - reflexivity.
  - reflexivity.
  - reflexivity.
  - right. left. lia.
Defined.

(** ** json_test.go: [Service1.Multiply], further *)

Lemma wrap64_range z : Go.in_int (Go.wrap64 z).
Proof.
  unfold Go.in_int, Go.wrap64.
  pose proof (Z.mod_pos_bound (z + 2 ^ 63) (2 ^ 64) ltac:(lia)). lia.
Qed.

(** X10: [Multiply] does not read the reply it is given and is symmetric in
    [A] and [B]; its result is always an [int]; and a zero factor gives 0
    unless both are zero, where the sentinel 9999 is given. *)
Theorem Multiply_symmetric :
  (forall a b res res',
     Multiply (mkService1Request a b) res = Multiply (mkService1Request b a) res') /\
  (forall req res, Go.in_int (Result (fst (Multiply req res)))) /\
  (forall a res,
     Result (fst (Multiply (mkService1Request a 0) res))
     = if a =? 0 then Service1DefaultResponse else 0).
Proof.
  split; [|split].
  - intros a b res res'. unfold Multiply. cbn [A B].
    rewrite andb_comm. unfold Go.int_mul. rewrite Z.mul_comm. reflexivity.
  - intros req res. unfold Multiply.
    destruct ((A req =? 0) && (B req =? 0)); cbn [fst Result].
    + unfold Go.in_int, Service1DefaultResponse. lia.
    + apply wrap64_range.
  - intros a res. unfold Multiply. cbn [A B].
    destruct (a =? 0); cbn [andb fst Result]; [reflexivity|].
    unfold Go.int_mul. rewrite Z.mul_0_r. reflexivity.
Qed.

Lemma representable_Service1Response z :
  Go.in_int z ->
  representable Service1Response_type
    (Go.VStruct "json2.Service1Response" [("Result", Go.TInt)] [Go.VInt z]) = true.
Proof.
  intros [Hlo Hhi]. unfold Service1Response_type. rewrite representable_struct.
  cbn [fieldsRepresentable representable].
  replace (- 2 ^ 63 <=? z) with true by (symmetry; apply Z.leb_le; exact Hlo).
  replace (z <? 2 ^ 63) with true by (symmetry; apply Z.ltb_lt; exact Hhi).
  reflexivity.
Qed.

(** X11: the reply of [Multiply] survives the JSON round trip of [TestService]
    for every request: what [json.Marshal] writes for it, [json.Unmarshal]
    reads into a zero [Service1Response] as the same reply, without
    error. *)
Theorem Multiply_reply_roundtrip (req : Service1Request) (res : Service1Response) :
  exists text,
    encjson.Marshal [Service1Response_value (fst (Multiply req res))]
      (Go.VPtr Service1Response_type (Some (0%nat, [])))
    = Go.Returns (text, None) /\
    encjson.Unmarshal text (Go.VPtr Service1Response_type (Some (0%nat, [])))
      [encjson.zero Service1Response_type]
    = ([Service1Response_value (fst (Multiply req res))], None).
Proof.
  assert (Hin : Go.in_int (Result (fst (Multiply req res)))).
  { unfold Multiply. destruct ((A req =? 0) && (B req =? 0)); cbn [fst Result].
    - unfold Go.in_int, Service1DefaultResponse. lia.
    - apply wrap64_range. }
  pose proof (representable_Service1Response _ Hin) as Hrep.
  eexists. split; [reflexivity|].
  unfold encjson.Unmarshal.
  change (encjson.load [Service1Response_value (fst (Multiply req res))] (0%nat, []))
    with (Some (Service1Response_value (fst (Multiply req res)))).
  cbn [option_map].
  unfold Service1Response_value at 1.
  rewrite (TextFacts.parse_print _ (wf_marshal _ _ Hrep)).
  unfold encjson.UnmarshalDoc.
  change (encjson.load [encjson.zero Service1Response_type] (0%nat, []))
    with (Some (encjson.zero Service1Response_type)).
  cbv iota. rewrite (decode_marshal Service1Response_type _ Hrep). reflexivity.
Qed.

(** ** json_test.go: the response recorder *)

Lemma Recorder_run_app rw xs ys :
  Recorder.run rw (xs ++ ys) = Recorder.run (Recorder.run rw xs) ys.
Proof. unfold Recorder.run. apply fold_left_app. Qed.

(** X13: the recorder after any sequence of calls: the body is what it was
    followed by the bytes of the writes, in order, and stays nil when it
    was nil; the header map is the same; the recorder is flushed when it
    was or when [Flush] was called; without a [WriteHeader] the status is
    200 when it was 0 and something was written, and otherwise what it
    was.  [Write] reports every byte as written, also when the body is
    nil. *)
Theorem Recorder_run_spec :
  (forall calls rw,
     Recorder.Body (Recorder.run rw calls)
     = option_map (fun b => b ++ Recorder.written calls) (Recorder.Body rw) /\
     Recorder.HeaderMap (Recorder.run rw calls) = Recorder.HeaderMap rw /\
     Recorder.Flushed (Recorder.run rw calls)
     = Recorder.Flushed rw || existsb Recorder.isFlush calls) /\
  (forall calls rw,
     existsb Recorder.isWriteHeader calls = false ->
     Recorder.Code (Recorder.run rw calls)
     = if (Recorder.Code rw =? 0) && existsb Recorder.isWrite calls
       then http.StatusOK else Recorder.Code rw) /\
  (forall rw buf,
     snd (Recorder.Write rw buf) = (Z.of_nat (String.length buf), None)).
Proof.
  split; [|split].
  - induction calls as [|c calls IH]; intros rw.
    + cbn. destruct (Recorder.Body rw); cbn; [rewrite TextFacts.append_nil_r|];
        rewrite ?orb_false_r; repeat split.
    + change (Recorder.run rw (c :: calls)) with (Recorder.run (Recorder.step rw c) calls).
      destruct (IH (Recorder.step rw c)) as (Hb & Hh & Hf). rewrite Hb, Hh, Hf.
      destruct c as [buf|code|]; cbn [Recorder.step Recorder.written existsb Recorder.isFlush].
      * unfold Recorder.Write. destruct rw as [code hm [b|] fl];
          cbn [fst Recorder.Body Recorder.Code Recorder.HeaderMap Recorder.Flushed];
          destruct (code =? 0);
          cbn [Recorder.Body Recorder.HeaderMap Recorder.Flushed option_map orb];
          rewrite ?TextFacts.append_assoc; repeat split.
      * cbn. repeat split.
      * cbn. rewrite orb_true_r. repeat split.
  - induction calls as [|c calls IH]; intros rw Hno.
    + cbn. rewrite andb_false_r. reflexivity.
    + change (Recorder.run rw (c :: calls)) with (Recorder.run (Recorder.step rw c) calls).
      cbn [existsb] in Hno. apply orb_false_elim in Hno as [Hc Hno].
      rewrite (IH _ Hno). destruct c as [buf|code|]; try discriminate Hc.
      * cbn [Recorder.step existsb Recorder.isWrite orb]. unfold Recorder.Write. cbn [fst].
        rewrite andb_true_r. destruct rw as [code hm [b|] fl];
          cbn [Recorder.Body Recorder.Code Recorder.HeaderMap Recorder.Flushed];
          destruct (code =? 0) eqn:Hz; cbn [Recorder.Code];
          try reflexivity; rewrite ?Hz; reflexivity.
      * cbn [Recorder.step existsb Recorder.isWrite orb Recorder.Flush Recorder.Code].
        reflexivity.
  - reflexivity.
Qed.

Lemma Recorder_run_spec_witness :
  Recorder.Code
    (Recorder.run Recorder.NewRecorder
       [Recorder.CallWrite "ab"; Recorder.CallFlush; Recorder.CallWrite "c"]) = 200.
Proof.
  destruct Recorder_run_spec as (_ & H & _).
  rewrite (H [Recorder.CallWrite "ab"; Recorder.CallFlush; Recorder.CallWrite "c"]
             Recorder.NewRecorder eq_refl).
  reflexivity.
Defined.
